(** * Theta Health MCP proxy: token cache and response interception

    A shallow embedding of [src/server/index.js] (classes [TokenCache] and
    [HttpMcpProxy]) together with the properties its specification states
    about the token lifecycle.

    Modelling conventions.
    - JavaScript values are the inductive [value]; numbers are exact
      integers or [NaN] (fractions and doubles beyond the exact range are
      outside the model), and their arithmetic is exact, which is that of
      JavaScript as long as operands and results are whole numbers of at
      most 2^53 in size ([safe_integer]); the readings of the clock are
      values of [Date.now ()], which stay below 8.64e15; strings are Rocq
      strings, read as the JavaScript string with the same characters.
    - Objects are lists of own enumerable properties in insertion order; an
      array is an object of kind [Array] whose elements sit under the index
      keys "0", "1", ...  A key that is not an own property is looked up
      among the inherited members of the built-in prototypes; a built-in
      function read that way is an object of kind [Func].
    - Host functions whose algorithm is not part of the repository
      ([JSON.parse], [JSON.stringify], string conversion, ISO dates) are the
      fields of the class [HostJS].
    - Methods are computations in the monad [M]: a state transformer that
      either returns or throws; state changes made before a throw persist,
      as they do in JavaScript.
    - The tokens file is kept as the outcome of reading and parsing it,
      together with the layout of its bytes: the one the program writes, or
      a text that some other program wrote. *)

From Stdlib Require Import ZArith List String Ascii Bool Lia DecimalString.
Import ListNotations.
Local Open Scope string_scope.
Local Open Scope Z_scope.

Set Warnings "-register-all".

(** ** JavaScript values *)

Inductive num : Type :=
| NaN
| Fin (z : Z).

Inductive kind : Type :=
| Plain
| Array
| Func.   (* a built-in function, reached through an inherited name *)

Inductive value : Type :=
| VUndef
| VNull
| VBool (b : bool)
| VNum (n : num)
| VStr (s : string)
| VObj (k : kind) (props : list (string * value)).

Definition props := list (string * value).

Inductive exn : Type :=
| TypeError
| SyntaxError
| RangeError
| IOError
| NetError (msg : string).

(** Induction principle that reaches the values stored in an object. *)
Section ValueInd.
Variable P : value -> Prop.
Hypothesis Hundef : P VUndef.
Hypothesis Hnull : P VNull.
Hypothesis Hbool : forall b, P (VBool b).
Hypothesis Hnum : forall n, P (VNum n).
Hypothesis Hstr : forall s, P (VStr s).
Hypothesis Hobj : forall k ps, Forall (fun kv => P (snd kv)) ps -> P (VObj k ps).

Fixpoint value_ind' (v : value) : P v :=
  match v with
  | VUndef => Hundef
  | VNull => Hnull
  | VBool b => Hbool b
  | VNum n => Hnum n
  | VStr s => Hstr s
  | VObj k ps =>
      Hobj k ps
        ((fix go (l : props) : Forall (fun kv => P (snd kv)) l :=
            match l with
            | [] => Forall_nil _
            | kv :: l' => Forall_cons kv (value_ind' (snd kv)) (go l')
            end) ps)
  end.
End ValueInd.

(** ** Numbers *)

Definition num_add (a b : num) : num :=
  match a, b with
  | Fin x, Fin y => Fin (x + y)
  | _, _ => NaN
  end.

Definition num_sub (a b : num) : num :=
  match a, b with
  | Fin x, Fin y => Fin (x - y)
  | _, _ => NaN
  end.

Definition num_mul (a b : num) : num :=
  match a, b with
  | Fin x, Fin y => Fin (x * y)
  | _, _ => NaN
  end.

(** [a > b]: false as soon as one side is [NaN]. *)
Definition num_gt (a b : num) : bool :=
  match a, b with
  | Fin x, Fin y => y <? x
  | _, _ => false
  end.

(** [Math.floor (a / d)] for a positive integer constant [d]. *)
Definition num_floor_div (a : num) (d : Z) : num :=
  match a with
  | Fin x => Fin (x / d)
  | NaN => NaN
  end.

(** [Math.ceil (x / d)] on integers, for positive [d]. *)
Definition ceil_div (x d : Z) : Z := - ((- x) / d).

(** The whole numbers that a double holds exactly.  The arithmetic above is
    that of JavaScript on operands and results in this range. *)
Definition safe_integer (z : Z) : Prop := - 2 ^ 53 <= z <= 2 ^ 53.

(** ** Strings, keys and properties *)

Definition string_of_nat (n : nat) : string :=
  NilZero.string_of_uint (Nat.to_uint n).

(** A key is an array index when it is the canonical decimal numeral of a
    natural number. *)
Definition is_index_key (k : string) : bool :=
  match NilZero.uint_of_string k with
  | Some u => String.eqb (string_of_nat (Nat.of_uint u)) k
  | None => false
  end.

Fixpoint obj_get (o : props) (k : string) : option value :=
  match o with
  | [] => None
  | (k', v) :: o' => if String.eqb k' k then Some v else obj_get o' k
  end.

(** Assignment [o[k] = v]: an existing key keeps its place. *)
Fixpoint obj_set (o : props) (k : string) (v : value) : props :=
  match o with
  | [] => [(k, v)]
  | (k', v') :: o' =>
      if String.eqb k' k then (k, v) :: o' else (k', v') :: obj_set o' k v
  end.

Fixpoint obj_delete (o : props) (k : string) : props :=
  match o with
  | [] => []
  | (k', v') :: o' =>
      if String.eqb k' k then obj_delete o' k else (k', v') :: obj_delete o' k
  end.

Definition array_length (o : props) : nat :=
  List.length (filter (fun kv => is_index_key (fst kv)) o).

Fixpoint index_from (n : nat) (l : list value) : props :=
  match l with
  | [] => []
  | v :: l' => (string_of_nat n, v) :: index_from (S n) l'
  end.

(** The array literal [[v0, v1, ...]]. *)
Definition arr (l : list value) : value := VObj Array (index_from 0 l).

(** The object literal [{k0: v0, ...}]. *)
Definition obj (o : props) : value := VObj Plain o.

Fixpoint chars_from (n : nat) (s : string) : props :=
  match s with
  | EmptyString => []
  | String c s' => (string_of_nat n, VStr (String c EmptyString)) :: chars_from (S n) s'
  end.

Definition vnum (z : Z) : value := VNum (Fin z).

(** Own enumerable properties, as copied by the spread [{...v}]. *)
Definition own_props (v : value) : props :=
  match v with
  | VObj _ o => o
  | VStr s => chars_from 0 s
  | _ => []
  end.

(** *** Inherited members

    A key that is not an own property is looked up in the prototype chain.
    The names below are the string-keyed members that the built-in
    prototypes define (ECMAScript 2024, Annex B included); [length] is an
    own property of strings and arrays and is read before the chain. *)
Definition object_prototype_names : list string :=
  ["constructor"; "__defineGetter__"; "__defineSetter__"; "hasOwnProperty";
   "__lookupGetter__"; "__lookupSetter__"; "isPrototypeOf";
   "propertyIsEnumerable"; "toString"; "valueOf"; "__proto__";
   "toLocaleString"].

Definition array_prototype_names : list string :=
  ["at"; "concat"; "copyWithin"; "entries"; "every"; "fill"; "filter";
   "find"; "findIndex"; "findLast"; "findLastIndex"; "flat"; "flatMap";
   "forEach"; "includes"; "indexOf"; "join"; "keys"; "lastIndexOf"; "map";
   "pop"; "push"; "reduce"; "reduceRight"; "reverse"; "shift"; "slice";
   "some"; "sort"; "splice"; "toReversed"; "toSorted"; "toSpliced";
   "unshift"; "values"; "with"].

Definition string_prototype_names : list string :=
  ["anchor"; "at"; "big"; "blink"; "bold"; "charAt"; "charCodeAt";
   "codePointAt"; "concat"; "endsWith"; "fixed"; "fontcolor"; "fontsize";
   "includes"; "indexOf"; "isWellFormed"; "italics"; "lastIndexOf"; "link";
   "localeCompare"; "match"; "matchAll"; "normalize"; "padEnd"; "padStart";
   "repeat"; "replace"; "replaceAll"; "search"; "slice"; "small"; "split";
   "startsWith"; "strike"; "sub"; "substr"; "substring"; "sup";
   "toLocaleLowerCase"; "toLocaleUpperCase"; "toLowerCase"; "toUpperCase";
   "toWellFormed"; "trim"; "trimEnd"; "trimLeft"; "trimRight"; "trimStart"].

Definition number_prototype_names : list string :=
  ["toExponential"; "toFixed"; "toPrecision"].

Definition function_prototype_names : list string :=
  ["apply"; "bind"; "call"].

(** The names that a value inherits. *)
Definition inherited_names (v : value) : list string :=
  match v with
  | VUndef | VNull => []
  | VBool _ => object_prototype_names
  | VNum _ => number_prototype_names ++ object_prototype_names
  | VStr _ => string_prototype_names ++ object_prototype_names
  | VObj Plain _ => object_prototype_names
  | VObj Array _ => array_prototype_names ++ object_prototype_names
  | VObj Func _ => function_prototype_names ++ object_prototype_names
  end.

Definition inherits (v : value) (k : string) : bool :=
  existsb (String.eqb k) (inherited_names v).

(** A name that some built-in prototype defines. *)
Definition builtin_name (k : string) : bool :=
  existsb (String.eqb k)
    (object_prototype_names ++ array_prototype_names ++ string_prototype_names
     ++ number_prototype_names ++ function_prototype_names).

(** What [v.__proto__] reads: the prototype object, seen through the
    properties this program can read from it, which are none.  The
    prototype of an array is itself an array and that of a function a
    function. *)
Definition prototype_of (v : value) : value :=
  match v with
  | VObj Array _ => VObj Array []
  | VObj Func _ => VObj Func []
  | _ => VObj Plain []
  end.

(** The inherited member of [v] under [k]: the prototype for the accessor
    [__proto__], a built-in function for every other inherited name,
    [undefined] when nothing is inherited.  The only members this program
    reads from what it gets this way are token fields, which a built-in
    function or prototype does not have; its own [name] and [length] and
    the restricted [caller] and [arguments] are left out.  [loadToken]
    stamps [last_used] on what it read: on a built-in that write lands on
    an object shared by the whole process, where no later step reads it,
    so the built-ins are the same at every read. *)
Definition inherited (v : value) (k : string) : value :=
  if inherits v k
  then if String.eqb k "__proto__" then prototype_of v else VObj Func []
  else VUndef.

(** Property read [v[k]] / [v.k]; [None] is the TypeError raised on
    [undefined] and [null]. *)
Definition get_prop (v : value) (k : string) : option value :=
  match v with
  | VUndef | VNull => None
  | VBool _ | VNum _ => Some (inherited v k)
  | VStr s =>
      if String.eqb k "length" then Some (vnum (Z.of_nat (String.length s)))
      else if is_index_key k
           then match obj_get (chars_from 0 s) k with
                | Some c => Some c
                | None => Some VUndef
                end
           else Some (inherited v k)
  | VObj Array o =>
      if String.eqb k "length" then Some (vnum (Z.of_nat (array_length o)))
      else match obj_get o k with
           | Some x => Some x
           | None => Some (inherited v k)
           end
  | VObj _ o =>
      match obj_get o k with
      | Some x => Some x
      | None => Some (inherited v k)
      end
  end.

(** Assignment to a key of the own properties [o].  An own property is
    overwritten.  Without one, [Object.prototype]'s setter for [__proto__]
    runs instead: it creates no property (it changes the prototype, which no
    later step of this program reads through); every other name becomes a
    new own property, also when a member of that name is inherited. *)
Definition assign (o : props) (k : string) (x : value) : props :=
  match obj_get o k with
  | Some _ => obj_set o k x
  | None => if String.eqb k "__proto__" then o else obj_set o k x
  end.

(** Property write [v[k] = x] in strict mode (the file is an ES module):
    writing to a primitive throws, unless the key is [__proto__], whose
    inherited setter returns without effect; the values written by this
    program are objects, so writing the [length] of an array is a
    RangeError. *)
Definition set_prop (v : value) (k : string) (x : value) : exn + value :=
  match v with
  | VUndef | VNull => inl TypeError
  | VBool _ | VNum _ | VStr _ =>
      if String.eqb k "__proto__" then inr v else inl TypeError
  | VObj Array o =>
      if String.eqb k "length" then inl RangeError
      else inr (VObj Array (assign o k x))
  | VObj kd o => inr (VObj kd (assign o k x))
  end.

(** [delete v[k]] in strict mode: an own property is removed, the [length]
    of an array and the characters and [length] of a string cannot be, and
    deleting a name that is only inherited does nothing. *)
Definition delete_prop (v : value) (k : string) : exn + value :=
  match v with
  | VUndef | VNull => inl TypeError
  | VBool _ | VNum _ => inr v
  | VStr s =>
      if String.eqb k "length" then inl TypeError
      else match obj_get (chars_from 0 s) k with
           | Some _ => inl TypeError
           | None => inr v
           end
  | VObj Array o =>
      if String.eqb k "length" then inl TypeError
      else inr (VObj Array (obj_delete o k))
  | VObj kd o => inr (VObj kd (obj_delete o k))
  end.

Definition truthy (v : value) : bool :=
  match v with
  | VUndef | VNull => false
  | VBool b => b
  | VNum NaN => false
  | VNum (Fin z) => negb (z =? 0)
  | VStr s => negb (String.eqb s "")
  | VObj _ _ => true
  end.

(** [a || b] and [a && b] on values (with [b] already evaluated; used where
    [b] has no effect). *)
Definition js_or (a b : value) : value := if truthy a then a else b.
Definition js_and (a b : value) : value := if truthy a then b else a.

(** Strict equality [a === b].  Two objects are equal only when they are
    the same reference; every object compared in this program is freshly
    produced by [JSON.parse], hence never identical to a stored one (the
    built-in functions and prototypes that [inherited] can bring are
    compared nowhere). *)
Definition strict_eq (a b : value) : bool :=
  match a, b with
  | VUndef, VUndef => true
  | VNull, VNull => true
  | VBool x, VBool y => Bool.eqb x y
  | VNum (Fin x), VNum (Fin y) => x =? y
  | VStr x, VStr y => String.eqb x y
  | _, _ => false
  end.

Definition is_string (v : value) : bool :=
  match v with VStr _ => true | _ => false end.

Definition is_object (v : value) : bool :=
  match v with VObj _ _ => true | _ => false end.

Definition is_undef (v : value) : bool :=
  match v with VUndef => true | _ => false end.

(** What [JSON.stringify] leaves out of an object: [undefined] and
    functions. *)
Definition omitted (v : value) : bool :=
  match v with VUndef | VObj Func _ => true | _ => false end.

(** ** What survives [JSON.stringify] followed by [JSON.parse] *)

(** In an array [undefined] and functions are written as [null]. *)
Definition undef_to_null (v : value) : value :=
  match v with VUndef => VNull | _ => v end.

Fixpoint jsonify (v : value) : value :=
  match v with
  | VNum NaN => VNull
  | VObj Func _ => VUndef
  | VObj Plain o =>
      VObj Plain
        ((fix go (l : props) : props :=
            match l with
            | [] => []
            | (k, x) :: l' =>
                if omitted x then go l' else (k, jsonify x) :: go l'
            end) o)
  | VObj Array o =>
      VObj Array
        ((fix go (l : props) : props :=
            match l with
            | [] => []
            | (k, x) :: l' =>
                if is_index_key k then (k, undef_to_null (jsonify x)) :: go l'
                else go l'
            end) o)
  | _ => v
  end.

(** The same two traversals, named. *)
Fixpoint jsonify_plain (l : props) : props :=
  match l with
  | [] => []
  | (k, x) :: l' =>
      if omitted x then jsonify_plain l' else (k, jsonify x) :: jsonify_plain l'
  end.

Fixpoint jsonify_array (l : props) : props :=
  match l with
  | [] => []
  | (k, x) :: l' =>
      if is_index_key k then (k, undef_to_null (jsonify x)) :: jsonify_array l'
      else jsonify_array l'
  end.

(** A value that [JSON.parse] can return: no [undefined], no [NaN], no
    function, and arrays carry index keys only. *)
Fixpoint is_json (v : value) : bool :=
  match v with
  | VUndef => false
  | VNum NaN => false
  | VObj Func _ => false
  | VObj Plain o =>
      (fix go (l : props) : bool :=
         match l with
         | [] => true
         | (_, x) :: l' => is_json x && go l'
         end) o
  | VObj Array o =>
      (fix go (l : props) : bool :=
         match l with
         | [] => true
         | (k, x) :: l' => is_index_key k && is_json x && go l'
         end) o
  | _ => true
  end.

(** ** Host functions *)

(** The built-ins the program calls and whose algorithm lies outside the
    repository.  [JSON_parse] takes the argument as JavaScript passes it
    (any value, converted to a string first); [None] is the SyntaxError.
    [ToString] and [ToNumber] are only consulted where the language leaves
    real work to do (non-strings in a template literal; strings and objects
    in arithmetic). *)
Class HostJS : Type := {
  JSON_parse : value -> option value;
  JSON_parse_undefined : JSON_parse VUndef = None;
  JSON_stringify : value -> string;
  ToString : value -> string;
  ToNumber : value -> num;
  toISOString : Z -> string;
  error_message : exn -> string
}.

(** ** Process state *)

Inductive FileState : Type :=
| NoFile                 (* [fs.existsSync] is false *)
| Unreadable             (* reading or [JSON.parse] throws *)
| Parsed (v : value).    (* [JSON.parse (fs.readFileSync ...)] returns [v] *)

(** The bytes of a file that parses to [v]: the text that
    [JSON.stringify (v, null, 2)] writes, or some other text with the same
    meaning. *)
Inductive Layout : Type :=
| Indented
| Foreign (text : string).

(** The variables captured by one [poll] closure of [startAutoPolling]. *)
Record PollSession : Type := mkSession {
  ps_state : value;
  ps_check_interval : value;
  ps_max_wait_time : value;
  ps_startTime : Z
}.

(** A pending [setTimeout (poll, delay)]. *)
Record Timer : Type := mkTimer {
  tm_session : PollSession;
  tm_delay : num
}.

(** Outbound traffic. *)
Inductive request : Type :=
| Post (data : props) (headers : props)
| Get (url : string).

(** One constructor per [console.error] message of the source; interpolated
    values are carried as arguments. *)
Inductive LogMsg : Type :=
| LogLoadAllFailed (e : exn)
| LogSaveAllFailed (e : exn)
| LogSaveTokenFailed (e : exn)
| LogLoadTokenFailed (e : exn)
| LogClearTokenFailed (e : exn)
| LogUsingCached (prefix : string)
| LogExpiredReauth
| LogNoCachedToken
| LogRefreshOk
| LogRefreshFailed (e : exn)
| LogBrowserDetected
| LogAuthUrl (url : value)
| LogDebounced (seconds_ago : Z) (wait_seconds : Z)
| LogManualCopy
| LogUrlLine (url : value)
| LogContinuePolling
| LogClearingOldToken
| LogStepsHeader
| LogStep (key : string) (instruction : value)
| LogOpenFailed (e : exn)
| LogStartPolling
| LogPollingBegin (max_wait_time : value)
| LogPollTimeout
| LogAuthCompleted
| LogTokenPrefix (prefix : string)
| LogAuthFlowDone
| LogWaiting (seconds : Z)
| LogSessionExpired
| LogSessionUnauthorized
| LogUnknownStatus (status : value) (message : value)
| LogPollFailed (e : exn)
| LogNewTokenDetected
| LogNewTokenPrefix (prefix : string)
| LogTokenUpdated
| LogHandleAuthFailed (e : exn)
| LogHandleBrowserFailed (e : exn)
| LogErrorCallingTool (e : exn).

Record State : Type := mkState {
  (* HttpMcpProxy *)
  httpServiceUrl : string;
  token : value;
  lastBrowserOpenTime : Z;
  (* TokenCache; its [endpoint] is [httpServiceUrl] *)
  environmentKey : string;
  (* the surroundings *)
  clock : Z;                 (* what the next [Date.now ()] returns *)
  ticks : list nat;          (* by how much the clock moves after each reading *)
  tokensFile : FileState;
  writable : bool;           (* whether [fs.writeFileSync] succeeds *)
  truncates : bool;          (* whether a write that fails has by then emptied
                                the file ([false]: it fails on opening) *)
  layout : Layout;           (* how the bytes of an existing file are laid out *)
  writes : nat;              (* completed [fs.writeFileSync] calls *)
  console : list LogMsg;
  execs : list string;       (* commands handed to [exec] *)
  timers : list Timer;
  requests : list request;
  platform : string          (* [os.platform ()] *)
}.

Definition browserOpenDebounceTime : Z := 10000.

Definition set_token (x : value) (s : State) : State :=
  mkState (httpServiceUrl s) x (lastBrowserOpenTime s) (environmentKey s)
    (clock s) (ticks s) (tokensFile s) (writable s) (truncates s) (layout s)
    (writes s) (console s) (execs s) (timers s) (requests s) (platform s).

Definition set_lastBrowserOpenTime (x : Z) (s : State) : State :=
  mkState (httpServiceUrl s) (token s) x (environmentKey s)
    (clock s) (ticks s) (tokensFile s) (writable s) (truncates s) (layout s)
    (writes s) (console s) (execs s) (timers s) (requests s) (platform s).

Definition tick (s : State) : State :=
  mkState (httpServiceUrl s) (token s) (lastBrowserOpenTime s) (environmentKey s)
    (clock s + Z.of_nat (hd 0%nat (ticks s))) (tl (ticks s)) (tokensFile s)
    (writable s) (truncates s) (layout s)
    (writes s) (console s) (execs s) (timers s) (requests s) (platform s).

(** A completed write: the file now parses to [v] and is laid out by the
    program. *)
Definition write_file (v : value) (s : State) : State :=
  mkState (httpServiceUrl s) (token s) (lastBrowserOpenTime s) (environmentKey s)
    (clock s) (ticks s) (Parsed v) (writable s) (truncates s) Indented
    (S (writes s)) (console s) (execs s) (timers s) (requests s) (platform s).

(** A write that fails after the file was opened leaves it empty or cut
    short: the file exists and does not parse. *)
Definition truncate_file (s : State) : State :=
  mkState (httpServiceUrl s) (token s) (lastBrowserOpenTime s) (environmentKey s)
    (clock s) (ticks s) Unreadable (writable s) (truncates s) (layout s)
    (writes s) (console s) (execs s) (timers s) (requests s) (platform s).

Definition add_log (m : LogMsg) (s : State) : State :=
  mkState (httpServiceUrl s) (token s) (lastBrowserOpenTime s) (environmentKey s)
    (clock s) (ticks s) (tokensFile s) (writable s) (truncates s) (layout s)
    (writes s) (console s ++ [m]) (execs s) (timers s) (requests s)
    (platform s).

Definition add_exec (c : string) (s : State) : State :=
  mkState (httpServiceUrl s) (token s) (lastBrowserOpenTime s) (environmentKey s)
    (clock s) (ticks s) (tokensFile s) (writable s) (truncates s) (layout s)
    (writes s) (console s) (execs s ++ [c]) (timers s) (requests s)
    (platform s).

Definition add_timer (t : Timer) (s : State) : State :=
  mkState (httpServiceUrl s) (token s) (lastBrowserOpenTime s) (environmentKey s)
    (clock s) (ticks s) (tokensFile s) (writable s) (truncates s) (layout s)
    (writes s) (console s) (execs s) (timers s ++ [t]) (requests s)
    (platform s).

Definition add_request (r : request) (s : State) : State :=
  mkState (httpServiceUrl s) (token s) (lastBrowserOpenTime s) (environmentKey s)
    (clock s) (ticks s) (tokensFile s) (writable s) (truncates s) (layout s)
    (writes s) (console s) (execs s) (timers s) (requests s ++ [r])
    (platform s).

(** ** The monad of methods *)

Inductive outcome (A : Type) : Type :=
| Ret (a : A)
| Throw (e : exn).
Arguments Ret {A} a.
Arguments Throw {A} e.

Definition M (A : Type) : Type := State -> outcome A * State.

Definition ret {A} (a : A) : M A := fun s => (Ret a, s).

Definition throw {A} (e : exn) : M A := fun s => (Throw e, s).

Definition bind {A B} (m : M A) (k : A -> M B) : M B :=
  fun s =>
    match m s with
    | (Ret a, s') => k a s'
    | (Throw e, s') => (Throw e, s')
    end.

(** [try { m } catch (e) { h e }] *)
Definition try_catch {A} (m : M A) (h : exn -> M A) : M A :=
  fun s =>
    match m s with
    | (Ret a, s') => (Ret a, s')
    | (Throw e, s') => h e s'
    end.

Declare Scope js_scope.
Delimit Scope js_scope with js.
Notation "x <- c1 ;; c2" := (bind c1 (fun x => c2))
  (at level 61, c1 at next level, right associativity) : js_scope.
Notation "c1 ;; c2" := (bind c1 (fun _ => c2))
  (at level 61, right associativity) : js_scope.
Local Open Scope js_scope.

Definition gets {A} (f : State -> A) : M A := fun s => (Ret (f s), s).

Definition modify (f : State -> State) : M unit := fun s => (Ret tt, f s).

Definition lift_opt {A} (o : option A) : M A :=
  match o with
  | Some a => ret a
  | None => throw TypeError
  end.

Definition lift_sum {A} (r : exn + A) : M A :=
  match r with
  | inr a => ret a
  | inl e => throw e
  end.

(** [v.k] as a step of a method. *)
Definition get (v : value) (k : string) : M value := lift_opt (get_prop v k).

Definition Date_now : M Z := fun s => (Ret (clock s), tick s).

Definition console_error (m : LogMsg) : M unit := modify (add_log m).

(** What a failing write leaves: the file as it was when the failure comes
    on opening it (no directory, no permission), an emptied or cut file when
    it comes later (the file is opened with the flag [w], which truncates
    it). *)
Definition failed_write (s : State) : State :=
  if truncates s then truncate_file s else s.

(** [fs.writeFileSync (tokensFile, JSON.stringify (d, null, 2))]: a later
    read parses to [jsonify d]. *)
Definition writeFileSync (d : value) : M unit :=
  fun s =>
    if writable s then (Ret tt, write_file (jsonify d) s)
    else (Throw IOError, failed_write s).

Definition seven_days : Z := 7 * 24 * 60 * 60 * 1000.

(** [s.substring (0, 20)]; calling it on anything but a string is a
    TypeError. *)
Definition substring20 (v : value) : exn + string :=
  match v with
  | VStr s => inr (substring 0 20 s)
  | _ => inl TypeError
  end.

Definition dquote : string := String (ascii_of_nat 34) EmptyString.

Fixpoint strip_suffix_rev (suffix_rev s_rev : list ascii) : option (list ascii) :=
  match suffix_rev, s_rev with
  | [], _ => Some s_rev
  | a :: p, b :: r => if Ascii.eqb a b then strip_suffix_rev p r else None
  | _ :: _, [] => None
  end.

(** [url.replace (/\/mcp$/, "")] *)
Definition strip_mcp (url : string) : string :=
  match strip_suffix_rev (rev (list_ascii_of_string "/mcp"))
          (rev (list_ascii_of_string url)) with
  | Some r => string_of_list_ascii (rev r)
  | None => url
  end.

Definition is_alnum (c : ascii) : bool :=
  let n := nat_of_ascii c in
  ((48 <=? n) && (n <=? 57) || (65 <=? n) && (n <=? 90)
   || (97 <=? n) && (n <=? 122))%nat.

Fixpoint replace_non_alnum (s : string) : string :=
  match s with
  | EmptyString => EmptyString
  | String c s' =>
      String (if is_alnum c then c else "_"%char) (replace_non_alnum s')
  end.

(** ** class TokenCache *)

Module TokenCache.
Section WithHost.
Context {host : HostJS}.

(** [_getEnvironmentKey]; the argument is the host name found by
    [new URL (endpoint)], or [None] when that constructor throws. *)
Definition _getEnvironmentKey (hostname : option string) : string :=
  match hostname with
  | Some h => replace_non_alnum h
  | None => "default"
  end.

Definition _loadAllTokens : M value :=
  try_catch
    (fun s =>
       match tokensFile s with
       | NoFile => (Ret (obj []), s)
       | Unreadable => (Throw SyntaxError, s)
       | Parsed v => (Ret v, s)
       end)
    (fun e => console_error (LogLoadAllFailed e) ;; ret (obj [])).

Definition metadata (t : Z) : value :=
  obj [("last_updated", VStr (toISOString t));
       ("version", VStr "2.0");
       ("description",
        VStr "Multi-environment token cache for Theta Health MCP")].

Definition _saveAllTokens (allTokens : value) : M value :=
  try_catch
    (t <- Date_now ;;
     let tokensData :=
       obj (obj_set (own_props allTokens) "_metadata" (metadata t)) in
     writeFileSync tokensData ;;
     ret (VBool true))
    (fun e => console_error (LogSaveAllFailed e) ;; ret (VBool false)).

Definition saveToken (tokenData : value) : M value :=
  try_catch
    (access_token <- get tokenData "access_token" ;;
     token_type <- get tokenData "token_type" ;;
     given <- get tokenData "expires_at" ;;
     expires_at <-
       (if truthy given then ret given
        else (now <- Date_now ;; ret (vnum (now + seven_days)))) ;;
     refresh_token <- get tokenData "refresh_token" ;;
     scope <- get tokenData "scope" ;;
     created_at <- Date_now ;;
     endpoint <- gets httpServiceUrl ;;
     environment <- gets environmentKey ;;
     last_used <- Date_now ;;
     let cacheData :=
       obj [("access_token", access_token);
            ("token_type", js_or token_type (VStr "Bearer"));
            ("expires_at", expires_at);
            ("refresh_token", refresh_token);
            ("scope", scope);
            ("created_at", vnum created_at);
            ("endpoint", VStr endpoint);
            ("environment", VStr environment);
            ("last_used", vnum last_used)] in
     allTokens <- _loadAllTokens ;;
     allTokens' <- lift_sum (set_prop allTokens environment cacheData) ;;
     _saveAllTokens allTokens')
    (fun e => console_error (LogSaveTokenFailed e) ;; ret (VBool false)).

(** Operands of arithmetic and of [>] against a number. *)
Definition toNumber (v : value) : num :=
  match v with
  | VUndef => NaN
  | VNull => Fin 0
  | VBool b => Fin (if b then 1 else 0)
  | VNum n => n
  | VStr _ | VObj _ _ => ToNumber v
  end.

Definition loadToken : M value :=
  try_catch
    (allTokens <- _loadAllTokens ;;
     key <- gets environmentKey ;;
     tokenData <- get allTokens key ;;
     if negb (truthy tokenData) then ret VNull
     else
       expires_at <- get tokenData "expires_at" ;;
       expired <-
         (if truthy expires_at
          then (now <- Date_now ;;
                ret (num_gt (Fin now) (toNumber expires_at)))
          else ret false) ;;
       if expired
       then ret (obj (obj_set (own_props tokenData) "expired" (VBool true)))
       else
         now <- Date_now ;;
         tokenData' <- lift_sum (set_prop tokenData "last_used" (vnum now)) ;;
         allTokens' <- lift_sum (set_prop allTokens key tokenData') ;;
         _saveAllTokens allTokens' ;;
         ret tokenData')
    (fun e => console_error (LogLoadTokenFailed e) ;; ret VNull).

Definition clearToken : M unit :=
  try_catch
    (allTokens <- _loadAllTokens ;;
     key <- gets environmentKey ;;
     current <- get allTokens key ;;
     if truthy current
     then (allTokens' <- lift_sum (delete_prop allTokens key) ;;
           _saveAllTokens allTokens' ;;
           ret tt)
     else ret tt)
    (fun e => console_error (LogClearTokenFailed e)).

Inductive TokenStatus : Type :=
| NotFound
| Expired (token : value)
| Valid (token : value) (hours_left : num).

Definition getTokenStatus : M TokenStatus :=
  token <- loadToken ;;
  if negb (truthy token) then ret NotFound
  else
    expired <- get token "expired" ;;
    if truthy expired then ret (Expired token)
    else
      expires_at <- get token "expires_at" ;;
      now <- Date_now ;;
      ret (Valid token
             (num_floor_div (num_sub (toNumber expires_at) (Fin now))
                (1000 * 60 * 60))).
End WithHost.
End TokenCache.

(** ** class HttpMcpProxy *)

Module HttpMcpProxy.
Import TokenCache.
Section WithHost.
Context {host : HostJS}.

(** A template literal's [${v}]. *)
Definition to_string (v : value) : string :=
  match v with
  | VStr s => s
  | _ => ToString v
  end.

Definition authNotRequiredTools : list string :=
  ["start_authentication"; "get_code"; "oauth_exchange_code_for_token";
   "oauth_refresh_token"; "oauth_validate_token"; "tools/list";
   "resources/list"; "prompts/list"].

(** [authNotRequiredTools.includes (v)] *)
Definition includes (l : list string) (v : value) : bool :=
  match v with
  | VStr s => existsb (String.eqb s) l
  | _ => false
  end.

(** [data.k] of an object literal. *)
Definition field (data : props) (k : string) : value :=
  match obj_get data k with
  | Some x => x
  | None => VUndef
  end.

(** [data.params?.name] *)
Definition params_name (data : props) : value :=
  match field data "params" with
  | VUndef | VNull => VUndef
  | p => match get_prop p "name" with
         | Some x => x
         | None => VUndef
         end
  end.

Definition needsAuth (data : props) : bool :=
  negb (strict_eq (field data "method") (VStr "tools/list")
        || strict_eq (field data "method") (VStr "resources/list")
        || strict_eq (field data "method") (VStr "prompts/list")
        || (strict_eq (field data "method") (VStr "tools/call")
            && includes authNotRequiredTools (params_name data))).

Definition request_headers (tok : value) (data : props) : props :=
  let postData := JSON_stringify (obj data) in
  let headers :=
    [("Content-Type", VStr "application/json");
     ("Content-Length", vnum (Z.of_nat (String.length postData)))] in
  if needsAuth data && truthy tok
  then obj_set headers "Authorization" (VStr ("Bearer " ++ to_string tok))
  else headers.

(** [makeHttpRequest]: the request goes out with the headers computed
    from the current token; [net] is how the promise settles (the parsed
    body, or the error it rejects with).  The configured endpoint is
    taken to be a well-formed URL. *)
Definition makeHttpRequest (data : props) (net : exn + value) : M value :=
  tok <- gets token ;;
  modify (add_request (Post data (request_headers tok data))) ;;
  lift_sum net.

Definition makeHttpStateCheckRequest (url : string) (net : exn + value)
  : M value :=
  modify (add_request (Get url)) ;;
  lift_sum net.

(** The guard
    [response.result && response.result.content && response.result.content[0]]
    followed by [JSON.parse (response.result.content[0].text)], shared by
    the two classifiers and the two handlers.  [inl]: an exception;
    [inr None]: the guard is falsy; [inr (Some c)]: the parsed payload. *)
Definition embedded_payload (response : value) : exn + option value :=
  match get_prop response "result" with
  | None => inl TypeError
  | Some result =>
      if negb (truthy result) then inr None
      else
        match get_prop result "content" with
        | None => inl TypeError
        | Some content =>
            if negb (truthy content) then inr None
            else
              match get_prop content "0" with
              | None => inl TypeError
              | Some block =>
                  if negb (truthy block) then inr None
                  else
                    match get_prop block "text" with
                    | None => inl TypeError
                    | Some text =>
                        match JSON_parse text with
                        | None => inl SyntaxError
                        | Some c => inr (Some c)
                        end
                    end
              end
        end
  end.

(** The classifiers return a JavaScript value that the caller tests for
    truthiness; their [try]/[catch] turns every exception into [false]. *)
Definition isTokenAuthResponse (response : value) : value :=
  match embedded_payload response with
  | inr (Some content) =>
      match get_prop content "success", get_prop content "access_token",
            get_prop content "token_type" with
      | Some success, Some access_token, Some token_type =>
          js_and (VBool (strict_eq success (VBool true)))
            (js_and access_token
               (VBool (strict_eq token_type (VStr "Bearer"))))
      | _, _, _ => VBool false
      end
  | inr None => VBool false
  | inl _ => VBool false
  end.

Definition isAutoOpenBrowserResponse (response : value) : value :=
  match embedded_payload response with
  | inr (Some content) =>
      match get_prop content "auto_open_browser",
            get_prop content "authorization_url" with
      | Some auto_open_browser, Some authorization_url =>
          js_and (VBool (strict_eq auto_open_browser (VBool true)))
            authorization_url
      | _, _ => VBool false
      end
  | inr None => VBool false
  | inl _ => VBool false
  end.

Definition setTimeout (sess : PollSession) : M unit :=
  modify (add_timer
            (mkTimer sess
               (num_mul (toNumber (ps_check_interval sess)) (Fin 1000)))).

(** A destructuring default [k = d] applies when the property is
    [undefined]. *)
Definition with_default (v d : value) : value :=
  if is_undef v then d else v.

(** [startAutoPolling] up to its first timer.  It is an async function
    called without [await]: an exception inside it would reject a promise
    nobody observes, so it never reaches the caller. *)
Definition startAutoPolling (pollingConfig : value) : M unit :=
  try_catch
    (state <- get pollingConfig "state" ;;
     check_interval <- get pollingConfig "check_interval" ;;
     max_wait_time <- get pollingConfig "max_wait_time" ;;
     startTime <- Date_now ;;
     let sess :=
       mkSession state (with_default check_interval (vnum 3))
         (with_default max_wait_time (vnum 300)) startTime in
     console_error (LogPollingBegin (ps_max_wait_time sess)) ;;
     setTimeout sess)
    (fun _ => ret tt).

(** One run of the [poll] closure; [net] is how the status request
    settles.  The request is only made when the session has not timed
    out. *)
Definition poll (sess : PollSession) (net : exn + value) : M unit :=
  try_catch
    (now <- Date_now ;;
     if num_gt (Fin (now - ps_startTime sess))
          (num_mul (toNumber (ps_max_wait_time sess)) (Fin 1000))
     then console_error LogPollTimeout
     else
       base <- gets httpServiceUrl ;;
       let checkUrl :=
         strip_mcp base ++ "/oauth2/check_state/" ++ to_string (ps_state sess) in
       response <- makeHttpStateCheckRequest checkUrl net ;;
       status <- get response "status" ;;
       if strict_eq status (VStr "completed") then
         console_error LogAuthCompleted ;;
         tok <- get response "token" ;;
         prefix <- lift_sum (substring20 tok) ;;
         console_error (LogTokenPrefix prefix) ;;
         token_type <- get response "token_type" ;;
         now' <- Date_now ;;
         endpoint <- gets httpServiceUrl ;;
         saveToken
           (obj [("access_token", tok);
                 ("token_type", token_type);
                 ("expires_at", vnum (now' + seven_days));
                 ("endpoint", VStr endpoint)]) ;;
         modify (set_token tok) ;;
         console_error LogAuthFlowDone
       else if strict_eq status (VStr "pending")
               || strict_eq status (VStr "auth_code_generated") then
         now' <- Date_now ;;
         console_error (LogWaiting ((now' - ps_startTime sess) / 1000)) ;;
         setTimeout sess
       else if strict_eq status (VStr "expired") then
         console_error LogSessionExpired
       else if strict_eq status (VStr "unauthorized") then
         console_error LogSessionUnauthorized
       else
         message <- get response "message" ;;
         console_error (LogUnknownStatus status (js_or message (VStr ""))) ;;
         setTimeout sess)
    (fun e => console_error (LogPollFailed e) ;; setTimeout sess).

Definition handleTokenAuthResponse (response : value) : M value :=
  try_catch
    (payload <- lift_sum (embedded_payload response) ;;
     match payload with
     | None => ret (VBool false)
     | Some content =>
         newToken <- get content "access_token" ;;
         current <- gets token ;;
         if truthy newToken && negb (strict_eq newToken current) then
           console_error LogNewTokenDetected ;;
           prefix <- lift_sum (substring20 newToken) ;;
           console_error (LogNewTokenPrefix prefix) ;;
           modify (set_token newToken) ;;
           token_type <- get content "token_type" ;;
           now <- Date_now ;;
           expires_in <- get content "expires_in" ;;
           refresh_token <- get content "refresh_token" ;;
           scope <- get content "scope" ;;
           endpoint <- gets httpServiceUrl ;;
           saveToken
             (obj [("access_token", newToken);
                   ("token_type", js_or token_type (VStr "Bearer"));
                   ("expires_at",
                    VNum (num_add (Fin now)
                            (num_mul (toNumber (js_or expires_in (vnum 3600)))
                               (Fin 1000))));
                   ("refresh_token", refresh_token);
                   ("scope", scope);
                   ("endpoint", VStr endpoint)]) ;;
           console_error LogTokenUpdated ;;
           ret (VBool true)
         else ret (VBool false)
     end)
    (fun e => console_error (LogHandleAuthFailed e) ;; ret (VBool false)).

(** [Object.entries (v).forEach (([key, instruction]) => console.error ...)] *)
Fixpoint log_steps (entries : props) : M unit :=
  match entries with
  | [] => ret tt
  | (key, instruction) :: rest =>
      console_error (LogStep key instruction) ;; log_steps rest
  end.

Definition open_command (plat : string) (url : value) : string :=
  if String.eqb plat "darwin" then "open " ++ dquote ++ to_string url ++ dquote
  else if String.eqb plat "win32"
       then "start " ++ dquote ++ to_string url ++ dquote
       else "xdg-open " ++ dquote ++ to_string url ++ dquote.

(** [exec (command, callback)]: the command is launched; the callback,
    which only logs, runs in a later turn and is not modelled. *)
Definition exec (command : string) : M unit := modify (add_exec command).

(** [if (content.auto_polling && content.auto_polling.enabled)] *)
Definition polling_enabled (content : value) : M bool :=
  auto_polling <- get content "auto_polling" ;;
  if truthy auto_polling
  then (enabled <- get auto_polling "enabled" ;; ret (truthy enabled))
  else ret false.

Definition handleAutoOpenBrowserResponse (response : value) : M value :=
  try_catch
    (payload <- lift_sum (embedded_payload response) ;;
     match payload with
     | None => ret (VBool false)
     | Some content =>
         auto_open_browser <- get content "auto_open_browser" ;;
         authorization_url <- get content "authorization_url" ;;
         if truthy auto_open_browser && truthy authorization_url then
           console_error LogBrowserDetected ;;
           console_error (LogAuthUrl authorization_url) ;;
           currentTime <- Date_now ;;
           last <- gets lastBrowserOpenTime ;;
           let timeSinceLastOpen := currentTime - last in
           if timeSinceLastOpen <? browserOpenDebounceTime then
             console_error
               (LogDebounced (timeSinceLastOpen / 1000)
                  (ceil_div (browserOpenDebounceTime - timeSinceLastOpen) 1000)) ;;
             console_error LogManualCopy ;;
             console_error (LogUrlLine authorization_url) ;;
             enabled <- polling_enabled content ;;
             (if enabled
              then (console_error LogContinuePolling ;;
                    auto_polling <- get content "auto_polling" ;;
                    startAutoPolling auto_polling)
              else ret tt) ;;
             ret (VBool true)
           else
             modify (set_lastBrowserOpenTime currentTime) ;;
             console_error LogClearingOldToken ;;
             clearToken ;;
             modify (set_token VNull) ;;
             client_instructions <- get content "client_instructions" ;;
             (if truthy client_instructions
              then (console_error LogStepsHeader ;;
                    log_steps (own_props client_instructions))
              else ret tt) ;;
             try_catch
               (plat <- gets platform ;;
                exec (open_command plat authorization_url))
               (fun e =>
                  console_error (LogOpenFailed e) ;;
                  console_error LogManualCopy ;;
                  console_error (LogUrlLine authorization_url)) ;;
             enabled <- polling_enabled content ;;
             (if enabled
              then (console_error LogStartPolling ;;
                    auto_polling <- get content "auto_polling" ;;
                    startAutoPolling auto_polling)
              else ret tt) ;;
             ret (VBool true)
         else ret (VBool false)
     end)
    (fun e => console_error (LogHandleBrowserFailed e) ;; ret (VBool false)).

(** [refreshToken]; [net] settles the [oauth_refresh_token] call. *)
Definition refreshToken (refreshToken : value) (net : exn + value) : M value :=
  try_catch
    (id <- Date_now ;;
     response <-
       makeHttpRequest
         [("jsonrpc", VStr "2.0");
          ("id", vnum id);
          ("method", VStr "tools/call");
          ("params",
           obj [("name", VStr "oauth_refresh_token");
                ("arguments", obj [("refresh_token", refreshToken)])])]
         net ;;
     if negb (truthy response) then ret VNull
     else
       result <- get response "result" ;;
       if negb (truthy result) then ret VNull
       else
         rcontent <- get result "content" ;;
         if negb (truthy rcontent) then ret VNull
         else
           block <- get rcontent "0" ;;
           text <- get block "text" ;;
           content <-
             (match JSON_parse text with
              | Some c => ret c
              | None => throw SyntaxError
              end) ;;
           success <- get content "success" ;;
           if truthy success then
             access_token <- get content "access_token" ;;
             token_type <- get content "token_type" ;;
             now <- Date_now ;;
             expires_in <- get content "expires_in" ;;
             refresh_token <- get content "refresh_token" ;;
             scope <- get content "scope" ;;
             endpoint <- gets httpServiceUrl ;;
             saveToken
               (obj [("access_token", access_token);
                     ("token_type", token_type);
                     ("expires_at",
                      VNum (num_add (Fin now)
                              (num_mul (toNumber expires_in) (Fin 1000))));
                     ("refresh_token", js_or refresh_token refreshToken);
                     ("scope", scope);
                     ("endpoint", VStr endpoint)]) ;;
             console_error LogRefreshOk ;;
             ret content
           else ret VNull)
    (fun e => console_error (LogRefreshFailed e) ;; ret VNull).

(** [loadCachedToken]; [net] settles the refresh call, if one is made. *)
Definition loadCachedToken (net : exn + value) : M value :=
  current <- gets token ;;
  if truthy current then ret current
  else
    tokenStatus <- getTokenStatus ;;
    match tokenStatus with
    | Valid tok _ =>
        access_token <- get tok "access_token" ;;
        modify (set_token access_token) ;;
        prefix <- lift_sum (substring20 access_token) ;;
        console_error (LogUsingCached prefix) ;;
        ret access_token
    | Expired tok =>
        refresh_token <- get tok "refresh_token" ;;
        refreshResult <-
          (if truthy refresh_token then refreshToken refresh_token net
           else ret VNull) ;;
        if truthy refresh_token && truthy refreshResult then
          access_token <- get refreshResult "access_token" ;;
          modify (set_token access_token) ;;
          ret access_token
        else
          console_error LogExpiredReauth ;;
          ret VNull
    | NotFound =>
        console_error LogNoCachedToken ;;
        ret VNull
    end.

Definition text_content (text : string) : value :=
  obj [("content", arr [obj [("type", VStr "text"); ("text", VStr text)]])].

(** The [CallToolRequestSchema] handler for a request with the given
    [params.name] and [params.arguments]; [net] settles the forwarded
    call. *)
Definition callTool (name arguments : value) (net : exn + value) : M value :=
  try_catch
    (response <-
       makeHttpRequest
         [("jsonrpc", VStr "2.0");
          ("id", vnum 1);
          ("method", VStr "tools/call");
          ("params", obj [("name", name); ("arguments", arguments)])]
         net ;;
     (if truthy (isTokenAuthResponse response)
      then (handleTokenAuthResponse response ;; ret tt)
      else ret tt) ;;
     (if truthy (isAutoOpenBrowserResponse response)
      then (handleAutoOpenBrowserResponse response ;; ret tt)
      else ret tt) ;;
     result <- get response "result" ;;
     content <-
       (match result with
        | VUndef | VNull => ret VUndef
        | _ => get result "content"
        end) ;;
     if truthy content then ret (obj [("content", content)])
     else ret (text_content (JSON_stringify (js_or result (obj [])))))
    (fun e =>
       console_error (LogErrorCallingTool e) ;;
       ret (text_content ("Error: " ++ error_message e))).
End WithHost.
End HttpMcpProxy.

(** ** A host for concrete runs *)

(** Compact JSON text of a value built from objects, arrays, strings without
    escapes, integers, booleans and [null]. *)
Module Sample.
Definition text_of_Z (z : Z) : string := NilZero.string_of_int (Z.to_int z).

Definition quoted (s : string) : string := dquote ++ s ++ dquote.

Fixpoint json_text (v : value) : string :=
  match v with
  | VUndef => "undefined"
  | VNull => "null"
  | VBool true => "true"
  | VBool false => "false"
  | VNum NaN => "null"
  | VNum (Fin z) => text_of_Z z
  | VStr s => quoted s
  | VObj Plain o =>
      "{" ++
      (fix go (l : props) (first : bool) : string :=
         match l with
         | [] => ""
         | (k, x) :: l' =>
             (if first then "" else ",") ++ quoted k ++ ":" ++ json_text x
             ++ go l' false
         end) o true
      ++ "}"
  | VObj Array o =>
      "[" ++
      (fix go (l : props) (first : bool) : string :=
         match l with
         | [] => ""
         | (_, x) :: l' =>
             (if first then "" else ",") ++ json_text x ++ go l' false
         end) o true
      ++ "]"
  | VObj Func _ => "undefined"
  end.

(** Payloads that the remote service sends in the runs below. *)
Definition auth_success (tok : string) : value :=
  obj [("success", VBool true);
       ("access_token", VStr tok);
       ("token_type", VStr "Bearer")].

Definition auth_success_for (tok : string) (seconds : Z) : value :=
  obj [("success", VBool true);
       ("access_token", VStr tok);
       ("token_type", VStr "Bearer");
       ("expires_in", vnum seconds)].

Definition polling_config : value :=
  obj [("enabled", VBool true);
       ("state", VStr "st-1");
       ("check_interval", vnum 3);
       ("max_wait_time", vnum 300)].

Definition browser_required (url : string) : value :=
  obj [("auto_open_browser", VBool true);
       ("authorization_url", VStr url);
       ("auto_polling", polling_config)].

Definition refreshed (tok : string) (seconds : Z) : value :=
  obj [("success", VBool true);
       ("access_token", VStr tok);
       ("token_type", VStr "Bearer");
       ("expires_in", vnum seconds)].

Definition known_payloads : list value :=
  [auth_success "tok-1"; auth_success_for "tok-1" 60;
   browser_required "https://auth.example/a";
   browser_required "https://auth.example/b";
   refreshed "tok-2" (-5); refreshed "tok-2" 60].

(** [JSON.parse] on the texts of [known_payloads]; every other argument
    used below is not JSON. *)
Definition parse (v : value) : option value :=
  match v with
  | VStr s => find (fun p => String.eqb (json_text p) s) known_payloads
  | _ => None
  end.

#[export] Instance host : HostJS := {
  JSON_parse := parse;
  JSON_parse_undefined := eq_refl;
  JSON_stringify := json_text;
  ToString := json_text;
  ToNumber := fun _ => NaN;
  toISOString := text_of_Z;
  error_message := fun e =>
    match e with
    | NetError msg => msg
    | TypeError => "TypeError"
    | SyntaxError => "SyntaxError"
    | RangeError => "RangeError"
    | IOError => "IOError"
    end
}.

(** A tool-call response whose first content block carries [text]. *)
Definition response_with_text (text : value) : value :=
  obj [("jsonrpc", VStr "2.0");
       ("id", vnum 1);
       ("result",
        obj [("content", arr [obj [("type", VStr "text"); ("text", text)]])])].

Definition response_of (payload : value) : value :=
  response_with_text (VStr (json_text payload)).

(** A proxy just constructed for the default endpoint, at time [t]. *)
Definition fresh (t : Z) (file : FileState) : State :=
  mkState "https://mcp.thetahealth.ai/mcp" VNull 0 "mcp_thetahealth_ai"
    t [] file true false Indented 0 [] [] [] [] "linux".
End Sample.

(** Time passing between two turns of the event loop. *)
Definition elapse (d : N) (s : State) : State :=
  mkState (httpServiceUrl s) (token s) (lastBrowserOpenTime s) (environmentKey s)
    (clock s + Z.of_N d) (ticks s) (tokensFile s) (writable s) (truncates s)
    (layout s) (writes s) (console s) (execs s) (timers s) (requests s)
    (platform s).

(** The record kept for an environment key in the tokens file. *)
Definition record_of (f : FileState) (key : string) : option value :=
  match f with
  | Parsed (VObj _ o) => obj_get o key
  | _ => None
  end.

Definition record_field (f : FileState) (key field : string) : option value :=
  match record_of f key with
  | Some (VObj _ r) => obj_get r field
  | _ => None
  end.

(** ** Auxiliary definitions for the statements *)

Definition file_json (f : FileState) : bool :=
  match f with
  | Parsed v => is_json v
  | _ => true
  end.

(** What [_loadAllTokens] returns for a file. *)
Definition loaded (f : FileState) : value :=
  match f with
  | Parsed v => v
  | _ => obj []
  end.

Definition is_nullish (v : value) : bool :=
  match v with
  | VUndef | VNull => true
  | _ => false
  end.

(** [v.k] for a [v] that is neither [undefined] nor [null]. *)
Definition fieldv (v : value) (k : string) : value :=
  match get_prop v k with
  | Some x => x
  | None => VUndef
  end.

Definition props_json (o : props) : bool :=
  forallb (fun kv => is_json (snd kv)) o.

(** The fields of the state that only the proxy itself changes: a method
    of [TokenCache] moves the clock, the file, the write counter and the
    console, and nothing else. *)
Record store_only (s s' : State) : Prop := mkStoreOnly {
  so_url : httpServiceUrl s' = httpServiceUrl s;
  so_token : token s' = token s;
  so_last : lastBrowserOpenTime s' = lastBrowserOpenTime s;
  so_env : environmentKey s' = environmentKey s;
  so_writable : writable s' = writable s;
  so_truncates : truncates s' = truncates s;
  so_execs : execs s' = execs s;
  so_timers : timers s' = timers s;
  so_requests : requests s' = requests s;
  so_platform : platform s' = platform s
}.

(** A save for the current environment reaches the file: the file can be
    written, what is there is absent, unreadable or a JSON object, and the
    environment key is not the reserved metadata key. *)
Definition can_store (s : State) : bool :=
  writable s
  && negb (String.eqb (environmentKey s) "_metadata")
  && match tokensFile s with
     | NoFile | Unreadable => true
     | Parsed (VObj Plain _) => true
     | Parsed _ => false
     end.

Section Specifications.
Context {host : HostJS}.
Import TokenCache HttpMcpProxy.

(** The record that [saveToken] builds in state [s]. *)
Definition cache_record (tokenData : value) (s : State) : value :=
  let given := fieldv tokenData "expires_at" in
  let s1 := if truthy given then s else tick s in
  obj [("access_token", fieldv tokenData "access_token");
       ("token_type", js_or (fieldv tokenData "token_type") (VStr "Bearer"));
       ("expires_at",
        if truthy given then given else vnum (clock s + seven_days));
       ("refresh_token", fieldv tokenData "refresh_token");
       ("scope", fieldv tokenData "scope");
       ("created_at", vnum (clock s1));
       ("endpoint", VStr (httpServiceUrl s));
       ("environment", VStr (environmentKey s));
       ("last_used", vnum (clock (tick s1)))].

(** [saveToken] with its control flow laid out by cases. *)
Definition saveToken_spec (tokenData : value) (s : State)
  : outcome value * State :=
  match get_prop tokenData "access_token" with
  | None => (Ret (VBool false), add_log (LogSaveTokenFailed TypeError) s)
  | Some _ =>
      let given := fieldv tokenData "expires_at" in
      let s3 := tick (tick (if truthy given then s else tick s)) in
      let s4 :=
        match tokensFile s with
        | Unreadable => add_log (LogLoadAllFailed SyntaxError) s3
        | _ => s3
        end in
      match set_prop (loaded (tokensFile s)) (environmentKey s)
              (cache_record tokenData s) with
      | inl e => (Ret (VBool false), add_log (LogSaveTokenFailed e) s4)
      | inr all' =>
          if writable s
          then (Ret (VBool true),
                write_file
                  (jsonify
                     (obj (obj_set (own_props all') "_metadata"
                             (metadata (clock s4)))))
                  (tick s4))
          else (Ret (VBool false),
                add_log (LogSaveAllFailed IOError) (failed_write (tick s4)))
      end
  end.

(** The token data that [handleTokenAuthResponse] hands to [saveToken]. *)
Definition auth_token_data (content : value) (now : Z) (endpoint : string) : value :=
  obj [("access_token", fieldv content "access_token");
       ("token_type", js_or (fieldv content "token_type") (VStr "Bearer"));
       ("expires_at",
        VNum (num_add (Fin now)
                (num_mul (toNumber (js_or (fieldv content "expires_in") (vnum 3600)))
                   (Fin 1000))));
       ("refresh_token", fieldv content "refresh_token");
       ("scope", fieldv content "scope");
       ("endpoint", VStr endpoint)].

Definition auth_pre_save (tok : string) (s : State) : State :=
  tick (set_token (VStr tok)
          (add_log (LogNewTokenPrefix (substring 0 20 tok))
             (add_log LogNewTokenDetected s))).


(** [response.result.content], and the text of its first block. *)
Definition response_content (response : value) : value :=
  fieldv (fieldv response "result") "content".

Definition payload_text (response : value) : value :=
  fieldv (fieldv (response_content response) "0") "text".

(** A response whose embedded payload is missing (no content, no first
    block, or a block without text), is not JSON, or is JSON but not an
    object. *)
Definition malformed_payload (response : value) : Prop :=
  truthy (response_content response) = false
  \/ truthy (fieldv (response_content response) "0") = false
  \/ JSON_parse (payload_text response) = None
  \/ exists p, JSON_parse (payload_text response) = Some p
               /\ is_object p = false.

(** The JSON-RPC request that the tool-call handler forwards. *)
Definition tool_call (name arguments : value) : props :=
  [("jsonrpc", VStr "2.0"); ("id", vnum 1); ("method", VStr "tools/call");
   ("params", obj [("name", name); ("arguments", arguments)])].

(** The state in which a poll step that saw [completed] calls [saveToken],
    and the token data it passes. *)
Definition poll_pre_save (sess : PollSession) (tok : string) (s : State) : State :=
  tick (add_log (LogTokenPrefix (substring 0 20 tok))
          (add_log LogAuthCompleted
             (add_request
                (Get (strip_mcp (httpServiceUrl s) ++ "/oauth2/check_state/"
                      ++ to_string (ps_state sess)))
                (tick s)))).

Definition poll_token_data (response : value) (now : Z) (endpoint : string)
  : value :=
  obj [("access_token", fieldv response "token");
       ("token_type", fieldv response "token_type");
       ("expires_at", vnum (now + seven_days));
       ("endpoint", VStr endpoint)].

(** The session that [startAutoPolling] creates at time [t]. *)
Definition session_of (pollingConfig : value) (t : Z) : PollSession :=
  mkSession (fieldv pollingConfig "state")
    (with_default (fieldv pollingConfig "check_interval") (vnum 3))
    (with_default (fieldv pollingConfig "max_wait_time") (vnum 300)) t.

Definition polling_started (pollingConfig : value) (s : State) : State :=
  let sess := session_of pollingConfig (clock s) in
  add_timer
    (mkTimer sess (num_mul (toNumber (ps_check_interval sess)) (Fin 1000)))
    (add_log (LogPollingBegin (ps_max_wait_time sess)) (tick s)).




(** The state in which a successful refresh calls [saveToken], and the
    token data it passes. *)
Definition refresh_request (refreshToken : value) (id : Z) : props :=
  [("jsonrpc", VStr "2.0");
   ("id", vnum id);
   ("method", VStr "tools/call");
   ("params",
    obj [("name", VStr "oauth_refresh_token");
         ("arguments", obj [("refresh_token", refreshToken)])])].

Definition refresh_pre_save (refreshToken : value) (s : State) : State :=
  tick (add_request
          (Post (refresh_request refreshToken (clock s))
             (request_headers (token s) (refresh_request refreshToken (clock s))))
          (tick s)).

Definition refresh_token_data (content refreshToken : value) (now : Z)
           (endpoint : string) : value :=
  obj [("access_token", fieldv content "access_token");
       ("token_type", fieldv content "token_type");
       ("expires_at",
        VNum (num_add (Fin now)
                (num_mul (toNumber (fieldv content "expires_in")) (Fin 1000))));
       ("refresh_token", js_or (fieldv content "refresh_token") refreshToken);
       ("scope", fieldv content "scope");
       ("endpoint", VStr endpoint)].

(** The lifetime a refresh response declares is in range: a whole number
    of seconds from zero up for which the expiry [now + n * 1000] is a
    number that a double holds exactly, or nothing that converts to a
    number. *)
Definition lifetime_in_range (content : value) (now : Z) : Prop :=
  toNumber (fieldv content "expires_in") = NaN
  \/ exists n, toNumber (fieldv content "expires_in") = Fin n /\ 0 <= n
               /\ safe_integer (n * 1000) /\ safe_integer (now + n * 1000).

(** A character that [_getEnvironmentKey] lets through or puts in. *)
Definition key_char (c : ascii) : bool :=
  is_alnum c || Ascii.eqb c "_"%char.

Fixpoint all_chars (p : ascii -> bool) (s : string) : bool :=
  match s with
  | EmptyString => true
  | String c s' => p c && all_chars p s'
  end.

(** The record that [loadToken] returns and writes back for a valid
    record [r]. *)
Definition touched (r : props) (s : State) : value :=
  VObj Plain (obj_set r "last_used" (vnum (clock (tick s)))).

(** A refresh call that does not succeed: the request fails, or the remote
    service answers with a payload whose [success] is falsy. *)
Definition refresh_fails (net : exn + value) : Prop :=
  match net with
  | inl _ => True
  | inr response =>
      exists content,
        embedded_payload response = inr (Some content)
        /\ is_nullish content = false
        /\ truthy (fieldv content "success") = false
  end.

(** The state after the refresh request went out at [s]. *)
Definition refresh_sent (refreshToken : value) (s : State) : State :=
  add_request
    (Post (refresh_request refreshToken (clock s))
       (request_headers (token s) (refresh_request refreshToken (clock s))))
    (tick s).

(** A computation keeps an observation [f] of the state when [f] reads the
    same before and after, however the computation ends. *)
Definition keeps {X A : Type} (f : State -> X) (m : M A) : Prop :=
  forall s, f (snd (m s)) = f s.

(** An observation that the clock, the console and the file do not
    reach. *)
Definition beside_store {X : Type} (f : State -> X) : Prop :=
  (forall s, f (tick s) = f s)
  /\ (forall m s, f (add_log m s) = f s)
  /\ (forall v s, f (write_file v s) = f s)
  /\ (forall s, f (truncate_file s) = f s).

Definition check_state_url (sess : PollSession) (s : State) : string :=
  strip_mcp (httpServiceUrl s) ++ "/oauth2/check_state/"
  ++ to_string (ps_state sess).

Definition next_poll (sess : PollSession) : Timer :=
  mkTimer sess (num_mul (toNumber (ps_check_interval sess)) (Fin 1000)).

Definition in_time (sess : PollSession) (s : State) : bool :=
  negb (num_gt (Fin (clock s - ps_startTime sess))
          (num_mul (toNumber (ps_max_wait_time sess)) (Fin 1000))).

(** How a status check settles without deciding the session: the request
    fails, the reply has no readable status, or its status is none of
    [completed], [expired] and [unauthorized]. *)
Definition inconclusive (net : exn + value) : bool :=
  match net with
  | inl _ => true
  | inr response =>
      match get_prop response "status" with
      | None => true
      | Some status =>
          negb (strict_eq status (VStr "completed")
                || strict_eq status (VStr "expired")
                || strict_eq status (VStr "unauthorized"))
      end
  end.

(** The exception that ends a forwarded call in the handler's [catch]:
    the one the request rejects with, or the [TypeError] of reading
    [result] from a [null] or [undefined] response. *)
Definition call_failure (net : exn + value) : option exn :=
  match net with
  | inl e => Some e
  | inr response => if is_nullish response then Some TypeError else None
  end.

(** *** The bytes of the tokens file *)









End Specifications.

(** ** Data for the concrete runs *)

Module Scenario.
Import Sample TokenCache HttpMcpProxy.

(** A tokens file that already holds a record for another environment. *)
Definition staging_record : value :=
  obj [("access_token", VStr "tok-staging");
       ("token_type", VStr "Bearer");
       ("expires_at", vnum 900000000);
       ("created_at", vnum 1000);
       ("endpoint", VStr "https://staging.example/mcp");
       ("environment", VStr "staging_example");
       ("last_used", vnum 2000)].

Definition two_environments : FileState :=
  Parsed (obj [("staging_example", staging_record)]).

(** The argument of a direct [saveToken] call that names no expiry. *)
Definition direct_save : value :=
  obj [("access_token", VStr "tok-1"); ("token_type", VStr "Bearer")].

Definition no_lifetime : value := response_of (auth_success "tok-1").

Definition one_minute : value := response_of (auth_success_for "tok-1" 60).

Definition not_json : value := response_with_text (VStr "<html>busy</html>").

Definition signal_a : value :=
  response_of (browser_required "https://auth.example/a").


(** The body of a status check that reports completion. *)
Definition completed_status : value :=
  obj [("status", VStr "completed"); ("token", VStr "abc123")].

(** The session started by [signal_a] on a fresh proxy at time 1000000. *)
Definition session_a : PollSession :=
  mkSession (VStr "st-1") (vnum 3) (vnum 300) 1000000.

(** A record that expired at 1999000 and can be refreshed. *)
Definition expired_record : props :=
  [("access_token", VStr "tok-old");
   ("token_type", VStr "Bearer");
   ("expires_at", vnum 1999000);
   ("refresh_token", VStr "refresh-1")].

Definition expired_file : FileState :=
  Parsed (obj [("mcp_thetahealth_ai", obj expired_record)]).

(** A proxy that already holds [tok]. *)
Definition holding (tok : string) (t : Z) (file : FileState) : State :=
  set_token (VStr tok) (fresh t file).






(** A poll of [session_a] three seconds after the signal that started it at
    time 1000000. *)
Definition polling_since_1000000 : State :=
  elapse 3000
    (snd (handleAutoOpenBrowserResponse signal_a (fresh 1000000 NoFile))).

(** A poll of [session_a] that runs 300001 milliseconds after its start. *)
Definition polling_too_long : State :=
  elapse 300001
    (snd (handleAutoOpenBrowserResponse signal_a (fresh 1000000 NoFile))).

(** A record that is valid until 5000000, and a file that holds it for the
    default endpoint. *)
Definition valid_record : props :=
  [("access_token", VStr "tok-live");
   ("token_type", VStr "Bearer");
   ("expires_at", vnum 5000000);
   ("refresh_token", VStr "refresh-1")].

Definition valid_file : FileState :=
  Parsed (obj [("mcp_thetahealth_ai", obj valid_record)]).

Definition live_cache : State := fresh 1000000 valid_file.

Definition stale_cache : State := fresh 2000000 expired_file.

Definition staging_only : State := fresh 1000000 two_environments.




(** A disk that fills up while the file is being written: the write fails
    after the file was opened and emptied. *)
Definition full_disk : State :=
  mkState "https://mcp.thetahealth.ai/mcp" VNull 0 "mcp_thetahealth_ai"
    1000000 [] two_environments false true Indented 0 [] [] [] [] "linux".

(** A proxy whose cache directory cannot be written. *)
Definition read_only_disk : State :=
  mkState "https://mcp.thetahealth.ai/mcp" VNull 0 "mcp_thetahealth_ai"
    1000000 [] NoFile false false Indented 0 [] [] [] [] "linux".

(** A tokens file that holds the JSON text [null]. *)
Definition null_file : State := fresh 1000000 (Parsed VNull).


Definition offline : exn + value := inl (NetError "ECONNREFUSED").


(** Bodies of status checks. *)
Definition expired_status : value := obj [("status", VStr "expired")].

Definition completed_without_token : value :=
  obj [("status", VStr "completed")].

(** A response to [tools/call] that has a result but no content. *)
Definition bare_result : value :=
  obj [("jsonrpc", VStr "2.0");
       ("id", vnum 1);
       ("result", obj [("ok", VBool true)])].

(** An auth-success payload whose token is a number, and a host whose
    [JSON.parse] knows its text. *)
Definition numeric_token : value :=
  obj [("success", VBool true);
       ("access_token", vnum 12345);
       ("token_type", VStr "Bearer")].

Definition numeric_host : HostJS := {|
  JSON_parse := fun v =>
    match v with
    | VStr s =>
        if String.eqb (json_text numeric_token) s then Some numeric_token
        else None
    | _ => None
    end;
  JSON_parse_undefined := eq_refl;
  JSON_stringify := json_text;
  ToString := json_text;
  ToNumber := fun _ => NaN;
  toISOString := text_of_Z;
  error_message := fun _ => "error"
|}.

Definition numeric_reply : value := response_of numeric_token.

(** A polling configuration that names only the session. *)
Definition bare_polling_config : value :=
  obj [("enabled", VBool true); ("state", VStr "st-2")].
End Scenario.

(** * Properties *)

Ltac state_simpl :=
  cbn [fst snd httpServiceUrl token lastBrowserOpenTime environmentKey clock
       ticks tokensFile writable truncates layout writes console execs timers
       requests platform set_token set_lastBrowserOpenTime tick write_file
       truncate_file add_log add_exec add_timer add_request elapse] in *.

Lemma obj_get_set (o : props) (k k' : string) (v : value) :
  obj_get (obj_set o k v) k' = if String.eqb k k' then Some v else obj_get o k'.
Proof.
  induction o as [|[k0 v0] o IH]; simpl.
  - reflexivity.
  - destruct (String.eqb_spec k0 k) as [->|Hne]; simpl.
    + destruct (String.eqb k k'); reflexivity.
    + rewrite IH.
      destruct (String.eqb_spec k0 k'), (String.eqb_spec k k');
        congruence || reflexivity.
Qed.

Lemma jsonify_plain_eq (o : props) :
  jsonify (VObj Plain o) = VObj Plain (jsonify_plain o).
Proof.
  reflexivity.
Qed.

Lemma jsonify_array_eq (o : props) :
  jsonify (VObj Array o) = VObj Array (jsonify_array o).
Proof.
  reflexivity.
Qed.


Lemma is_json_not_undef (v : value) : is_json v = true -> is_undef v = false.
Proof. destruct v; simpl; congruence. Qed.

Lemma is_json_not_omitted (v : value) : is_json v = true -> omitted v = false.
Proof. destruct v as [| | | | |[| |] o]; simpl; congruence. Qed.

Lemma is_json_jsonify (v : value) : is_json v = true -> jsonify v = v.
Proof.
  induction v as [| | | n | | k ps IH] using value_ind'; try reflexivity.
  - destruct n; simpl; [discriminate | reflexivity].
  - intros H. destruct k.
    + rewrite jsonify_plain_eq. f_equal.
      simpl in H. induction ps as [|[key x] ps IHps]; simpl; [reflexivity|].
      apply andb_true_iff in H as [Hx Hps]. inversion IH as [|? ? Px Pps]; subst.
      rewrite (is_json_not_omitted _ Hx). simpl in Px. rewrite (Px Hx).
      rewrite (IHps Pps Hps). reflexivity.
    + rewrite jsonify_array_eq. f_equal.
      simpl in H. induction ps as [|[key x] ps IHps]; simpl; [reflexivity|].
      apply andb_true_iff in H as [Hx Hps]. apply andb_true_iff in Hx as [Hk Hx].
      inversion IH as [|? ? Px Pps]; subst.
      rewrite Hk. simpl in Px. rewrite (Px Hx).
      rewrite (IHps Pps Hps).
      destruct x as [| | | | |[| |] ?]; simpl in *; try reflexivity; discriminate.
    + discriminate H.
Qed.

Lemma props_json_jsonify (o : props) :
  props_json o = true -> jsonify_plain o = o.
Proof.
  induction o as [|[k x] o IH]; simpl; [reflexivity|].
  intros H. apply andb_true_iff in H as [Hx Ho].
  rewrite (is_json_not_omitted _ Hx), (is_json_jsonify _ Hx), (IH Ho). reflexivity.
Qed.

Lemma obj_get_jsonify_plain (o : props) (k : string) :
  match obj_get o k with
  | None => obj_get (jsonify_plain o) k = None
  | Some r => omitted r = false -> obj_get (jsonify_plain o) k = Some (jsonify r)
  end.
Proof.
  induction o as [|[k0 x] o IH]; simpl; [reflexivity|].
  destruct (String.eqb_spec k0 k) as [->|Hne].
  - intros ->. simpl. rewrite String.eqb_refl. reflexivity.
  - destruct (omitted x); [exact IH|].
    simpl. destruct (String.eqb_spec k0 k); [congruence|]. exact IH.
Qed.

Lemma get_prop_defined (v : value) (k : string) :
  is_nullish v = false -> get_prop v k = Some (fieldv v k).
Proof.
  unfold fieldv. destruct (get_prop v k) eqn:E; [reflexivity|].
  destruct v as [| | b | n | str | [| |] o]; simpl in *; try discriminate.
  - destruct (String.eqb k "length"); [discriminate|].
    destruct (is_index_key k); [|discriminate].
    destruct (obj_get (chars_from 0 str) k); discriminate.
  - destruct (obj_get o k); discriminate.
  - destruct (String.eqb k "length"); [discriminate|].
    destruct (obj_get o k); discriminate.
  - destruct (obj_get o k); discriminate.
Qed.

Lemma get_run (v : value) (k : string) (s : State) :
  is_nullish v = false -> get v k s = (Ret (fieldv v k), s).
Proof. intros H. unfold get. rewrite (get_prop_defined _ k H). reflexivity. Qed.

Section Proofs.
Context {host : HostJS}.
Import TokenCache HttpMcpProxy.

Lemma _loadAllTokens_run (s : State) :
  _loadAllTokens s =
  (Ret (loaded (tokensFile s)),
   match tokensFile s with
   | Unreadable => add_log (LogLoadAllFailed SyntaxError) s
   | _ => s
   end).
Proof.
  unfold _loadAllTokens, try_catch. destruct (tokensFile s); reflexivity.
Qed.

Lemma _saveAllTokens_run (allTokens : value) (s : State) :
  _saveAllTokens allTokens s =
  if writable s
  then (Ret (VBool true),
        write_file
          (jsonify (obj (obj_set (own_props allTokens) "_metadata"
                           (metadata (clock s)))))
          (tick s))
  else (Ret (VBool false),
        add_log (LogSaveAllFailed IOError) (failed_write (tick s))).
Proof.
  unfold _saveAllTokens, try_catch, bind, Date_now, writeFileSync.
  cbn -[jsonify metadata obj_set failed_write].
  destruct (writable s); reflexivity.
Qed.

Lemma saveToken_eq (tokenData : value) (s : State) :
  saveToken tokenData s = saveToken_spec tokenData s.
Proof.
  destruct (is_nullish tokenData) eqn:Hn.
  - destruct tokenData; try discriminate; reflexivity.
  - unfold saveToken_spec, cache_record.
    rewrite (get_prop_defined _ "access_token" Hn).
    unfold saveToken, try_catch, bind.
    repeat (rewrite (get_run _ _ _ Hn); cbv beta iota).
    destruct (truthy (fieldv tokenData "expires_at")) eqn:He;
      unfold ret, Date_now, gets; cbv beta iota;
      repeat (rewrite (get_run _ _ _ Hn); cbv beta iota);
      rewrite _loadAllTokens_run;
      cbn -[jsonify metadata seven_days obj_set set_prop];
      match goal with |- context [set_prop ?x ?k ?c] =>
        destruct (set_prop x k c) end;
      cbn -[jsonify metadata seven_days obj_set set_prop];
      rewrite ?_saveAllTokens_run;
      destruct (tokensFile s); cbn -[jsonify metadata seven_days obj_set set_prop];
      try reflexivity;
      destruct (writable s); reflexivity.
Qed.



Lemma obj_get_assign_new (o : props) (k : string) (x : value) :
  k <> "__proto__" -> obj_get (assign o k x) k = Some x.
Proof.
  intros Hne. unfold assign.
  assert (Hs : obj_get (obj_set o k x) k = Some x)
    by (rewrite obj_get_set, String.eqb_refl; reflexivity).
  destruct (obj_get o k); [exact Hs|].
  destruct (String.eqb_spec k "__proto__"); [congruence | exact Hs].
Qed.

Lemma obj_get_assign_own (o : props) (k : string) (x x0 : value) :
  obj_get o k = Some x0 -> assign o k x = obj_set o k x.
Proof. intros H. unfold assign. rewrite H. reflexivity. Qed.

Lemma assign_eq (o : props) (k : string) (x : value) :
  k <> "__proto__" -> assign o k x = obj_set o k x.
Proof.
  intros Hne. unfold assign. destruct (obj_get o k); [reflexivity|].
  destruct (String.eqb_spec k "__proto__"); [congruence | reflexivity].
Qed.

Lemma assign_stored (o : props) (k : string) (x : value) :
  k <> "__proto__" \/ obj_get o k <> None -> assign o k x = obj_set o k x.
Proof.
  intros [H | H]; [exact (assign_eq _ _ _ H)|].
  unfold assign. destruct (obj_get o k); [reflexivity | congruence].
Qed.

(** The property that an assignment under [__proto__] does not create. *)
Lemma assign_proto (o : props) (x : value) :
  obj_get o "__proto__" = None -> assign o "__proto__" x = o.
Proof. intros H. unfold assign. rewrite H. reflexivity. Qed.


Lemma loaded_record (f : FileState) (kd : kind) (o : props) (key : string) :
  loaded f = VObj kd o -> record_of f key = obj_get o key.
Proof.
  destruct f as [| |v]; simpl.
  - intros [= <- <-]. reflexivity.
  - intros [= <- <-]. reflexivity.
  - intros ->. reflexivity.
Qed.

Lemma loaded_json (f : FileState) : file_json f = true -> is_json (loaded f) = true.
Proof. destruct f; simpl; auto. Qed.
















Lemma store_only_refl (s : State) : store_only s s.
Proof. constructor; reflexivity. Qed.

Lemma store_only_trans (s1 s2 s3 : State) :
  store_only s1 s2 -> store_only s2 s3 -> store_only s1 s3.
Proof. intros [] []. constructor; congruence. Qed.

Lemma store_only_tick (s : State) : store_only s (tick s).
Proof. constructor; reflexivity. Qed.

Lemma store_only_log (m : LogMsg) (s : State) : store_only s (add_log m s).
Proof. constructor; reflexivity. Qed.

Lemma store_only_write (v : value) (s : State) : store_only s (write_file v s).
Proof. constructor; reflexivity. Qed.

Lemma store_only_failed (s : State) : store_only s (failed_write s).
Proof. unfold failed_write. destruct (truncates s); constructor; reflexivity. Qed.

Ltac store_only_tac :=
  repeat first
    [ apply store_only_refl
    | eapply store_only_trans; [|apply store_only_log]
    | eapply store_only_trans; [|apply store_only_write]
    | eapply store_only_trans; [|apply store_only_failed]
    | eapply store_only_trans; [|apply store_only_tick]
    | match goal with
      | |- store_only _ (match ?x with _ => _ end) => destruct x
      end ].

(** [saveToken] never throws and only touches the store. *)
Lemma saveToken_total (tokenData : value) (s : State) :
  exists b, fst (saveToken tokenData s) = Ret (VBool b).
Proof.
  rewrite saveToken_eq. unfold saveToken_spec.
  destruct (get_prop tokenData "access_token"); [|eexists; reflexivity].
  destruct (set_prop _ _ _); [eexists; reflexivity|].
  destruct (writable s); eexists; reflexivity.
Qed.

Lemma saveToken_store_only (tokenData : value) (s : State) :
  store_only s (snd (saveToken tokenData s)).
Proof.
  rewrite saveToken_eq. unfold saveToken_spec.
  destruct (get_prop tokenData "access_token"); [|apply store_only_log].
  destruct (truthy (fieldv tokenData "expires_at")), (tokensFile s),
    (set_prop _ _ _), (writable s); store_only_tac.
Qed.

Lemma saveToken_writes (tokenData : value) (s : State) :
  (writes (snd (saveToken tokenData s)) <= S (writes s))%nat.
Proof.
  rewrite saveToken_eq. unfold saveToken_spec.
  destruct (get_prop tokenData "access_token"); [|simpl; lia].
  unfold failed_write.
  destruct (truthy (fieldv tokenData "expires_at")), (tokensFile s),
    (set_prop _ _ _), (writable s); state_simpl;
    try destruct (truncates s); state_simpl; lia.
Qed.

Lemma can_store_inv (s : State) :
  can_store s = true ->
  writable s = true /\ environmentKey s <> "_metadata" /\
  exists o, loaded (tokensFile s) = VObj Plain o.
Proof.
  unfold can_store. intros H.
  apply andb_true_iff in H as [H Hf]. apply andb_true_iff in H as [Hw He].
  split; [exact Hw|]. split.
  - intros Heq. rewrite Heq in He. discriminate.
  - destruct (tokensFile s) as [| |[| | | | |[| |] o]]; try discriminate;
      eexists; reflexivity.
Qed.

Lemma saveToken_stores (tokenData : value) (s : State) :
  can_store s = true ->
  environmentKey s <> "__proto__"
  \/ record_of (tokensFile s) (environmentKey s) <> None ->
  is_nullish tokenData = false ->
  fst (saveToken tokenData s) = Ret (VBool true)
  /\ record_of (tokensFile (snd (saveToken tokenData s))) (environmentKey s)
     = Some (jsonify (cache_record tokenData s))
  /\ writes (snd (saveToken tokenData s)) = S (writes s).
Proof.
  intros Hc Hk Hn. apply can_store_inv in Hc as (Hw & He & o & Ho).
  rewrite (loaded_record _ _ _ (environmentKey s) Ho) in Hk.
  rewrite saveToken_eq. unfold saveToken_spec.
  rewrite (get_prop_defined _ "access_token" Hn), Ho, Hw.
  cbn [set_prop own_props fst snd]. rewrite (assign_stored _ _ _ Hk).
  split; [reflexivity|]. split.
  - state_simpl. rewrite jsonify_plain_eq. cbn [record_of].
    match goal with |- context [jsonify_plain ?l] =>
      pose proof (obj_get_jsonify_plain l (environmentKey s)) as H end.
    rewrite !obj_get_set, String.eqb_refl in H.
    destruct (String.eqb_spec "_metadata" (environmentKey s)); [congruence|].
    apply H. reflexivity.
  - destruct (truthy (fieldv tokenData "expires_at")), (tokensFile s);
      reflexivity.
Qed.

Lemma jsonify_not_undef (v : value) : omitted v = false -> is_undef (jsonify v) = false.
Proof. destruct v as [| | |[|]| |[| |]]; simpl; congruence. Qed.

(** Fields of the stored record. *)
Lemma stored_expiry (tokenData : value) (s : State) :
  can_store s = true ->
  environmentKey s <> "__proto__"
  \/ record_of (tokensFile s) (environmentKey s) <> None ->
  is_nullish tokenData = false ->
  (truthy (fieldv tokenData "expires_at") = true ->
   omitted (fieldv tokenData "expires_at") = false) ->
  record_field (tokensFile (snd (saveToken tokenData s))) (environmentKey s)
    "expires_at"
  = Some (jsonify (if truthy (fieldv tokenData "expires_at")
                   then fieldv tokenData "expires_at"
                   else vnum (clock s + seven_days))).
Proof.
  intros Hc Hk Hn Ho. unfold record_field.
  destruct (saveToken_stores _ _ Hc Hk Hn) as (_ & -> & _).
  unfold cache_record. rewrite jsonify_plain_eq.
  match goal with |- context [jsonify_plain ?l] =>
    pose proof (obj_get_jsonify_plain l "expires_at") as H end.
  cbn -[jsonify_plain jsonify fieldv truthy omitted seven_days] in H.
  cbn [jsonify]. apply H.
  destruct (truthy (fieldv tokenData "expires_at")) eqn:Ht;
    [exact (Ho eq_refl) | reflexivity].
Qed.

Lemma stored_access_token (tokenData : value) (s : State) :
  can_store s = true ->
  environmentKey s <> "__proto__"
  \/ record_of (tokensFile s) (environmentKey s) <> None ->
  is_nullish tokenData = false ->
  omitted (fieldv tokenData "access_token") = false ->
  record_field (tokensFile (snd (saveToken tokenData s))) (environmentKey s)
    "access_token"
  = Some (jsonify (fieldv tokenData "access_token")).
Proof.
  intros Hc Hk Hn Hu. unfold record_field.
  destruct (saveToken_stores _ _ Hc Hk Hn) as (_ & -> & _).
  unfold cache_record. rewrite jsonify_plain_eq.
  match goal with |- context [jsonify_plain ?l] =>
    pose proof (obj_get_jsonify_plain l "access_token") as H end.
  cbn -[jsonify_plain jsonify fieldv truthy omitted seven_days] in H.
  cbn [jsonify]. apply H. exact Hu.
Qed.

Lemma fieldv_nullish (v : value) (k : string) :
  is_nullish v = true -> fieldv v k = VUndef.
Proof. destruct v; try discriminate; reflexivity. Qed.

Lemma handleTokenAuthResponse_new (response content : value) (tok : string)
      (s : State) :
  embedded_payload response = inr (Some content) ->
  fieldv content "access_token" = VStr tok ->
  tok <> "" ->
  token s <> VStr tok ->
  handleTokenAuthResponse response s
  = (Ret (VBool true),
     add_log LogTokenUpdated
       (snd (saveToken (auth_token_data content (clock s) (httpServiceUrl s))
               (auth_pre_save tok s)))).
Proof.
  intros Hp Htok Hne Hcur.
  assert (Hn : is_nullish content = false).
  { destruct (is_nullish content) eqn:E; [|reflexivity].
    rewrite (fieldv_nullish _ "access_token" E) in Htok. discriminate. }
  unfold handleTokenAuthResponse, try_catch, bind. rewrite Hp.
  cbn [lift_sum ret]. rewrite (get_run _ _ _ Hn), Htok. cbv beta iota.
  unfold gets at 1. cbv beta iota.
  assert (Hcond : truthy (VStr tok) && negb (strict_eq (VStr tok) (token s)) = true).
  { apply andb_true_iff. split.
    - simpl. destruct (String.eqb_spec tok ""); [congruence | reflexivity].
    - destruct (token s) as [| | | | t |]; try reflexivity. simpl.
      destruct (String.eqb_spec tok t); [congruence | reflexivity]. }
  rewrite Hcond. unfold console_error, modify, Date_now, gets. cbn [substring20 lift_sum ret].
  cbv beta iota.
  repeat (rewrite (get_run _ _ _ Hn); cbv beta iota).
  state_simpl. unfold auth_token_data, auth_pre_save. rewrite Htok.
  match goal with |- context [saveToken ?td ?st] =>
    destruct (saveToken_total td st) as [b Hb];
    destruct (saveToken td st) as [o st'] end.
  simpl in Hb. subst o. reflexivity.
Qed.

Lemma truthy_pos (z : Z) : 0 < z -> truthy (VNum (Fin z)) = true.
Proof. intros H. simpl. destruct (Z.eqb_spec z 0); [lia | reflexivity]. Qed.

Ltac truthy_pos_tac :=
  match goal with
  | |- context [truthy (VNum (Fin ?z))] =>
      replace (truthy (VNum (Fin z))) with true
        by (symmetry; apply truthy_pos; unfold seven_days; lia)
  end.

(** C2, as amended.  On a store that takes the record, a token taken from
    an auth-success response is stored with expiry [now + expires_in * 1000]
    when the payload declares a lifetime of [expires_in] seconds that is a
    non-zero whole number (the sum being exact and not zero), and with
    [now + 3600 * 1000] (one hour, not seven days) when the payload declares
    none or a falsy one, zero included; a direct save that is given no
    expiry is stored with the time of the save plus seven days. *)
Theorem new_token_expiry (response content : value) (tok : string) (s : State) :
  embedded_payload response = inr (Some content) ->
  fieldv content "access_token" = VStr tok ->
  tok <> "" ->
  token s <> VStr tok ->
  can_store s = true ->
  environmentKey s <> "__proto__" ->
  0 <= clock s ->
  (forall n, fieldv content "expires_in" = vnum n ->
     n <> 0 -> clock s + n * 1000 <> 0 ->
     safe_integer (n * 1000) -> safe_integer (clock s + n * 1000) ->
     record_field (tokensFile (snd (handleTokenAuthResponse response s)))
       (environmentKey s) "expires_at"
     = Some (vnum (clock s + n * 1000)))
  /\ (truthy (fieldv content "expires_in") = false ->
      record_field (tokensFile (snd (handleTokenAuthResponse response s)))
        (environmentKey s) "expires_at"
      = Some (vnum (clock s + 3600 * 1000)))
  /\ (forall tokenData, is_nullish tokenData = false ->
        truthy (fieldv tokenData "expires_at") = false ->
        record_field (tokensFile (snd (saveToken tokenData s)))
          (environmentKey s) "expires_at"
        = Some (vnum (clock s + seven_days))).
Proof.
  intros Hp Htok Hne Hcur Hc Hk Hclock.
  rewrite (handleTokenAuthResponse_new _ _ _ _ Hp Htok Hne Hcur).
  cbn [snd]. state_simpl.
  pose proof (stored_expiry (auth_token_data content (clock s) (httpServiceUrl s))
                (auth_pre_save tok s) Hc (or_introl Hk) eq_refl
                (fun _ => eq_refl)) as He.
  change (environmentKey (auth_pre_save tok s)) with (environmentKey s) in He.
  rewrite He. clear He.
  unfold auth_token_data.
  cbn -[toNumber js_or seven_days Z.add Z.mul truthy jsonify].
  repeat split.
  - intros n Hn Hnz Hsum _ _. rewrite Hn.
    assert (Hor : js_or (vnum n) (vnum 3600) = vnum n).
    { unfold js_or. simpl. destruct (Z.eqb_spec n 0); [congruence | reflexivity]. }
    rewrite Hor. simpl toNumber. cbn [num_mul num_add].
    assert (Ht : truthy (VNum (Fin (clock s + n * 1000))) = true).
    { simpl. destruct (Z.eqb_spec (clock s + n * 1000) 0);
        [congruence | reflexivity]. }
    rewrite Ht. reflexivity.
  - intros Hu. unfold js_or. rewrite Hu.
    simpl toNumber. cbn [num_mul num_add].
    truthy_pos_tac. reflexivity.
  - intros td Hn Hu.
    rewrite (stored_expiry _ _ Hc (or_introl Hk) Hn), Hu; [reflexivity|].
    intros H. rewrite Hu in H. discriminate.
Qed.


(** C8.  A poll step that runs when more than [max_wait_time] seconds have
    passed since the session started stops the session: it logs the
    timeout, asks the remote service nothing, schedules no further poll and
    leaves the token and the tokens file alone. *)
Theorem poll_timeout_stops (sess : PollSession) (net : exn + value) (s : State)
        (max_wait : Z) :
  toNumber (ps_max_wait_time sess) = Fin max_wait ->
  max_wait * 1000 < clock s - ps_startTime sess ->
  poll sess net s = (Ret tt, add_log LogPollTimeout (tick s)).
Proof.
  intros Hm Hlate. unfold poll, try_catch, bind, Date_now. cbv beta iota.
  rewrite Hm. cbn [num_mul num_gt].
  destruct (Z.ltb_spec (max_wait * 1000) (clock s - ps_startTime sess)); [|lia].
  reflexivity.
Qed.

Lemma strict_eq_str (v : value) (t : string) :
  strict_eq v (VStr t) = true <-> v = VStr t.
Proof.
  destruct v as [| | |[|]| s |]; simpl; split; try discriminate.
  - intros H. apply String.eqb_eq in H. congruence.
  - intros [= ->]. apply String.eqb_refl.
Qed.




Lemma inherits_builtin (v : value) (k : string) :
  builtin_name k = false -> inherits v k = false.
Proof.
  unfold builtin_name, inherits. rewrite !existsb_app, !orb_false_iff.
  intros (Ho & Ha & Hs & Hn & Hf).
  destruct v as [| | | | |[| |] o]; cbn [inherited_names];
    rewrite ?existsb_app, ?Ho, ?Ha, ?Hs, ?Hn, ?Hf; reflexivity.
Qed.

(** A key that no built-in prototype defines is read from the own
    properties only. *)
Lemma inherited_none (v : value) (k : string) :
  builtin_name k = false -> inherited v k = VUndef.
Proof. intros H. unfold inherited. rewrite (inherits_builtin _ _ H). reflexivity. Qed.

Lemma get_prop_primitive (p : value) (k : string) :
  is_object p = false -> is_index_key k = false -> String.eqb k "length" = false ->
  builtin_name k = false ->
  get_prop p k = None \/ get_prop p k = Some VUndef.
Proof.
  intros Hp Hi Hl Hb. destruct p; simpl; try discriminate;
    rewrite ?Hl, ?Hi, ?(inherited_none _ _ Hb); auto.
Qed.

Lemma falsy_field (v : value) (k : string) :
  truthy v = false -> String.eqb k "length" = false ->
  builtin_name k = false ->
  get_prop v k = None \/ get_prop v k = Some VUndef.
Proof.
  intros Hv Hk Hb.
  destruct v as [| | | | str |]; simpl in *; auto; try discriminate;
    rewrite ?(inherited_none _ _ Hb); auto.
  rewrite Hk. apply negb_false_iff, String.eqb_eq in Hv. subst str.
  destruct (is_index_key k); auto.
Qed.

Lemma truthy_content_result (result : value) :
  truthy (fieldv result "content") = true ->
  truthy result = true.
Proof.
  intros H. destruct (truthy result) eqn:E; [reflexivity|].
  unfold fieldv in H.
  destruct (falsy_field result "content" E eq_refl eq_refl) as [R | R];
    rewrite R in H; discriminate.
Qed.

Lemma malformed_payload_embedded (response : value) :
  malformed_payload response ->
  embedded_payload response = inr None
  \/ (exists e, embedded_payload response = inl e)
  \/ exists p, embedded_payload response = inr (Some p) /\ is_object p = false.
Proof.
  unfold malformed_payload, payload_text, response_content, embedded_payload, fieldv.
  intros H.
  destruct (get_prop response "result") as [result|]; [|right; left; eauto].
  destruct (truthy result) eqn:Hr; [|left; reflexivity]. cbn [negb].
  destruct (get_prop result "content") as [content|]; [|right; left; eauto].
  destruct (truthy content) eqn:Hc; [|left; reflexivity]. cbn [negb].
  destruct (get_prop content "0") as [block|]; [|right; left; eauto].
  destruct (truthy block) eqn:Hb; [|left; reflexivity]. cbn [negb].
  destruct (get_prop block "text") as [text|]; [|right; left; eauto].
  destruct H as [H | [H | [H | (p & H & Hp)]]]; try discriminate.
  - rewrite H. right; left; eauto.
  - rewrite H. right; right; eauto.
Qed.

Lemma isTokenAuthResponse_malformed (response : value) :
  malformed_payload response -> isTokenAuthResponse response = VBool false.
Proof.
  intros H. apply malformed_payload_embedded in H as [H | [(e & H) | (p & H & Hp)]];
    unfold isTokenAuthResponse; rewrite H; try reflexivity.
  destruct (get_prop_primitive p "success" Hp eq_refl eq_refl eq_refl)
    as [-> | ->]; [reflexivity|].
  destruct (get_prop p "access_token"), (get_prop p "token_type"); reflexivity.
Qed.

Lemma isAutoOpenBrowserResponse_malformed (response : value) :
  malformed_payload response -> isAutoOpenBrowserResponse response = VBool false.
Proof.
  intros H. apply malformed_payload_embedded in H as [H | [(e & H) | (p & H & Hp)]];
    unfold isAutoOpenBrowserResponse; rewrite H; try reflexivity.
  destruct (get_prop_primitive p "auto_open_browser" Hp eq_refl eq_refl eq_refl)
    as [-> | ->]; [reflexivity|].
  destruct (get_prop p "authorization_url"); reflexivity.
Qed.

(** C3, as amended.  For a tool-call response whose embedded payload is
    missing, not JSON or otherwise malformed, both classifiers answer
    [false] (they are total functions: every exception ends in their
    [catch]).  When the response carries content, the handler returns that
    content as it came; when it carries none, the handler returns a text
    block of its own with the serialised result; a response that is [null]
    ends in the handler's [catch] and is reported as an error.  In each case
    nothing changes in the state beyond the forwarded request and the error
    line. *)
Theorem malformed_payload_passes_through
        (name arguments response : value) (s : State) :
  malformed_payload response ->
  isTokenAuthResponse response = VBool false
  /\ isAutoOpenBrowserResponse response = VBool false
  /\ (is_nullish response = false ->
      callTool name arguments (inr response) s
      = (Ret (if truthy (response_content response)
              then obj [("content", response_content response)]
              else text_content
                     (JSON_stringify
                        (js_or (fieldv response "result") (obj [])))),
         add_request
           (Post (tool_call name arguments)
              (request_headers (token s) (tool_call name arguments))) s))
  /\ (is_nullish response = true ->
      callTool name arguments (inr response) s
      = (Ret (text_content ("Error: " ++ error_message TypeError)),
         add_log (LogErrorCallingTool TypeError)
           (add_request
              (Post (tool_call name arguments)
                 (request_headers (token s) (tool_call name arguments))) s))).
Proof.
  intros H.
  pose proof (isTokenAuthResponse_malformed _ H) as Ha.
  pose proof (isAutoOpenBrowserResponse_malformed _ H) as Hb.
  split; [exact Ha|]. split; [exact Hb|]. split.
  - intros Hn.
    unfold callTool, try_catch, bind, makeHttpRequest, bind, gets, modify,
      lift_sum, ret.
    cbv beta iota. rewrite Ha, Hb. cbn [truthy]. cbv beta iota.
    rewrite (get_run _ _ _ Hn). cbv beta iota.
    unfold response_content.
    destruct (is_nullish (fieldv response "result")) eqn:Hr.
    + destruct (fieldv response "result"); try discriminate; reflexivity.
    + destruct (fieldv response "result") eqn:Er; try discriminate;
        cbv beta iota; rewrite (get_run _ _ _ Hr); cbv beta iota;
        destruct (truthy (fieldv _ "content")); reflexivity.
  - intros Hn.
    unfold callTool, try_catch, bind, makeHttpRequest, bind, gets, modify,
      lift_sum, ret.
    cbv beta iota. rewrite Ha, Hb. cbn [truthy]. cbv beta iota.
    destruct response; try discriminate; reflexivity.
Qed.

Lemma poll_completed (sess : PollSession) (response : value) (tok : string)
      (s : State) :
  num_gt (Fin (clock s - ps_startTime sess))
    (num_mul (toNumber (ps_max_wait_time sess)) (Fin 1000)) = false ->
  fieldv response "status" = VStr "completed" ->
  fieldv response "token" = VStr tok ->
  poll sess (inr response) s
  = (Ret tt,
     add_log LogAuthFlowDone
       (set_token (VStr tok)
          (snd (saveToken
                  (poll_token_data response (clock (tick s)) (httpServiceUrl s))
                  (poll_pre_save sess tok s))))).
Proof.
  intros Hlive Hstatus Htok.
  assert (Hn : is_nullish response = false).
  { destruct (is_nullish response) eqn:E; [|reflexivity].
    rewrite (fieldv_nullish _ "status" E) in Hstatus. discriminate. }
  unfold poll, try_catch, bind, Date_now. cbv beta iota. rewrite Hlive.
  unfold gets, makeHttpStateCheckRequest, bind, modify, lift_sum, ret.
  cbv beta iota.
  repeat (rewrite (get_run _ _ _ Hn); cbv beta iota).
  rewrite Hstatus. cbn [strict_eq String.eqb Ascii.eqb Bool.eqb]. cbv beta iota.
  unfold console_error, modify. cbv beta iota.
  repeat (rewrite (get_run _ _ _ Hn); cbv beta iota).
  rewrite Htok. cbn [substring20 lift_sum ret]. cbv beta iota.
  repeat (rewrite (get_run _ _ _ Hn); cbv beta iota).
  state_simpl. unfold poll_token_data, poll_pre_save. rewrite Htok. state_simpl.
  match goal with |- context [saveToken ?td ?st] =>
    destruct (saveToken_total td st) as [b Hb];
    destruct (saveToken td st) as [o st'] end.
  simpl in Hb. subst o. reflexivity.
Qed.

(** C5, as amended.  A poll step that is told [completed] with token
    "abc123" stops polling (no timer is scheduled) and holds "abc123" as the
    current token; on a store that takes the record (the environment key is
    not [__proto__]) it stores a record whose access token is "abc123" and
    whose expiry is seven days after the time of that step (the clock as
    read when the record is built), not seven days after the start of the
    session. *)
Theorem completed_poll_stores_token (sess : PollSession) (response : value)
        (s : State) :
  num_gt (Fin (clock s - ps_startTime sess))
    (num_mul (toNumber (ps_max_wait_time sess)) (Fin 1000)) = false ->
  fieldv response "status" = VStr "completed" ->
  fieldv response "token" = VStr "abc123" ->
  can_store s = true ->
  environmentKey s <> "__proto__" ->
  0 <= clock s ->
  let s' := snd (poll sess (inr response) s) in
  timers s' = timers s
  /\ token s' = VStr "abc123"
  /\ record_field (tokensFile s') (environmentKey s) "access_token"
     = Some (VStr "abc123")
  /\ record_field (tokensFile s') (environmentKey s) "expires_at"
     = Some (vnum (clock (tick s) + seven_days))
  /\ clock s <= clock (tick s).
Proof.
  intros Hlive Hstatus Htok Hc Hk Hclock s'. subst s'.
  rewrite (poll_completed _ _ _ _ Hlive Hstatus Htok). cbn [snd]. state_simpl.
  set (td := poll_token_data response (clock s + Z.of_nat (hd 0%nat (ticks s)))
               (httpServiceUrl s)).
  set (s1 := poll_pre_save sess "abc123" s).
  assert (Hc1 : can_store s1 = true) by exact Hc.
  pose proof (saveToken_store_only td s1) as Hso.
  split; [rewrite (so_timers _ _ Hso); reflexivity|].
  split; [reflexivity|].
  split.
  - assert (Ha : fieldv td "access_token" = VStr "abc123") by exact Htok.
    pose proof (stored_access_token td s1 Hc1 (or_introl Hk) eq_refl) as H.
    rewrite Ha in H. exact (H eq_refl).
  - split; [|lia].
    assert (He : fieldv td "expires_at"
                 = vnum (clock s + Z.of_nat (hd 0%nat (ticks s)) + seven_days))
      by reflexivity.
    pose proof (stored_expiry td s1 Hc1 (or_introl Hk) eq_refl
                  (fun _ => eq_refl)) as H.
    rewrite He in H. unfold vnum in H.
    rewrite truthy_pos in H by (unfold seven_days; lia).
    exact H.
Qed.

Lemma truthy_not_nullish (v : value) : truthy v = true -> is_nullish v = false.
Proof. destruct v; simpl; congruence. Qed.

Lemma truthy_field_not_nullish (v : value) (k : string) :
  truthy (fieldv v k) = true -> is_nullish v = false.
Proof.
  intros H. destruct (is_nullish v) eqn:E; [|reflexivity].
  rewrite (fieldv_nullish _ k E) in H. discriminate.
Qed.


Lemma startAutoPolling_run (pollingConfig : value) (s : State) :
  is_nullish pollingConfig = false ->
  startAutoPolling pollingConfig s = (Ret tt, polling_started pollingConfig s).
Proof.
  intros Hn. unfold startAutoPolling, try_catch, bind.
  repeat (rewrite (get_run _ _ _ Hn); cbv beta iota).
  reflexivity.
Qed.



Lemma clearToken_props (s : State) :
  exists s', clearToken s = (Ret tt, s') /\ store_only s s'.
Proof.
  unfold clearToken, try_catch, bind. rewrite _loadAllTokens_run.
  unfold gets. cbv beta iota.
  set (s0 := match tokensFile s with
             | Unreadable => add_log (LogLoadAllFailed SyntaxError) s
             | _ => s
             end).
  assert (H0 : store_only s s0)
    by (unfold s0; destruct (tokensFile s); constructor; reflexivity).
  unfold get, lift_opt.
  destruct (get_prop (loaded (tokensFile s)) (environmentKey s0)) as [cur|].
  2:{ cbn [throw]. eexists. split; [reflexivity|].
      eapply store_only_trans; [exact H0 | apply store_only_log]. }
  cbn [ret]. destruct (truthy cur); [|eexists; split; [reflexivity | exact H0]].
  destruct (delete_prop (loaded (tokensFile s)) (environmentKey s0)) as [e|all'].
  - cbn [lift_sum throw]. eexists. split; [reflexivity|].
    eapply store_only_trans; [exact H0 | apply store_only_log].
  - cbn [lift_sum ret]. rewrite _saveAllTokens_run.
    destruct (writable s0); eexists; (split; [reflexivity|]);
      (eapply store_only_trans; [exact H0|]); store_only_tac.
Qed.





Lemma handleTokenAuthResponse_same (response content : value) (s : State) :
  embedded_payload response = inr (Some content) ->
  is_nullish content = false ->
  strict_eq (fieldv content "access_token") (token s) = true ->
  handleTokenAuthResponse response s = (Ret (VBool false), s).
Proof.
  intros Hp Hn Heq.
  unfold handleTokenAuthResponse, try_catch, bind. rewrite Hp.
  cbn [lift_sum ret]. rewrite (get_run _ _ _ Hn). cbv beta iota.
  unfold gets at 1. cbv beta iota. rewrite Heq.
  rewrite andb_false_r. reflexivity.
Qed.

Lemma classified_auth_success (response : value) :
  truthy (isTokenAuthResponse response) = true ->
  exists content,
    embedded_payload response = inr (Some content)
    /\ is_nullish content = false
    /\ truthy (fieldv content "access_token") = true.
Proof.
  unfold isTokenAuthResponse.
  destruct (embedded_payload response) as [e|[content|]]; try discriminate.
  intros H. exists content. split; [reflexivity|].
  unfold fieldv.
  destruct (get_prop content "success") as [a|] eqn:Ea;
    [|cbn in H; discriminate H].
  assert (Hn : is_nullish content = false)
    by (destruct content; try reflexivity; simpl in Ea; discriminate Ea).
  split; [exact Hn|].
  destruct (get_prop content "access_token") as [t|];
    [|cbn in H; discriminate H].
  destruct (get_prop content "token_type") as [ty|];
    [|cbn in H; discriminate H].
  unfold js_and in H. cbn [truthy] in H.
  destruct (strict_eq a (VBool true)); [|discriminate H].
  destruct (truthy t) eqn:Et; [reflexivity|].
  cbn in H. rewrite Et in H. discriminate H.
Qed.

(** What one run of the handler can do to the write counter and the token. *)
Lemma handleTokenAuthResponse_cases (response : value) (s : State) :
  (writes (snd (handleTokenAuthResponse response s)) = writes s
   /\ token (snd (handleTokenAuthResponse response s)) = token s)
  \/ (exists content tok,
        embedded_payload response = inr (Some content)
        /\ fieldv content "access_token" = VStr tok
        /\ token (snd (handleTokenAuthResponse response s)) = VStr tok
        /\ (writes (snd (handleTokenAuthResponse response s)) <= S (writes s))%nat).
Proof.
  destruct (embedded_payload response) as [e|[content|]] eqn:Hp.
  - left. unfold handleTokenAuthResponse, try_catch, bind. rewrite Hp.
    split; reflexivity.
  - destruct (is_nullish content) eqn:Hn.
    { left. unfold handleTokenAuthResponse, try_catch, bind. rewrite Hp.
      destruct content; try discriminate; split; reflexivity. }
    destruct (fieldv content "access_token") as [| | | | tok |] eqn:Htok.
    5:{ destruct (String.eqb_spec tok "") as [->|Hne].
        - left. unfold handleTokenAuthResponse, try_catch, bind. rewrite Hp.
          cbn [lift_sum ret]. rewrite (get_run _ _ _ Hn), Htok. split; reflexivity.
        - destruct (strict_eq (VStr tok) (token s)) eqn:Heq.
          + left. rewrite (handleTokenAuthResponse_same _ _ _ Hp Hn)
              by (rewrite Htok; exact Heq). split; reflexivity.
          + right. exists content, tok. split; [reflexivity|]. split; [exact Htok|].
            assert (Hcur : token s <> VStr tok).
            { intros E. rewrite E in Heq. simpl in Heq.
              rewrite String.eqb_refl in Heq. discriminate. }
            rewrite (handleTokenAuthResponse_new _ _ _ _ Hp Htok Hne Hcur).
            cbn [snd]. state_simpl.
            match goal with |- context [saveToken ?td ?st] =>
              pose proof (saveToken_store_only td st) as Hso;
              pose proof (saveToken_writes td st) as Hw end.
            split; [rewrite (so_token _ _ Hso); reflexivity | exact Hw]. }
    all: left; unfold handleTokenAuthResponse, try_catch, bind; rewrite Hp;
      cbn [lift_sum ret]; rewrite (get_run _ _ _ Hn), Htok; cbv beta iota;
      unfold gets; cbv beta iota;
      match goal with
      | |- context [truthy ?v && negb (strict_eq ?v ?t)] =>
          destruct (truthy v && negb (strict_eq v t))
      end; cbv beta iota; unfold console_error, modify; cbv beta iota;
      cbn [substring20 lift_sum throw ret]; cbv beta iota;
      split; reflexivity.
  - left. unfold handleTokenAuthResponse, try_catch, bind. rewrite Hp.
    split; reflexivity.
Qed.

Lemma handleTokenAuthResponse_writes (response : value) (s : State) :
  (writes (snd (handleTokenAuthResponse response s)) <= S (writes s))%nat.
Proof.
  destruct (handleTokenAuthResponse_cases response s)
    as [[Hw _] | (c & t & _ & _ & _ & Hw)]; lia.
Qed.

(** C7.  An auth-success signal whose access token is the token the proxy
    already holds changes nothing: the handler returns [false] in the state
    it found, so nothing is written to the credential store.  Handling the
    same auth-success response twice in a row therefore writes the store at
    most once. *)
Theorem identical_token_no_write (response content : value) (s : State) :
  truthy (isTokenAuthResponse response) = true ->
  embedded_payload response = inr (Some content) ->
  (strict_eq (fieldv content "access_token") (token s) = true ->
   handleTokenAuthResponse response s = (Ret (VBool false), s))
  /\ (writes (snd (handleTokenAuthResponse response
                     (snd (handleTokenAuthResponse response s))))
      <= S (writes s))%nat.
Proof.
  intros Hsig Hp. split.
  - intros Heq.
    apply classified_auth_success in Hsig as (c' & Hp' & Hn & _).
    rewrite Hp in Hp'. injection Hp' as <-.
    exact (handleTokenAuthResponse_same _ _ _ Hp Hn Heq).
  - destruct (handleTokenAuthResponse_cases response s)
      as [[Hw _] | (c & tok & Hpc & Htok & Ht & Hw)].
    + pose proof (handleTokenAuthResponse_writes response
                    (snd (handleTokenAuthResponse response s))). lia.
    + assert (Hn : is_nullish c = false).
      { destruct (is_nullish c) eqn:E; [|reflexivity].
        rewrite (fieldv_nullish _ "access_token" E) in Htok. discriminate. }
      rewrite (handleTokenAuthResponse_same response c
                 (snd (handleTokenAuthResponse response s)) Hpc Hn).
      * exact Hw.
      * rewrite Htok, Ht. simpl. apply String.eqb_refl.
Qed.

Lemma embedded_payload_inv (response content : value) :
  embedded_payload response = inr (Some content) ->
  exists result rcontent block text,
    get_prop response "result" = Some result /\ truthy result = true
    /\ get_prop result "content" = Some rcontent /\ truthy rcontent = true
    /\ get_prop rcontent "0" = Some block /\ truthy block = true
    /\ get_prop block "text" = Some text
    /\ JSON_parse text = Some content.
Proof.
  unfold embedded_payload.
  destruct (get_prop response "result") as [result|] eqn:E1; [|discriminate].
  destruct (truthy result) eqn:Hr; [|discriminate]. cbn [negb].
  destruct (get_prop result "content") as [rcontent|] eqn:E2; [|discriminate].
  destruct (truthy rcontent) eqn:Hc; [|discriminate]. cbn [negb].
  destruct (get_prop rcontent "0") as [block|] eqn:E3; [|discriminate].
  destruct (truthy block) eqn:Hb; [|discriminate]. cbn [negb].
  destruct (get_prop block "text") as [text|] eqn:E4; [|discriminate].
  destruct (JSON_parse text) as [c|] eqn:Hj; [|discriminate].
  intros [= <-]. exists result, rcontent, block, text.
  repeat split; assumption.
Qed.

Lemma truthy_field_object (v : value) (k : string) :
  truthy (fieldv v k) = true ->
  is_index_key k = false -> String.eqb k "length" = false ->
  builtin_name k = false ->
  is_object v = true.
Proof.
  intros H Hi Hl Hb. unfold fieldv in H.
  destruct v as [| | | | str |]; simpl in *;
    rewrite ?Hl, ?Hi, ?(inherited_none _ _ Hb) in H;
    try discriminate; reflexivity.
Qed.

Lemma refreshToken_success (rt response content : value) (s : State) :
  embedded_payload response = inr (Some content) ->
  truthy (fieldv content "success") = true ->
  refreshToken rt (inr response) s
  = (Ret content,
     add_log LogRefreshOk
       (snd (saveToken
               (refresh_token_data content rt (clock (tick s)) (httpServiceUrl s))
               (refresh_pre_save rt s)))).
Proof.
  intros Hp Hs.
  pose proof (truthy_field_not_nullish _ _ Hs) as Hn.
  apply embedded_payload_inv in Hp
    as (result & rcontent & block & text & Hr & Tr & Hc & Tc & Hb & Tb & Ht & Hj).
  assert (Tresp : truthy response = true).
  { assert (is_object response = true) as Ho.
    { apply (truthy_field_object response "result");
        [|reflexivity|reflexivity|reflexivity].
      unfold fieldv. rewrite Hr. exact Tr. }
    destruct response; try discriminate. reflexivity. }
  unfold refreshToken, try_catch, bind, Date_now, makeHttpRequest, bind, gets,
    modify, lift_sum, ret. cbv beta iota.
  rewrite Tresp. cbn [negb]. unfold get, lift_opt.
  rewrite Hr. cbn [ret]. cbv beta iota. rewrite Tr. cbn [negb].
  rewrite Hc. cbn [ret]. cbv beta iota. rewrite Tc. cbn [negb].
  rewrite Hb. cbn [ret]. cbv beta iota. rewrite Ht. cbn [ret]. cbv beta iota.
  rewrite Hj. cbn [ret]. cbv beta iota.
  repeat (rewrite (get_prop_defined _ _ Hn); cbn [ret]; cbv beta iota).
  rewrite Hs. unfold console_error, modify. cbv beta iota. state_simpl.
  unfold refresh_token_data, refresh_pre_save, refresh_request. state_simpl.
  match goal with |- context [saveToken ?td ?st] =>
    destruct (saveToken_total td st) as [b Hb'];
    destruct (saveToken td st) as [o st'] end.
  simpl in Hb'. subst o. reflexivity.
Qed.

Lemma record_of_inv (f : FileState) (key : string) (rec : value) :
  record_of f key = Some rec ->
  exists kd o, f = Parsed (VObj kd o) /\ obj_get o key = Some rec.
Proof.
  destruct f as [| |[| | | | |kd o]]; simpl; try discriminate.
  intros H. exists kd, o. split; [reflexivity | exact H].
Qed.

Lemma getTokenStatus_expired (r : props) (e : Z) (s : State) :
  can_store s = true ->
  record_of (tokensFile s) (environmentKey s) = Some (VObj Plain r) ->
  obj_get r "expires_at" = Some (vnum e) ->
  e <> 0 ->
  e < clock s ->
  getTokenStatus s
  = (Ret (Expired (obj (obj_set r "expired" (VBool true)))), tick s).
Proof.
  intros Hc Hrec He Hnz Hexp.
  apply record_of_inv in Hrec as (kd & o & Hf & Ho).
  apply can_store_inv in Hc as (_ & _ & o' & Hl).
  rewrite Hf in Hl. simpl in Hl. injection Hl as -> ->.
  unfold getTokenStatus, bind, loadToken, try_catch, bind.
  rewrite _loadAllTokens_run, Hf. unfold gets, get, lift_opt. cbv beta iota.
  cbn [loaded get_prop]. rewrite Ho. cbn [ret truthy negb get_prop]. cbv beta iota.
  rewrite He. cbn [ret]. cbv beta iota.
  assert (Ht : truthy (vnum e) = true).
  { simpl. destruct (Z.eqb_spec e 0); [congruence | reflexivity]. }
  rewrite Ht. unfold Date_now. cbv beta iota. cbn [toNumber vnum num_gt ret].
  destruct (Z.ltb_spec e (clock s)); [|lia]. cbv beta iota.
  cbn [own_props obj truthy negb ret get_prop]. cbv beta iota.
  rewrite obj_get_set. cbn [String.eqb Ascii.eqb Bool.eqb]. cbv beta iota.
  reflexivity.
Qed.

Lemma loadCachedToken_refreshed (response content rt : value) (r : props)
      (e : Z) (s : State) :
  truthy (token s) = false ->
  can_store s = true ->
  record_of (tokensFile s) (environmentKey s) = Some (VObj Plain r) ->
  obj_get r "expires_at" = Some (vnum e) ->
  e <> 0 ->
  e < clock s ->
  obj_get r "refresh_token" = Some rt ->
  truthy rt = true ->
  embedded_payload response = inr (Some content) ->
  truthy (fieldv content "success") = true ->
  loadCachedToken (inr response) s
  = (Ret (fieldv content "access_token"),
     set_token (fieldv content "access_token")
       (add_log LogRefreshOk
          (snd (saveToken
                  (refresh_token_data content rt (clock (tick (tick s)))
                     (httpServiceUrl s))
                  (refresh_pre_save rt (tick s)))))).
Proof.
  intros Htok Hc Hrec He Hnz Hexp Hrt Trt Hp Hs.
  unfold loadCachedToken, bind. unfold gets at 1. cbv beta iota. rewrite Htok.
  rewrite (getTokenStatus_expired _ _ _ Hc Hrec He Hnz Hexp). cbv beta iota.
  unfold get, lift_opt. cbn [get_prop obj]. rewrite obj_get_set.
  cbn [String.eqb Ascii.eqb Bool.eqb]. rewrite Hrt. cbn [ret]. cbv beta iota.
  rewrite Trt. rewrite (refreshToken_success _ _ _ _ Hp Hs). cbv beta iota.
  assert (Tc : truthy content = true).
  { assert (is_object content = true) as Ho
      by (apply (truthy_field_object content "success" Hs); reflexivity).
    destruct content; try discriminate. reflexivity. }
  rewrite Tc. cbn [andb].
  rewrite (get_prop_defined _ _ (truthy_not_nullish _ Tc)). cbn [ret].
  unfold modify. cbv beta iota. reflexivity.
Qed.

(** C6, as amended.  When the stored record of the current environment has
    expired and carries a refresh token, and the refresh succeeds with a
    declared lifetime that is not negative and in range (the new expiry,
    the time of the refresh plus the lifetime, is an exact number), or with
    none that is a number, the record written by the refresh expires no
    earlier than the record it replaces. *)
Theorem refresh_expiry_monotone (response content rt : value) (r : props)
        (e : Z) (s : State) :
  truthy (token s) = false ->
  can_store s = true ->
  record_of (tokensFile s) (environmentKey s) = Some (VObj Plain r) ->
  obj_get r "expires_at" = Some (vnum e) ->
  e <> 0 ->
  e < clock s ->
  obj_get r "refresh_token" = Some rt ->
  truthy rt = true ->
  embedded_payload response = inr (Some content) ->
  truthy (fieldv content "success") = true ->
  lifetime_in_range content (clock (tick (tick s))) ->
  In LogRefreshOk (console (snd (loadCachedToken (inr response) s)))
  /\ exists e',
       record_field (tokensFile (snd (loadCachedToken (inr response) s)))
         (environmentKey s) "expires_at"
       = Some (vnum e')
       /\ e <= e'.
Proof.
  intros Htok Hc Hrec He Hnz Hexp Hrt Trt Hp Hs Hlife.
  rewrite (loadCachedToken_refreshed _ _ _ _ _ _ Htok Hc Hrec He Hnz Hexp Hrt
             Trt Hp Hs).
  cbn [snd]. state_simpl. split.
  - apply in_or_app. right. left. reflexivity.
  - set (td := refresh_token_data content rt
                 (clock s + Z.of_nat (hd 0%nat (ticks s))
                  + Z.of_nat (hd 0%nat (tl (ticks s))))
                 (httpServiceUrl s)).
    set (s1 := refresh_pre_save rt (tick s)).
    assert (Hc1 : can_store s1 = true) by exact Hc.
    assert (Hk1 : environmentKey s1 <> "__proto__"
                  \/ record_of (tokensFile s1) (environmentKey s1) <> None).
    { right. change (record_of (tokensFile s) (environmentKey s) <> None).
      rewrite Hrec. discriminate. }
    pose proof (stored_expiry td s1 Hc1 Hk1 eq_refl (fun _ => eq_refl)) as H.
    change (environmentKey s1) with (environmentKey s) in H.
    rewrite H.
    assert (Hgiven :
              fieldv td "expires_at"
              = VNum (num_add
                        (Fin (clock s + Z.of_nat (hd 0%nat (ticks s))
                              + Z.of_nat (hd 0%nat (tl (ticks s)))))
                        (num_mul (toNumber (fieldv content "expires_in"))
                           (Fin 1000)))) by reflexivity.
    rewrite Hgiven.
    assert (Hs1 : clock s <= clock s1) by (unfold s1, refresh_pre_save; state_simpl; lia).
    destruct Hlife as [-> | (n & -> & Hn & _ & _)].
    + cbn [num_mul num_add truthy]. exists (clock s1 + seven_days).
      split; [reflexivity | unfold seven_days; lia].
    + cbn [num_mul num_add].
      match goal with |- context [truthy (VNum (Fin ?z))] =>
        destruct (truthy (VNum (Fin z))) eqn:Ht; [exists z | exists (clock s1 + seven_days)]
      end; (split; [reflexivity | unfold seven_days; lia]).
Qed.

(** A poll step inside the waiting window that is told [pending] stores
    nothing and schedules the next step. *)
Lemma poll_pending_reschedules (sess : PollSession) (response : value)
      (s : State) :
  num_gt (Fin (clock s - ps_startTime sess))
    (num_mul (toNumber (ps_max_wait_time sess)) (Fin 1000)) = false ->
  fieldv response "status" = VStr "pending" ->
  exists s',
    poll sess (inr response) s = (Ret tt, s')
    /\ tokensFile s' = tokensFile s
    /\ token s' = token s
    /\ writes s' = writes s
    /\ timers s'
       = (timers s
          ++ [mkTimer sess
                (num_mul (toNumber (ps_check_interval sess)) (Fin 1000))])%list.
Proof.
  intros Hlive Hstatus.
  assert (Hn : is_nullish response = false).
  { destruct (is_nullish response) eqn:E; [|reflexivity].
    rewrite (fieldv_nullish _ "status" E) in Hstatus. discriminate. }
  unfold poll, try_catch, bind, Date_now. cbv beta iota. rewrite Hlive.
  unfold gets, makeHttpStateCheckRequest, bind, modify, lift_sum, ret.
  cbv beta iota.
  repeat (rewrite (get_run _ _ _ Hn); cbv beta iota).
  rewrite Hstatus. cbn [strict_eq String.eqb Ascii.eqb Bool.eqb orb]. cbv beta iota.
  unfold console_error, setTimeout, modify. cbv beta iota.
  eexists. split; [reflexivity|]. state_simpl. repeat split; reflexivity.
Qed.

Lemma replace_non_alnum_chars (h : string) :
  all_chars key_char (replace_non_alnum h) = true.
Proof.
  induction h as [|c h IH]; simpl; [reflexivity|].
  rewrite IH, andb_true_r. unfold key_char.
  destruct (is_alnum c) eqn:E; [rewrite E; reflexivity|].
  apply orb_true_iff. right. reflexivity.
Qed.

Lemma replace_non_alnum_length (h : string) :
  String.length (replace_non_alnum h) = String.length h.
Proof. induction h as [|c h IH]; simpl; congruence. Qed.

Lemma replace_non_alnum_fixed (h : string) :
  all_chars key_char h = true -> replace_non_alnum h = h.
Proof.
  induction h as [|c h IH]; simpl; [reflexivity|].
  intros H. apply andb_true_iff in H as [Hc Hh]. rewrite (IH Hh).
  destruct (is_alnum c) eqn:E; [reflexivity|].
  unfold key_char in Hc. rewrite E in Hc. simpl in Hc.
  apply Ascii.eqb_eq in Hc. subst c. reflexivity.
Qed.

(** X1.  The environment key is made of letters, digits and underscores
    only and is as long as the host name it comes from; deriving a key from a
    key changes nothing; an endpoint that is not a URL gets the key
    "default". *)
Theorem environment_key_normalised (h : string) :
  all_chars key_char (_getEnvironmentKey (Some h)) = true
  /\ String.length (_getEnvironmentKey (Some h)) = String.length h
  /\ _getEnvironmentKey (Some (_getEnvironmentKey (Some h)))
     = _getEnvironmentKey (Some h)
  /\ _getEnvironmentKey None = "default".
Proof.
  simpl. split; [apply replace_non_alnum_chars|].
  split; [apply replace_non_alnum_length|].
  split; [|reflexivity].
  apply replace_non_alnum_fixed, replace_non_alnum_chars.
Qed.

Lemma list_ascii_app (a b : string) :
  list_ascii_of_string (a ++ b)
  = (list_ascii_of_string a ++ list_ascii_of_string b)%list.
Proof. induction a as [|c a IH]; simpl; [reflexivity | rewrite IH; reflexivity]. Qed.

Lemma string_of_list_app (a b : list ascii) :
  string_of_list_ascii (a ++ b)
  = string_of_list_ascii a ++ string_of_list_ascii b.
Proof. induction a as [|c a IH]; simpl; [reflexivity | rewrite IH; reflexivity]. Qed.

Lemma strip_suffix_rev_app (p r : list ascii) :
  strip_suffix_rev p (p ++ r) = Some r.
Proof.
  induction p as [|c p IH]; simpl; [reflexivity|].
  rewrite Ascii.eqb_refl. exact IH.
Qed.

Lemma strip_suffix_rev_some (p r x : list ascii) :
  strip_suffix_rev p r = Some x -> r = (p ++ x)%list.
Proof.
  revert r. induction p as [|c p IH]; intros r; simpl.
  - intros [= ->]. reflexivity.
  - destruct r as [|d r]; [discriminate|].
    destruct (Ascii.eqb_spec c d) as [->|]; [|discriminate].
    intros H. rewrite (IH _ H). reflexivity.
Qed.

(** X2.  The status-check base drops a final "/mcp" of the endpoint and
    nothing else: an endpoint [base ++ "/mcp"] gives [base], and any endpoint
    either stays as it is or is its base followed by "/mcp". *)
Theorem strip_mcp_suffix (base url : string) :
  strip_mcp (base ++ "/mcp") = base
  /\ (strip_mcp url = url \/ url = strip_mcp url ++ "/mcp").
Proof.
  split.
  - unfold strip_mcp.
    rewrite list_ascii_app, rev_app_distr, strip_suffix_rev_app, rev_involutive.
    apply string_of_list_ascii_of_string.
  - unfold strip_mcp.
    destruct (strip_suffix_rev _ _) as [r|] eqn:E; [right | left; reflexivity].
    apply strip_suffix_rev_some in E.
    apply (f_equal (@rev ascii)) in E. rewrite rev_involutive, rev_app_distr in E.
    rewrite <- (string_of_list_ascii_of_string url) at 1. rewrite E.
    rewrite string_of_list_app. f_equal.
Qed.






(** The file's object when the store can be written. *)
Lemma can_store_file (s : State) (key : string) (rec : value) :
  can_store s = true ->
  record_of (tokensFile s) key = Some rec ->
  exists o, tokensFile s = Parsed (VObj Plain o) /\ obj_get o key = Some rec.
Proof.
  intros Hc Hrec. apply record_of_inv in Hrec as (kd & o & Hf & Ho).
  apply can_store_inv in Hc as (_ & _ & o' & Hl). rewrite Hf in Hl. simpl in Hl.
  injection Hl as -> ->. exists o'. split; assumption.
Qed.

(** [loadToken] on a record that has not expired. *)
Lemma loadToken_valid_run (o r : props) (e : Z) (s : State) :
  tokensFile s = Parsed (VObj Plain o) ->
  obj_get o (environmentKey s) = Some (VObj Plain r) ->
  obj_get r "expires_at" = Some (vnum e) ->
  e <> 0 ->
  clock s <= e ->
  loadToken s
  = (Ret (VObj Plain (obj_set r "last_used" (vnum (clock (tick s))))),
     snd (_saveAllTokens
            (VObj Plain
               (obj_set o (environmentKey s)
                  (VObj Plain (obj_set r "last_used" (vnum (clock (tick s)))))))
            (tick (tick s)))).
Proof.
  intros Hf Ho He Hnz Hlive.
  unfold loadToken, try_catch, bind.
  rewrite _loadAllTokens_run, Hf. unfold gets, get, lift_opt. cbv beta iota.
  cbn [loaded get_prop]. rewrite Ho. cbn [ret truthy negb get_prop]. cbv beta iota.
  rewrite He. cbn [ret]. cbv beta iota.
  assert (Ht : truthy (vnum e) = true).
  { simpl. destruct (Z.eqb_spec e 0); [congruence | reflexivity]. }
  rewrite Ht. unfold Date_now. cbv beta iota. cbn [toNumber vnum num_gt ret].
  destruct (Z.ltb_spec e (clock s)); [lia|]. cbv beta iota.
  cbn [set_prop lift_sum ret]. cbv beta iota.
  rewrite (assign_eq r "last_used") by discriminate.
  rewrite (obj_get_assign_own _ _ _ _ Ho). state_simpl.
  rewrite _saveAllTokens_run. state_simpl.
  destruct (writable s); reflexivity.
Qed.




(** X4.  Loading a record whose expiry lies in the past returns a copy
    flagged [expired: true]; the file is not written and the stored record
    stays as it is. *)
Theorem load_expired_token_is_flagged (r : props) (e : Z) (s : State) :
  can_store s = true ->
  record_of (tokensFile s) (environmentKey s) = Some (VObj Plain r) ->
  obj_get r "expires_at" = Some (vnum e) ->
  e <> 0 ->
  e < clock s ->
  loadToken s = (Ret (obj (obj_set r "expired" (VBool true))), tick s)
  /\ tokensFile (snd (loadToken s)) = tokensFile s
  /\ writes (snd (loadToken s)) = writes s.
Proof.
  intros Hc Hrec He Hnz Hexp.
  destruct (can_store_file _ _ _ Hc Hrec) as (o & Hf & Ho).
  assert (Hrun : loadToken s = (Ret (obj (obj_set r "expired" (VBool true))), tick s)).
  { unfold loadToken, try_catch, bind.
    rewrite _loadAllTokens_run, Hf. unfold gets, get, lift_opt. cbv beta iota.
    cbn [loaded get_prop]. rewrite Ho. cbn [ret truthy negb get_prop]. cbv beta iota.
    rewrite He. cbn [ret]. cbv beta iota.
    assert (Ht : truthy (vnum e) = true).
    { simpl. destruct (Z.eqb_spec e 0); [congruence | reflexivity]. }
    rewrite Ht. unfold Date_now. cbv beta iota. cbn [toNumber vnum num_gt ret].
    destruct (Z.ltb_spec e (clock s)); [|lia]. reflexivity. }
  rewrite Hrun. repeat split; reflexivity.
Qed.

(** X5.  When the collection holds nothing for the current environment,
    and the environment key is not a name that every object inherits
    ([constructor], [__proto__] and the like), the status is [not_found] and
    nothing is written: no file is created and an existing one is left
    alone. *)
Theorem missing_record_is_not_found (o : props) (s : State) :
  loaded (tokensFile s) = VObj Plain o ->
  obj_get o (environmentKey s) = None ->
  inherits (VObj Plain o) (environmentKey s) = false ->
  fst (loadToken s) = Ret VNull
  /\ fst (getTokenStatus s) = Ret NotFound
  /\ tokensFile (snd (getTokenStatus s)) = tokensFile s
  /\ writes (snd (getTokenStatus s)) = writes s
  /\ clock (snd (getTokenStatus s)) = clock s.
Proof.
  intros Hl Ho Hi.
  assert (Hrun : loadToken s
                 = (Ret VNull,
                    match tokensFile s with
                    | Unreadable => add_log (LogLoadAllFailed SyntaxError) s
                    | _ => s
                    end)).
  { unfold loadToken, try_catch, bind. rewrite _loadAllTokens_run, Hl.
    unfold gets, get, lift_opt. cbv beta iota. cbn [get_prop].
    assert (He : environmentKey
                   match tokensFile s with
                   | Unreadable => add_log (LogLoadAllFailed SyntaxError) s
                   | _ => s
                   end = environmentKey s) by (destruct (tokensFile s); reflexivity).
    rewrite He, Ho. unfold inherited. rewrite Hi. reflexivity. }
  unfold getTokenStatus, bind. rewrite Hrun. cbn [fst snd truthy negb ret].
  destruct (tokensFile s) eqn:Hf; state_simpl; rewrite ?Hf; repeat split; reflexivity.
Qed.



(** X7.  Clearing when the current environment has no record, and its key
    is not a name that every object inherits ([constructor], [__proto__]
    and the like), is a no-op: it does not throw, writes nothing and leaves
    the file as it was. *)
Theorem clear_absent_is_noop (o : props) (s : State) :
  loaded (tokensFile s) = VObj Plain o ->
  obj_get o (environmentKey s) = None ->
  inherits (VObj Plain o) (environmentKey s) = false ->
  fst (clearToken s) = Ret tt
  /\ tokensFile (snd (clearToken s)) = tokensFile s
  /\ writes (snd (clearToken s)) = writes s
  /\ clock (snd (clearToken s)) = clock s.
Proof.
  intros Hl Ho Hi. unfold clearToken, try_catch, bind.
  rewrite _loadAllTokens_run, Hl. unfold gets, get, lift_opt. cbv beta iota.
  cbn [get_prop].
  assert (He : environmentKey
                 match tokensFile s with
                 | Unreadable => add_log (LogLoadAllFailed SyntaxError) s
                 | _ => s
                 end = environmentKey s) by (destruct (tokensFile s); reflexivity).
  rewrite He, Ho. unfold inherited. rewrite Hi. cbn [ret truthy fst snd].
  destruct (tokensFile s) eqn:Hf; state_simpl; rewrite ?Hf; repeat split; reflexivity.
Qed.

(** X8.  When the disk refuses the write, [saveToken] reports [false] and
    counts no write.  A write that is refused before the file is opened
    leaves the file as it was; [fs.writeFileSync] opens the file for
    truncation, so a write that fails after the open ([truncates]) leaves a
    file that no longer parses, whenever the save got as far as writing. *)
Theorem save_unwritable_reports_false (tokenData : value) (o : props) (s : State) :
  writable s = false ->
  fst (saveToken tokenData s) = Ret (VBool false)
  /\ writes (snd (saveToken tokenData s)) = writes s
  /\ (truncates s = false ->
      tokensFile (snd (saveToken tokenData s)) = tokensFile s)
  /\ (truncates s = true ->
      is_nullish tokenData = false ->
      loaded (tokensFile s) = VObj Plain o ->
      tokensFile (snd (saveToken tokenData s)) = Unreadable).
Proof.
  intros Hw. rewrite saveToken_eq. unfold saveToken_spec. rewrite Hw.
  destruct (get_prop tokenData "access_token") eqn:Ha.
  - split; [|split; [|split]].
    + destruct (set_prop _ _ _); destruct (truthy (fieldv tokenData "expires_at"));
        reflexivity.
    + destruct (set_prop _ _ _); destruct (truthy (fieldv tokenData "expires_at"));
        unfold failed_write; state_simpl; destruct (tokensFile s); state_simpl;
        try destruct (truncates s); state_simpl; reflexivity.
    + intros Ht.
      destruct (set_prop _ _ _); destruct (truthy (fieldv tokenData "expires_at"));
        unfold failed_write; destruct (tokensFile s) eqn:Hf; state_simpl;
        rewrite ?Ht; state_simpl; rewrite ?Hf; reflexivity.
    + intros Ht _ Hl. rewrite Hl. cbn [set_prop].
      destruct (truthy (fieldv tokenData "expires_at"));
        unfold failed_write; destruct (tokensFile s) eqn:Hf; state_simpl;
        rewrite ?Ht; state_simpl; reflexivity.
  - split; [reflexivity|]. split; [reflexivity|]. split; [reflexivity|].
    intros _ Hn. rewrite (get_prop_defined _ _ Hn) in Ha. discriminate Ha.
Qed.

(** X9.  When the file parses to something that is not an object ([null],
    a number, a string, a boolean), the assignment of the record throws
    inside [saveToken]: the save reports [false] and the file is left as it
    is.  The environment key [__proto__] is set apart: on a number, a string
    or a boolean that assignment reaches the inherited setter, which returns
    without throwing. *)
Theorem save_into_non_object_fails (tokenData v : value) (s : State) :
  tokensFile s = Parsed v ->
  is_object v = false ->
  is_nullish v = true \/ environmentKey s <> "__proto__" ->
  fst (saveToken tokenData s) = Ret (VBool false)
  /\ tokensFile (snd (saveToken tokenData s)) = tokensFile s
  /\ writes (snd (saveToken tokenData s)) = writes s.
Proof.
  intros Hf Hv Hk. rewrite saveToken_eq. unfold saveToken_spec. rewrite Hf.
  destruct (get_prop tokenData "access_token"); [|repeat split; assumption || reflexivity].
  cbn [loaded].
  assert (Hset : forall x, set_prop v (environmentKey s) x = inl TypeError).
  { intros x. destruct Hk as [Hk|Hk].
    - destruct v; try discriminate; reflexivity.
    - apply String.eqb_neq in Hk.
      destruct v; try discriminate; cbn [set_prop]; rewrite ?Hk; reflexivity. }
  rewrite Hset.
  destruct (truthy (fieldv tokenData "expires_at")); state_simpl;
    repeat split; assumption || reflexivity.
Qed.





Lemma saveAll_clock (allTokens : value) (s : State) :
  clock (snd (_saveAllTokens allTokens s)) = clock (tick s)
  /\ store_only s (snd (_saveAllTokens allTokens s))
  /\ console (snd (_saveAllTokens allTokens s))
     = (if writable s then console s
        else console s ++ [LogSaveAllFailed IOError])%list.
Proof.
  rewrite _saveAllTokens_run.
  destruct (writable s) eqn:E; cbn [snd]; (split; [|split]);
    try solve [store_only_tac];
    unfold failed_write; state_simpl; try destruct (truncates s); state_simpl;
    reflexivity.
Qed.

Lemma getTokenStatus_valid_run (o r : props) (e : Z) (s : State) :
  tokensFile s = Parsed (VObj Plain o) ->
  obj_get o (environmentKey s) = Some (VObj Plain r) ->
  obj_get r "expires_at" = Some (vnum e) ->
  e <> 0 ->
  clock s <= e ->
  obj_get r "expired" = None ->
  getTokenStatus s
  = (Ret (Valid (touched r s)
            (Fin ((e - clock (tick (tick (tick s)))) / (1000 * 60 * 60)))),
     tick (snd (loadToken s))).
Proof.
  intros Hf Ho He Hnz Hlive Hx.
  unfold getTokenStatus, bind.
  pose proof (loadToken_valid_run _ _ _ _ Hf Ho He Hnz Hlive) as Hrun.
  rewrite Hrun. cbn [fst snd truthy negb]. cbv beta iota.
  unfold get, lift_opt. cbn [get_prop]. rewrite !obj_get_set.
  cbn [String.eqb Ascii.eqb Bool.eqb]. rewrite Hx, He.
  rewrite (inherited_none _ "expired") by reflexivity.
  cbn [ret truthy]. cbv beta iota.
  unfold Date_now. cbn [ret toNumber vnum num_sub num_floor_div].
  match goal with |- context [_saveAllTokens ?a ?st] =>
    destruct (saveAll_clock a st) as (Hclk & _ & _) end.
  rewrite Hclk. reflexivity.
Qed.


Lemma loadToken_valid_frame (o r : props) (e : Z) (s : State) :
  tokensFile s = Parsed (VObj Plain o) ->
  obj_get o (environmentKey s) = Some (VObj Plain r) ->
  obj_get r "expires_at" = Some (vnum e) ->
  e <> 0 ->
  clock s <= e ->
  store_only s (snd (loadToken s)).
Proof.
  intros Hf Ho He Hnz Hlive.
  rewrite (loadToken_valid_run _ _ _ _ Hf Ho He Hnz Hlive). cbn [snd].
  match goal with |- context [_saveAllTokens ?a ?st] =>
    destruct (saveAll_clock a st) as (_ & Hso & _) end.
  eapply store_only_trans; [|exact Hso]. constructor; reflexivity.
Qed.

Lemma loadCachedToken_valid_run (net : exn + value) (r : props) (e : Z)
      (tok : string) (s : State) :
  truthy (token s) = false ->
  can_store s = true ->
  record_of (tokensFile s) (environmentKey s) = Some (VObj Plain r) ->
  obj_get r "expires_at" = Some (vnum e) ->
  e <> 0 ->
  clock s <= e ->
  obj_get r "expired" = None ->
  obj_get r "access_token" = Some (VStr tok) ->
  loadCachedToken net s
  = (Ret (VStr tok),
     add_log (LogUsingCached (substring 0 20 tok))
       (set_token (VStr tok) (tick (snd (loadToken s)))))
  /\ store_only s (snd (loadToken s)).
Proof.
  intros Htok Hc Hrec He Hnz Hlive Hx Ha.
  destruct (can_store_file _ _ _ Hc Hrec) as (o & Hf & Ho).
  split; [|exact (loadToken_valid_frame _ _ _ _ Hf Ho He Hnz Hlive)].
  unfold loadCachedToken, bind. unfold gets at 1. cbv beta iota. rewrite Htok.
  rewrite (getTokenStatus_valid_run _ _ _ _ Hf Ho He Hnz Hlive Hx). cbv beta iota.
  unfold get, lift_opt, touched. cbn [get_prop]. rewrite obj_get_set.
  cbn [String.eqb Ascii.eqb Bool.eqb]. rewrite Ha.
  cbn [ret substring20 lift_sum]. unfold modify, console_error, modify.
  reflexivity.
Qed.

(** X12.  With no token in memory and a valid record in the file,
    [loadCachedToken] takes the access token of the record as the current
    token and returns it, and sends nothing to the remote service. *)
Theorem cached_token_used_without_network
        (net : exn + value) (r : props) (e : Z) (tok : string) (s : State) :
  truthy (token s) = false ->
  can_store s = true ->
  record_of (tokensFile s) (environmentKey s) = Some (VObj Plain r) ->
  obj_get r "expires_at" = Some (vnum e) ->
  e <> 0 ->
  clock s <= e ->
  obj_get r "expired" = None ->
  obj_get r "access_token" = Some (VStr tok) ->
  fst (loadCachedToken net s) = Ret (VStr tok)
  /\ token (snd (loadCachedToken net s)) = VStr tok
  /\ requests (snd (loadCachedToken net s)) = requests s
  /\ execs (snd (loadCachedToken net s)) = execs s
  /\ timers (snd (loadCachedToken net s)) = timers s.
Proof.
  intros Htok Hc Hrec He Hnz Hlive Hx Ha.
  destruct (loadCachedToken_valid_run net _ _ _ _ Htok Hc Hrec He Hnz Hlive Hx Ha)
    as (Hrun & Hso).
  rewrite Hrun. cbn [fst snd].
  pose proof (so_requests _ _ Hso) as H1. pose proof (so_execs _ _ Hso) as H2.
  pose proof (so_timers _ _ Hso) as H3.
  state_simpl. rewrite H1, H2, H3. repeat split; reflexivity.
Qed.



Lemma refreshToken_fails (rt : value) (net : exn + value) (s : State) :
  refresh_fails net ->
  exists s',
    refreshToken rt net s = (Ret VNull, s')
    /\ (s' = refresh_sent rt s
        \/ exists e, s' = add_log (LogRefreshFailed e) (refresh_sent rt s)).
Proof.
  destruct net as [e|response]; intros Hfail.
  - eexists. split; [reflexivity|]. right. exists e. reflexivity.
  - destruct Hfail as (content & Hp & Hn & Hs).
    apply embedded_payload_inv in Hp
      as (result & rcontent & block & text & Hr & Tr & Hc & Tc & Hb & Tb & Ht & Hj).
    assert (Tresp : truthy response = true).
    { assert (is_object response = true) as Ho.
      { apply (truthy_field_object response "result");
        [|reflexivity|reflexivity|reflexivity].
        unfold fieldv. rewrite Hr. exact Tr. }
      destruct response; try discriminate. reflexivity. }
    eexists. split; [|left; reflexivity].
    unfold refreshToken, try_catch, bind, Date_now, makeHttpRequest, bind, gets,
      modify, lift_sum, ret. cbv beta iota.
    rewrite Tresp. cbn [negb]. unfold get, lift_opt.
    rewrite Hr. cbn [ret]. cbv beta iota. rewrite Tr. cbn [negb].
    rewrite Hc. cbn [ret]. cbv beta iota. rewrite Tc. cbn [negb].
    rewrite Hb. cbn [ret]. cbv beta iota. rewrite Ht. cbn [ret]. cbv beta iota.
    rewrite Hj. cbn [ret]. cbv beta iota.
    rewrite (get_prop_defined _ _ Hn). cbn [ret]. cbv beta iota.
    rewrite Hs. reflexivity.
Qed.

(** X14.  When the stored record has expired and the refresh does not
    succeed, [loadCachedToken] gives up with [null]: the record in the file
    stays exactly as it was, nothing is written, no token is taken, and the
    need to authenticate again is logged. *)
Theorem failed_refresh_leaves_record (net : exn + value) (rt : value)
        (r : props) (e : Z) (s : State) :
  truthy (token s) = false ->
  can_store s = true ->
  record_of (tokensFile s) (environmentKey s) = Some (VObj Plain r) ->
  obj_get r "expires_at" = Some (vnum e) ->
  e <> 0 ->
  e < clock s ->
  obj_get r "refresh_token" = Some rt ->
  truthy rt = true ->
  refresh_fails net ->
  fst (loadCachedToken net s) = Ret VNull
  /\ tokensFile (snd (loadCachedToken net s)) = tokensFile s
  /\ writes (snd (loadCachedToken net s)) = writes s
  /\ token (snd (loadCachedToken net s)) = token s
  /\ In LogExpiredReauth (console (snd (loadCachedToken net s))).
Proof.
  intros Htok Hc Hrec He Hnz Hexp Hrt Trt Hfail.
  destruct (refreshToken_fails rt net (tick s) Hfail) as (s' & Hrun & Hs').
  assert (Hload : loadCachedToken net s = (Ret VNull, add_log LogExpiredReauth s')).
  { unfold loadCachedToken, bind. unfold gets at 1. cbv beta iota. rewrite Htok.
    rewrite (getTokenStatus_expired _ _ _ Hc Hrec He Hnz Hexp). cbv beta iota.
    unfold get, lift_opt. cbn [get_prop obj]. rewrite obj_get_set.
    cbn [String.eqb Ascii.eqb Bool.eqb]. rewrite Hrt. cbn [ret]. cbv beta iota.
    rewrite Trt, Hrun. cbn [truthy andb]. reflexivity. }
  rewrite Hload. cbn [fst snd]. split; [reflexivity|].
  destruct Hs' as [-> | (x & ->)]; unfold refresh_sent; state_simpl;
    repeat split; try reflexivity; apply in_or_app; right; left; reflexivity.
Qed.

Lemma keeps_ret {X A} (f : State -> X) (a : A) : keeps f (ret a).
Proof. intros s. reflexivity. Qed.

Lemma keeps_throw {X A} (f : State -> X) (e : exn) : keeps f (@throw A e).
Proof. intros s. reflexivity. Qed.

Lemma keeps_gets {X A} (f : State -> X) (g : State -> A) : keeps f (gets g).
Proof. intros s. reflexivity. Qed.

Lemma keeps_lift_opt {X A} (f : State -> X) (o : option A) : keeps f (lift_opt o).
Proof. intros s. destruct o; reflexivity. Qed.

Lemma keeps_lift_sum {X A} (f : State -> X) (r : exn + A) : keeps f (lift_sum r).
Proof. intros s. destruct r; reflexivity. Qed.

Lemma keeps_get {X} (f : State -> X) (v : value) (k : string) : keeps f (get v k).
Proof. apply keeps_lift_opt. Qed.

Lemma keeps_modify {X} (f : State -> X) (g : State -> State) :
  (forall s, f (g s) = f s) -> keeps f (modify g).
Proof. intros H s. apply H. Qed.

Lemma keeps_Date_now {X} (f : State -> X) :
  (forall s, f (tick s) = f s) -> keeps f Date_now.
Proof. intros H s. apply H. Qed.

Lemma keeps_writeFileSync {X} (f : State -> X) (d : value) :
  (forall v s, f (write_file v s) = f s) ->
  (forall s, f (truncate_file s) = f s) ->
  keeps f (writeFileSync d).
Proof.
  intros H Hr s. unfold writeFileSync, failed_write.
  destruct (writable s); [apply H|]. cbn [snd].
  destruct (truncates s); [apply Hr | reflexivity].
Qed.

Lemma keeps_bind {X A B} (f : State -> X) (m : M A) (k : A -> M B) :
  keeps f m -> (forall a, keeps f (k a)) -> keeps f (bind m k).
Proof.
  intros Hm Hk s. unfold bind. specialize (Hm s).
  destruct (m s) as [[a|e] s']; simpl in *; [rewrite Hk|]; exact Hm.
Qed.

Lemma keeps_try_catch {X A} (f : State -> X) (m : M A) (h : exn -> M A) :
  keeps f m -> (forall e, keeps f (h e)) -> keeps f (try_catch m h).
Proof.
  intros Hm Hh s. unfold try_catch. specialize (Hm s).
  destruct (m s) as [[a|e] s']; simpl in *; [|rewrite Hh]; exact Hm.
Qed.

(** What follows a step keeps [f]: then [f] after the whole is [f] after
    the step. *)
Lemma keeps_after_bind {X A B} (f : State -> X) (m : M A) (k : A -> M B) (s : State) :
  (forall a, keeps f (k a)) -> f (snd (bind m k s)) = f (snd (m s)).
Proof.
  intros Hk. unfold bind. destruct (m s) as [[a|e] s']; simpl; [apply Hk | reflexivity].
Qed.

Lemma keeps_after_catch {X A} (f : State -> X) (m : M A) (h : exn -> M A) (s : State) :
  (forall e, keeps f (h e)) -> f (snd (try_catch m h s)) = f (snd (m s)).
Proof.
  intros Hh. unfold try_catch. destruct (m s) as [[a|e] s']; simpl; [reflexivity | apply Hh].
Qed.

Lemma keeps__loadAllTokens {X} (f : State -> X) :
  beside_store f -> keeps f _loadAllTokens.
Proof.
  intros (_ & Hl & _) s. rewrite _loadAllTokens_run. cbn [snd].
  destruct (tokensFile s); try reflexivity. apply Hl.
Qed.

Lemma keeps__saveAllTokens {X} (f : State -> X) (a : value) :
  beside_store f -> keeps f (_saveAllTokens a).
Proof.
  intros (Ht & Hl & Hw & Hr) s. rewrite _saveAllTokens_run. unfold failed_write.
  destruct (writable s); cbn [snd]; rewrite ?Hw, ?Hl; [apply Ht|].
  destruct (truncates (tick s)); rewrite ?Hr; apply Ht.
Qed.

Ltac keeps_tac :=
  repeat first
    [ apply keeps_ret | apply keeps_throw | apply keeps_gets | apply keeps_get
    | apply keeps_lift_opt | apply keeps_lift_sum
    | apply keeps__loadAllTokens; assumption
    | apply keeps__saveAllTokens; assumption
    | apply keeps_bind; [|intros]
    | apply keeps_try_catch; [|intros]
    | match goal with
      | H : beside_store _ |- keeps _ Date_now =>
          apply keeps_Date_now; apply (proj1 H)
      | H : beside_store _ |- keeps _ (console_error _) =>
          apply keeps_modify; intros; apply (proj1 (proj2 H))
      | |- keeps _ (if ?b then _ else _) => destruct b
      | |- keeps _ (match ?x with _ => _ end) => destruct x
      end ].

Lemma keeps_saveToken {X} (f : State -> X) (td : value) :
  beside_store f -> keeps f (saveToken td).
Proof. intros H. unfold saveToken. keeps_tac. Qed.

Lemma keeps_loadToken {X} (f : State -> X) :
  beside_store f -> keeps f loadToken.
Proof. intros H. unfold loadToken. keeps_tac. Qed.

Lemma keeps_clearToken {X} (f : State -> X) :
  beside_store f -> keeps f clearToken.
Proof. intros H. unfold clearToken. keeps_tac. Qed.

Lemma keeps_getTokenStatus {X} (f : State -> X) :
  beside_store f -> keeps f getTokenStatus.
Proof. intros H. unfold getTokenStatus. keeps_tac. Qed.

Lemma loadToken_total (s : State) : exists v, fst (loadToken s) = Ret v.
Proof.
  unfold loadToken, try_catch.
  match goal with |- context [let (_, _) := ?m s in _] =>
    destruct (m s) as [[a|e] s'] end; eexists; reflexivity.
Qed.

Lemma beside_store_token : beside_store token.
Proof. repeat split. Qed.
Lemma beside_store_last : beside_store lastBrowserOpenTime.
Proof. repeat split. Qed.
Lemma beside_store_execs : beside_store execs.
Proof. repeat split. Qed.
Lemma beside_store_timers : beside_store timers.
Proof. repeat split. Qed.
Lemma beside_store_requests : beside_store requests.
Proof. repeat split. Qed.
Lemma beside_store_url : beside_store httpServiceUrl.
Proof. repeat split. Qed.
Lemma beside_store_env : beside_store environmentKey.
Proof. repeat split. Qed.
Lemma beside_store_writable : beside_store writable.
Proof. repeat split. Qed.
Lemma beside_store_platform : beside_store platform.
Proof. repeat split. Qed.
Lemma beside_store_truncates : beside_store truncates.
Proof. repeat split. Qed.

Lemma keeps_store_only {A} (m : M A) :
  (forall X (f : State -> X), beside_store f -> keeps f m) ->
  forall s, store_only s (snd (m s)).
Proof.
  intros H s. constructor.
  - apply (H _ _ beside_store_url).
  - apply (H _ _ beside_store_token).
  - apply (H _ _ beside_store_last).
  - apply (H _ _ beside_store_env).
  - apply (H _ _ beside_store_writable).
  - apply (H _ _ beside_store_truncates).
  - apply (H _ _ beside_store_execs).
  - apply (H _ _ beside_store_timers).
  - apply (H _ _ beside_store_requests).
  - apply (H _ _ beside_store_platform).
Qed.

(** X15.  The methods of the token cache never throw, and whatever they do
    to the file, the clock and the console, they never touch the state of
    the proxy: the token in memory, the time of the last browser open, the
    commands launched, the pending timers and the requests sent stay as
    they are. *)
Theorem token_cache_is_contained (tokenData : value) (s : State) :
  (exists b, fst (saveToken tokenData s) = Ret (VBool b))
  /\ (exists v, fst (loadToken s) = Ret v)
  /\ fst (clearToken s) = Ret tt
  /\ store_only s (snd (saveToken tokenData s))
  /\ store_only s (snd (loadToken s))
  /\ store_only s (snd (clearToken s))
  /\ store_only s (snd (getTokenStatus s)).
Proof.
  split; [apply saveToken_total|]. split; [apply loadToken_total|].
  split; [destruct (clearToken_props s) as (s' & -> & _); reflexivity|].
  split; [apply saveToken_store_only|].
  split; [apply keeps_store_only; intros; apply keeps_loadToken; assumption|].
  split; [apply keeps_store_only; intros; apply keeps_clearToken; assumption|].
  apply keeps_store_only; intros; apply keeps_getTokenStatus; assumption.
Qed.

Ltac keeps_field :=
  repeat first
    [ apply keeps_saveToken; assumption
    | apply keeps_clearToken; assumption
    | apply keeps_modify; intros; reflexivity
    | progress keeps_tac ].

Lemma refresh_request_needs_no_auth (rt : value) (id : Z) (tok : value) :
  obj_get (request_headers tok (refresh_request rt id)) "Authorization" = None.
Proof. reflexivity. Qed.

(** X16.  A refresh sends exactly one request, the [oauth_refresh_token]
    call, and sends it without an [Authorization] header, whatever token
    the proxy holds and however the call ends. *)
Theorem refresh_is_sent_without_credentials
        (rt : value) (net : exn + value) (s : State) :
  exists headers,
    requests (snd (refreshToken rt net s))
    = (requests s ++ [Post (refresh_request rt (clock s)) headers])%list
    /\ obj_get headers "Authorization" = None.
Proof.
  exists (request_headers (token s) (refresh_request rt (clock s))).
  split; [|apply refresh_request_needs_no_auth].
  pose proof beside_store_requests as Hb.
  unfold refreshToken. rewrite keeps_after_catch by (intros; keeps_field).
  unfold bind at 1. unfold Date_now at 1. cbv beta iota.
  rewrite keeps_after_bind.
  - unfold makeHttpRequest, bind, gets, modify. cbv beta iota.
    destruct net; reflexivity.
  - intros response. keeps_field.
Qed.


(** X18.  Handling an auth-success response never throws and never opens
    the browser, schedules a poll, sends a request or moves the time of the
    last browser open. *)
Theorem token_handler_has_no_side_channel (response : value) (s : State) :
  (exists b, fst (handleTokenAuthResponse response s) = Ret (VBool b))
  /\ execs (snd (handleTokenAuthResponse response s)) = execs s
  /\ timers (snd (handleTokenAuthResponse response s)) = timers s
  /\ requests (snd (handleTokenAuthResponse response s)) = requests s
  /\ lastBrowserOpenTime (snd (handleTokenAuthResponse response s))
     = lastBrowserOpenTime s.
Proof.
  split.
  { unfold handleTokenAuthResponse, try_catch.
    match goal with |- context [let (_, _) := ?m s in _] =>
      destruct (m s) as [[a|e] s'] eqn:Hm end.
    2:{ eexists. reflexivity. }
    cbn [fst].
    assert (H : exists b, a = VBool b).
    { revert Hm. unfold bind.
      destruct (lift_sum (embedded_payload response) s) as [[[c|]|e] s0];
        [| intros [= <- _]; eexists; reflexivity | discriminate].
      destruct (get c "access_token" s0) as [[nt|e] s1]; [|discriminate].
      destruct (gets token s1) as [[cur|e] s2]; [|discriminate].
      destruct (truthy nt && negb (strict_eq nt cur));
        [| intros [= <- _]; eexists; reflexivity].
      repeat match goal with
             | |- (let (_, _) := ?m ?st in _) = _ -> _ =>
                 destruct (m st) as [[?|?] ?]; [|discriminate]
             end.
      intros [= <- _]. eexists. reflexivity. }
    destruct H as (b & ->). exists b. reflexivity. }
  pose proof beside_store_execs as H1. pose proof beside_store_timers as H2.
  pose proof beside_store_requests as H3. pose proof beside_store_last as H4.
  repeat split.
  - assert (K : keeps execs (handleTokenAuthResponse response))
      by (unfold handleTokenAuthResponse; keeps_field). apply K.
  - assert (K : keeps timers (handleTokenAuthResponse response))
      by (unfold handleTokenAuthResponse; keeps_field). apply K.
  - assert (K : keeps requests (handleTokenAuthResponse response))
      by (unfold handleTokenAuthResponse; keeps_field). apply K.
  - assert (K : keeps lastBrowserOpenTime (handleTokenAuthResponse response))
      by (unfold handleTokenAuthResponse; keeps_field). apply K.
Qed.



Lemma poll_request_run (sess : PollSession) (net : exn + value) (s : State) :
  in_time sess s = true ->
  poll sess net s
  = try_catch
      (response <- lift_sum net ;;
       status <- get response "status" ;;
       if strict_eq status (VStr "completed") then
         console_error LogAuthCompleted ;;
         tok <- get response "token" ;;
         prefix <- lift_sum (substring20 tok) ;;
         console_error (LogTokenPrefix prefix) ;;
         token_type <- get response "token_type" ;;
         now' <- Date_now ;;
         endpoint <- gets httpServiceUrl ;;
         saveToken
           (obj [("access_token", tok);
                 ("token_type", token_type);
                 ("expires_at", vnum (now' + seven_days));
                 ("endpoint", VStr endpoint)]) ;;
         modify (set_token tok) ;;
         console_error LogAuthFlowDone
       else if strict_eq status (VStr "pending")
               || strict_eq status (VStr "auth_code_generated") then
         now' <- Date_now ;;
         console_error (LogWaiting ((now' - ps_startTime sess) / 1000)) ;;
         setTimeout sess
       else if strict_eq status (VStr "expired") then
         console_error LogSessionExpired
       else if strict_eq status (VStr "unauthorized") then
         console_error LogSessionUnauthorized
       else
         message <- get response "message" ;;
         console_error (LogUnknownStatus status (js_or message (VStr ""))) ;;
         setTimeout sess)
      (fun e => console_error (LogPollFailed e) ;; setTimeout sess)
      (add_request (Get (check_state_url sess s)) (tick s)).
Proof.
  unfold in_time. intros Hlive. apply negb_true_iff in Hlive.
  unfold poll, try_catch. unfold bind at 1.
  change (Date_now s) with (Ret (clock s), tick s). cbv beta iota.
  rewrite Hlive. unfold bind at 1. unfold gets at 1. cbv beta iota.
  unfold makeHttpStateCheckRequest. unfold bind at 1 2. unfold modify at 1.
  cbv beta iota. unfold bind at 3. reflexivity.
Qed.

(** X20.  A poll step within the waiting time whose status check fails, or
    answers with no readable status or with a status other than
    [completed], [expired] and [unauthorized], schedules the next step after
    the check interval and leaves the token and the tokens file alone. *)
Theorem poll_retries_when_undecided
        (sess : PollSession) (net : exn + value) (s : State) :
  in_time sess s = true ->
  inconclusive net = true ->
  timers (snd (poll sess net s)) = (timers s ++ [next_poll sess])%list
  /\ token (snd (poll sess net s)) = token s
  /\ tokensFile (snd (poll sess net s)) = tokensFile s
  /\ writes (snd (poll sess net s)) = writes s.
Proof.
  intros Hlive Hnet. rewrite (poll_request_run _ _ _ Hlive).
  unfold try_catch, bind. destruct net as [e|response]; cbn [lift_sum throw ret].
  { unfold console_error, setTimeout, modify. cbv beta iota. cbn [snd].
    state_simpl. repeat split; reflexivity. }
  cbn [inconclusive] in Hnet. unfold get, lift_opt.
  destruct (get_prop response "status") as [status|] eqn:Hst; cbn [throw ret].
  2:{ unfold console_error, setTimeout, modify. cbv beta iota. cbn [snd].
      state_simpl. repeat split; reflexivity. }
  cbv beta iota.
  apply negb_true_iff in Hnet. apply orb_false_iff in Hnet as [Hnet Hu].
  apply orb_false_iff in Hnet as [Hc He]. rewrite Hc, He, Hu.
  assert (Hn : is_nullish response = false)
    by (destruct response; try reflexivity; discriminate).
  destruct (strict_eq status (VStr "pending")
            || strict_eq status (VStr "auth_code_generated")).
  { unfold Date_now, console_error, setTimeout, modify. cbv beta iota. cbn [snd].
    state_simpl. repeat split; reflexivity. }
  rewrite (get_prop_defined _ "message" Hn). cbn [ret]. cbv beta iota.
  unfold console_error, setTimeout, modify. cbv beta iota. cbn [snd].
  state_simpl. repeat split; reflexivity.
Qed.

(** X21.  A poll step within the waiting time that is told [expired] or
    [unauthorized] ends the session: it schedules no further step and
    leaves the token and the tokens file alone. *)
Theorem poll_stops_on_rejected_session
        (sess : PollSession) (response : value) (s : State) :
  in_time sess s = true ->
  fieldv response "status" = VStr "expired"
  \/ fieldv response "status" = VStr "unauthorized" ->
  timers (snd (poll sess (inr response) s)) = timers s
  /\ token (snd (poll sess (inr response) s)) = token s
  /\ tokensFile (snd (poll sess (inr response) s)) = tokensFile s
  /\ writes (snd (poll sess (inr response) s)) = writes s.
Proof.
  intros Hlive Hst. rewrite (poll_request_run _ _ _ Hlive).
  assert (Hn : is_nullish response = false).
  { destruct (is_nullish response) eqn:E; [|reflexivity].
    rewrite (fieldv_nullish _ "status" E) in Hst. destruct Hst; discriminate. }
  unfold try_catch, bind. cbn [lift_sum ret]. rewrite (get_run _ _ _ Hn).
  cbv beta iota.
  destruct Hst as [-> | ->];
    cbn [strict_eq String.eqb Ascii.eqb Bool.eqb orb]; cbv beta iota;
    unfold console_error, modify; cbn [snd]; state_simpl;
    repeat split; reflexivity.
Qed.

(** X22.  A poll step that is told [completed] but finds no string under
    [token] stores nothing and does not change the current token: the
    failure of [substring] ends in the [catch], which schedules the next
    step. *)
Theorem completed_without_token_retries
        (sess : PollSession) (response : value) (e : exn) (s : State) :
  in_time sess s = true ->
  fieldv response "status" = VStr "completed" ->
  substring20 (fieldv response "token") = inl e ->
  timers (snd (poll sess (inr response) s)) = (timers s ++ [next_poll sess])%list
  /\ token (snd (poll sess (inr response) s)) = token s
  /\ tokensFile (snd (poll sess (inr response) s)) = tokensFile s
  /\ writes (snd (poll sess (inr response) s)) = writes s.
Proof.
  intros Hlive Hst Htok. rewrite (poll_request_run _ _ _ Hlive).
  assert (Hn : is_nullish response = false).
  { destruct (is_nullish response) eqn:E; [|reflexivity].
    rewrite (fieldv_nullish _ "status" E) in Hst. discriminate. }
  unfold try_catch, bind. cbn [lift_sum ret]. rewrite (get_run _ _ _ Hn).
  cbv beta iota. rewrite Hst.
  cbn [strict_eq String.eqb Ascii.eqb Bool.eqb]. cbv beta iota.
  unfold console_error, modify. cbv beta iota.
  repeat (rewrite (get_run _ _ _ Hn); cbv beta iota). rewrite Htok.
  cbn [lift_sum throw]. cbv beta iota.
  unfold setTimeout, modify. cbn [snd]. state_simpl.
  repeat split; reflexivity.
Qed.









(** X24.  When the forwarded call fails, or settles with [null] or
    [undefined] so that reading [response.result] throws, the handler logs
    the error and answers with a text block that carries the error's
    message; the token, the tokens file, the timers and the browser are
    left alone. *)
Theorem failed_call_is_reported
        (name arguments : value) (net : exn + value) (e : exn) (s : State) :
  call_failure net = Some e ->
  callTool name arguments net s
  = (Ret (text_content ("Error: " ++ error_message e)),
     add_log (LogErrorCallingTool e)
       (add_request
          (Post (tool_call name arguments)
             (request_headers (token s) (tool_call name arguments))) s)).
Proof.
  unfold call_failure. destruct net as [e'|response].
  - intros [= ->]. reflexivity.
  - destruct (is_nullish response) eqn:Hn; [|discriminate].
    intros [= <-]. destruct response; try discriminate; reflexivity.
Qed.

Lemma no_content_no_payload (response : value) :
  is_nullish response = false ->
  truthy (response_content response) = false ->
  embedded_payload response = inr None.
Proof.
  intros Hn Hc. unfold embedded_payload, response_content in *.
  rewrite (get_prop_defined _ "result" Hn).
  destruct (truthy (fieldv response "result")) eqn:Hr; [|reflexivity].
  cbn [negb]. rewrite (get_prop_defined _ "content" (truthy_not_nullish _ Hr)).
  rewrite Hc. reflexivity.
Qed.

(** X25.  A response without content is neither an auth-success nor a
    browser signal, and the handler answers with one text block holding the
    serialised [result] (an empty object when there is no result), changing
    nothing but the list of requests. *)
Theorem result_without_content_is_serialised
        (name arguments response : value) (s : State) :
  is_nullish response = false ->
  truthy (response_content response) = false ->
  isTokenAuthResponse response = VBool false
  /\ isAutoOpenBrowserResponse response = VBool false
  /\ callTool name arguments (inr response) s
     = (Ret (text_content
               (JSON_stringify (js_or (fieldv response "result") (obj [])))),
        add_request
          (Post (tool_call name arguments)
             (request_headers (token s) (tool_call name arguments))) s).
Proof.
  intros Hn Hc. pose proof (no_content_no_payload _ Hn Hc) as Hp.
  split; [unfold isTokenAuthResponse; rewrite Hp; reflexivity|].
  split; [unfold isAutoOpenBrowserResponse; rewrite Hp; reflexivity|].
  unfold callTool, try_catch, bind, makeHttpRequest, bind, gets, modify, lift_sum, ret.
  cbv beta iota. unfold isTokenAuthResponse, isAutoOpenBrowserResponse.
  rewrite Hp. cbn [truthy]. cbv beta iota.
  rewrite (get_run _ _ _ Hn). cbv beta iota.
  unfold response_content in Hc.
  destruct (is_nullish (fieldv response "result")) eqn:Hr.
  - destruct (fieldv response "result"); try discriminate; reflexivity.
  - destruct (fieldv response "result") eqn:Er; try discriminate;
      cbv beta iota; rewrite (get_run _ _ _ Hr); cbv beta iota;
      rewrite Hc; reflexivity.
Qed.

(** X26.  A payload whose [access_token] is not a string is never
    adopted, also when it is truthy and passes the classifier: the handler
    answers [false] (the failure of [substring] ends in its [catch]) and
    leaves the token and the tokens file as they were. *)
Theorem non_string_token_is_not_adopted
        (response content : value) (e : exn) (s : State) :
  embedded_payload response = inr (Some content) ->
  substring20 (fieldv content "access_token") = inl e ->
  fst (handleTokenAuthResponse response s) = Ret (VBool false)
  /\ token (snd (handleTokenAuthResponse response s)) = token s
  /\ tokensFile (snd (handleTokenAuthResponse response s)) = tokensFile s
  /\ writes (snd (handleTokenAuthResponse response s)) = writes s.
Proof.
  intros Hp Hs. unfold handleTokenAuthResponse, try_catch, bind. rewrite Hp.
  cbn [lift_sum ret]. unfold get, lift_opt.
  destruct (get_prop content "access_token") as [nt|] eqn:Hg;
    [|cbn; repeat split; reflexivity].
  assert (Hf : fieldv content "access_token" = nt)
    by (unfold fieldv; rewrite Hg; reflexivity).
  rewrite Hf in Hs. cbn [ret]. unfold gets. cbv beta iota.
  destruct (truthy nt && negb (strict_eq nt (token s)));
    [|cbn; repeat split; reflexivity].
  unfold console_error, modify. cbv beta iota.
  rewrite Hs. cbn. repeat split; reflexivity.
Qed.





(** X29.  A polling configuration that gives neither [check_interval] nor
    [max_wait_time] is polled first after 3 seconds, and its session, which
    starts at the time of the call, is within its waiting time exactly as
    long as no more than 300 seconds have passed. *)
Theorem polling_defaults (pollingConfig : value) (s : State) :
  is_nullish pollingConfig = false ->
  fieldv pollingConfig "check_interval" = VUndef ->
  fieldv pollingConfig "max_wait_time" = VUndef ->
  exists sess,
    timers (snd (startAutoPolling pollingConfig s))
    = (timers s ++ [mkTimer sess (Fin 3000)])%list
    /\ ps_state sess = fieldv pollingConfig "state"
    /\ ps_startTime sess = clock s
    /\ next_poll sess = mkTimer sess (Fin 3000)
    /\ forall s', in_time sess s' = (clock s' - clock s <=? 300000).
Proof.
  intros Hn Hi Hm. rewrite (startAutoPolling_run _ _ Hn).
  unfold polling_started, session_of. rewrite Hi, Hm. cbn [snd].
  eexists. split; [reflexivity|]. repeat split.
  intros s'. unfold in_time. cbn. 
  destruct (Z.ltb_spec 300000 (clock s' - clock s));
    destruct (Z.leb_spec (clock s' - clock s) 300000); try reflexivity; lia.
Qed.

Lemma strict_eq_true (v : value) : strict_eq v (VBool true) = true <-> v = VBool true.
Proof.
  destruct v as [| |[|]|[|]| |]; simpl; split; intros H;
    try discriminate; reflexivity.
Qed.

Lemma fieldv_defined (v x : value) (k : string) :
  fieldv v k = x -> x <> VUndef -> get_prop v k = Some x.
Proof.
  unfold fieldv. destruct (get_prop v k); intros <- H; [reflexivity | congruence].
Qed.

(** X30.  The classifiers are exact.  A response is taken for an
    auth-success exactly when its embedded payload has [success] equal to
    the boolean [true], a truthy [access_token] and [token_type] equal to
    the string "Bearer"; it is taken for a browser signal exactly when the
    payload has [auto_open_browser] equal to the boolean [true] and a
    truthy [authorization_url]. *)
Theorem classifiers_are_exact (response : value) :
  (truthy (isTokenAuthResponse response) = true
   <-> exists content,
         embedded_payload response = inr (Some content)
         /\ fieldv content "success" = VBool true
         /\ truthy (fieldv content "access_token") = true
         /\ fieldv content "token_type" = VStr "Bearer")
  /\ (truthy (isAutoOpenBrowserResponse response) = true
      <-> exists content,
            embedded_payload response = inr (Some content)
            /\ fieldv content "auto_open_browser" = VBool true
            /\ truthy (fieldv content "authorization_url") = true).
Proof.
  split; split.
  - unfold isTokenAuthResponse.
    destruct (embedded_payload response) as [e|[content|]]; try discriminate.
    intros H. exists content. split; [reflexivity|]. unfold fieldv.
    destruct (get_prop content "success") as [a|]; [|discriminate H].
    destruct (get_prop content "access_token") as [t|]; [|discriminate H].
    destruct (get_prop content "token_type") as [ty|]; [|discriminate H].
    unfold js_and in H. cbn [truthy] in H.
    destruct (strict_eq a (VBool true)) eqn:Ea; [|discriminate H].
    apply strict_eq_true in Ea.
    destruct (truthy t) eqn:Et; [|rewrite Et in H; discriminate H].
    cbn [truthy] in H. apply strict_eq_str in H. auto.
  - intros (content & Hp & Hs & Ht & Hty). unfold isTokenAuthResponse.
    rewrite Hp.
    rewrite (fieldv_defined _ _ _ Hs) by discriminate.
    rewrite (fieldv_defined _ _ _ Hty) by discriminate.
    assert (Hn : is_nullish content = false)
      by (destruct content; try reflexivity; discriminate Hs).
    rewrite (get_prop_defined _ "access_token" Hn).
    unfold js_and. cbn [strict_eq Bool.eqb truthy]. rewrite Ht.
    cbn [truthy]. reflexivity.
  - unfold isAutoOpenBrowserResponse.
    destruct (embedded_payload response) as [e|[content|]]; try discriminate.
    intros H. exists content. split; [reflexivity|]. unfold fieldv.
    destruct (get_prop content "auto_open_browser") as [a|]; [|discriminate H].
    destruct (get_prop content "authorization_url") as [u|]; [|discriminate H].
    unfold js_and in H. cbn [truthy] in H.
    destruct (strict_eq a (VBool true)) eqn:Ea; [|discriminate H].
    apply strict_eq_true in Ea. auto.
  - intros (content & Hp & Ha & Hu). unfold isAutoOpenBrowserResponse.
    rewrite Hp.
    rewrite (fieldv_defined _ _ _ Ha) by discriminate.
    assert (Hn : is_nullish content = false)
      by (destruct content; try reflexivity; discriminate Ha).
    rewrite (get_prop_defined _ "authorization_url" Hn).
    unfold js_and. cbn [strict_eq Bool.eqb truthy]. exact Hu.
Qed.
End Proofs.

Import Sample Scenario TokenCache HttpMcpProxy.

(** ** Runs on concrete inputs *)



(** C2, counterexample.  An auth-success response without [expires_in],
    handled at time 1000000 by a fresh proxy, is stored with expiry
    1000000 + 3600000 (one hour), not 1000000 + 604800000 (seven days). *)
Lemma auth_success_default_is_one_hour :
  embedded_payload no_lifetime = inr (Some (auth_success "tok-1"))
  /\ fieldv (auth_success "tok-1") "expires_in" = VUndef
  /\ record_field
       (tokensFile (snd (handleTokenAuthResponse no_lifetime (fresh 1000000 NoFile))))
       "mcp_thetahealth_ai" "expires_at"
     = Some (vnum (1000000 + 3600 * 1000))
  /\ record_field
       (tokensFile (snd (handleTokenAuthResponse no_lifetime (fresh 1000000 NoFile))))
       "mcp_thetahealth_ai" "expires_at"
     <> Some (vnum (1000000 + seven_days)).
Proof.
  split; [vm_compute; reflexivity|]. split; [vm_compute; reflexivity|].
  split; [vm_compute; reflexivity|]. vm_compute. discriminate.
Qed.

(** A concrete run: a response that declares a lifetime of 60 seconds. *)
Lemma new_token_expiry_witness :
  embedded_payload one_minute = inr (Some (auth_success_for "tok-1" 60))
  /\ fieldv (auth_success_for "tok-1" 60) "access_token" = VStr "tok-1"
  /\ can_store (fresh 1000000 NoFile) = true
  /\ environmentKey (fresh 1000000 NoFile) <> "__proto__"
  /\ safe_integer (clock (fresh 1000000 NoFile) + 60 * 1000)
  /\ record_field
       (tokensFile (snd (handleTokenAuthResponse one_minute (fresh 1000000 NoFile))))
       (environmentKey (fresh 1000000 NoFile)) "expires_at"
     = Some (vnum (clock (fresh 1000000 NoFile) + 60 * 1000))
  /\ record_field
       (tokensFile (snd (saveToken direct_save (fresh 1000000 NoFile))))
       (environmentKey (fresh 1000000 NoFile)) "expires_at"
     = Some (vnum (clock (fresh 1000000 NoFile) + seven_days)).
Proof.
  assert (H1 : embedded_payload one_minute
               = inr (Some (auth_success_for "tok-1" 60)))
    by (vm_compute; reflexivity).
  assert (H2 : fieldv (auth_success_for "tok-1" 60) "access_token" = VStr "tok-1")
    by (vm_compute; reflexivity).
  assert (H3 : "tok-1" <> "") by discriminate.
  assert (H4 : token (fresh 1000000 NoFile) <> VStr "tok-1")
    by (vm_compute; discriminate).
  assert (H5 : can_store (fresh 1000000 NoFile) = true)
    by (vm_compute; reflexivity).
  assert (H6 : environmentKey (fresh 1000000 NoFile) <> "__proto__")
    by (vm_compute; discriminate).
  assert (H7 : 0 <= clock (fresh 1000000 NoFile)) by (vm_compute; discriminate).
  assert (H8 : safe_integer (60 * 1000)) by (unfold safe_integer; simpl; lia).
  assert (H9 : safe_integer (clock (fresh 1000000 NoFile) + 60 * 1000))
    by (unfold safe_integer; simpl; lia).
  split; [exact H1|]. split; [exact H2|]. split; [exact H5|]. split; [exact H6|].
  split; [exact H9|].
  destruct (new_token_expiry one_minute (auth_success_for "tok-1" 60) "tok-1"
              (fresh 1000000 NoFile) H1 H2 H3 H4 H5 H6 H7) as (Hn & _ & Hd).
  split.
  - apply (Hn 60); [vm_compute; reflexivity | lia | simpl; lia | exact H8 | exact H9].
  - apply (Hd direct_save); vm_compute; reflexivity.
Defined.

(** C3, counterexample.  A response whose result carries no content has no
    embedded payload; the handler does not return its content, which is
    [undefined], but a text block of its own making. *)
Lemma missing_content_is_not_passed_through :
  malformed_payload bare_result
  /\ response_content bare_result = VUndef
  /\ fst (callTool (VStr "get_profile") (obj []) (inr bare_result)
            (fresh 1000000 NoFile))
     = Ret (text_content (json_text (obj [("ok", VBool true)])))
  /\ fst (callTool (VStr "get_profile") (obj []) (inr bare_result)
            (fresh 1000000 NoFile))
     <> Ret (obj [("content", response_content bare_result)]).
Proof.
  split; [left; vm_compute; reflexivity|]. split; [vm_compute; reflexivity|].
  split; [vm_compute; reflexivity|]. vm_compute. discriminate.
Qed.

(** A concrete run: a response whose text block is an HTML error page. *)
Lemma malformed_payload_passes_through_witness :
  malformed_payload not_json
  /\ isTokenAuthResponse not_json = VBool false
  /\ isAutoOpenBrowserResponse not_json = VBool false
  /\ callTool (VStr "get_profile") (obj []) (inr not_json) (fresh 1000000 NoFile)
     = (Ret (obj [("content", response_content not_json)]),
        add_request
          (Post (tool_call (VStr "get_profile") (obj []))
             (request_headers (token (fresh 1000000 NoFile))
                (tool_call (VStr "get_profile") (obj []))))
          (fresh 1000000 NoFile)).
Proof.
  assert (H : malformed_payload not_json).
  { right. right. left. vm_compute. reflexivity. }
  split; [exact H|].
  destruct (malformed_payload_passes_through (VStr "get_profile") (obj []) not_json
              (fresh 1000000 NoFile) H) as (Ht & Hb & Hc & _).
  split; [exact Ht|]. split; [exact Hb|]. exact (Hc eq_refl).
Defined.



(** C5, counterexample.  The session that [signal_a] starts at 1000000 is
    told [completed] by its first poll, three seconds later: the record is
    stored with expiry 1003000 + seven days, not start-time + seven days. *)
Lemma completed_poll_expiry_counts_from_the_poll :
  In (mkTimer session_a (Fin 3000)) (timers polling_since_1000000)
  /\ ps_startTime session_a = 1000000
  /\ fieldv completed_status "status" = VStr "completed"
  /\ fieldv completed_status "token" = VStr "abc123"
  /\ record_field
       (tokensFile (snd (poll session_a (inr completed_status) polling_since_1000000)))
       "mcp_thetahealth_ai" "access_token"
     = Some (VStr "abc123")
  /\ record_field
       (tokensFile (snd (poll session_a (inr completed_status) polling_since_1000000)))
       "mcp_thetahealth_ai" "expires_at"
     = Some (vnum (1003000 + seven_days))
  /\ record_field
       (tokensFile (snd (poll session_a (inr completed_status) polling_since_1000000)))
       "mcp_thetahealth_ai" "expires_at"
     <> Some (vnum (ps_startTime session_a + seven_days)).
Proof.
  split; [vm_compute; left; reflexivity|].
  repeat (split; [vm_compute; reflexivity|]). vm_compute. discriminate.
Qed.

(** A concrete run: the first poll of a session, three seconds after its start. *)
Lemma completed_poll_stores_token_witness :
  num_gt (Fin (clock polling_since_1000000 - ps_startTime session_a))
    (num_mul (toNumber (ps_max_wait_time session_a)) (Fin 1000)) = false
  /\ can_store polling_since_1000000 = true
  /\ timers (snd (poll session_a (inr completed_status) polling_since_1000000))
     = timers polling_since_1000000
  /\ token (snd (poll session_a (inr completed_status) polling_since_1000000))
     = VStr "abc123"
  /\ record_field
       (tokensFile (snd (poll session_a (inr completed_status) polling_since_1000000)))
       (environmentKey polling_since_1000000) "access_token"
     = Some (VStr "abc123")
  /\ record_field
       (tokensFile (snd (poll session_a (inr completed_status) polling_since_1000000)))
       (environmentKey polling_since_1000000) "expires_at"
     = Some (vnum (clock (tick polling_since_1000000) + seven_days))
  /\ clock polling_since_1000000 <= clock (tick polling_since_1000000).
Proof.
  assert (H1 : num_gt (Fin (clock polling_since_1000000 - ps_startTime session_a))
                 (num_mul (toNumber (ps_max_wait_time session_a)) (Fin 1000))
               = false) by (vm_compute; reflexivity).
  assert (H2 : fieldv completed_status "status" = VStr "completed")
    by (vm_compute; reflexivity).
  assert (H3 : fieldv completed_status "token" = VStr "abc123")
    by (vm_compute; reflexivity).
  assert (H4 : can_store polling_since_1000000 = true)
    by (vm_compute; reflexivity).
  assert (H5 : 0 <= clock polling_since_1000000) by (vm_compute; discriminate).
  assert (H6 : environmentKey polling_since_1000000 <> "__proto__")
    by (vm_compute; discriminate).
  split; [exact H1|]. split; [exact H4|].
  exact (completed_poll_stores_token session_a completed_status
           polling_since_1000000 H1 H2 H3 H4 H6 H5).
Defined.

(** C6, counterexample.  The stored record expired at 1999000; at 2000000
    the refresh succeeds and declares a lifetime of -5 seconds: the record
    now expires at 1995000, earlier than before. *)
Lemma negative_lifetime_moves_expiry_back :
  record_field (tokensFile (fresh 2000000 expired_file)) "mcp_thetahealth_ai"
    "expires_at"
  = Some (vnum 1999000)
  /\ In LogRefreshOk
       (console
          (snd (loadCachedToken (inr (response_of (refreshed "tok-2" (-5))))
                  (fresh 2000000 expired_file))))
  /\ record_field
       (tokensFile
          (snd (loadCachedToken (inr (response_of (refreshed "tok-2" (-5))))
                  (fresh 2000000 expired_file))))
       "mcp_thetahealth_ai" "expires_at"
     = Some (vnum 1995000)
  /\ 1995000 < 1999000.
Proof.
  split; [vm_compute; reflexivity|]. split; [vm_compute; left; reflexivity|].
  split; vm_compute; reflexivity.
Qed.

(** A concrete run: a refresh that declares a lifetime of 60 seconds. *)
Lemma refresh_expiry_monotone_witness :
  lifetime_in_range (refreshed "tok-2" 60)
    (clock (tick (tick (fresh 2000000 expired_file))))
  /\ In LogRefreshOk
       (console
          (snd (loadCachedToken (inr (response_of (refreshed "tok-2" 60)))
                  (fresh 2000000 expired_file))))
  /\ exists e',
       record_field
         (tokensFile
            (snd (loadCachedToken (inr (response_of (refreshed "tok-2" 60)))
                    (fresh 2000000 expired_file))))
         (environmentKey (fresh 2000000 expired_file)) "expires_at"
       = Some (vnum e')
       /\ 1999000 <= e'.
Proof.
  assert (H1 : truthy (token (fresh 2000000 expired_file)) = false)
    by (vm_compute; reflexivity).
  assert (H2 : can_store (fresh 2000000 expired_file) = true)
    by (vm_compute; reflexivity).
  assert (H3 : record_of (tokensFile (fresh 2000000 expired_file))
                 (environmentKey (fresh 2000000 expired_file))
               = Some (VObj Plain expired_record)) by (vm_compute; reflexivity).
  assert (H4 : obj_get expired_record "expires_at" = Some (vnum 1999000))
    by (vm_compute; reflexivity).
  assert (H5 : 1999000 <> 0) by discriminate.
  assert (H6 : 1999000 < clock (fresh 2000000 expired_file))
    by (vm_compute; reflexivity).
  assert (H7 : obj_get expired_record "refresh_token" = Some (VStr "refresh-1"))
    by (vm_compute; reflexivity).
  assert (H8 : truthy (VStr "refresh-1") = true) by (vm_compute; reflexivity).
  assert (H9 : embedded_payload (response_of (refreshed "tok-2" 60))
               = inr (Some (refreshed "tok-2" 60))) by (vm_compute; reflexivity).
  assert (H10 : truthy (fieldv (refreshed "tok-2" 60) "success") = true)
    by (vm_compute; reflexivity).
  assert (H11 : lifetime_in_range (refreshed "tok-2" 60)
                  (clock (tick (tick (fresh 2000000 expired_file))))).
  { right. exists 60. split; [vm_compute; reflexivity|].
    unfold safe_integer. simpl. lia. }
  split; [exact H11|].
  exact (refresh_expiry_monotone (response_of (refreshed "tok-2" 60))
           (refreshed "tok-2" 60) (VStr "refresh-1") expired_record 1999000
           (fresh 2000000 expired_file) H1 H2 H3 H4 H5 H6 H7 H8 H9 H10 H11).
Defined.

(** A concrete run: a proxy that already holds the token of the response. *)
Lemma identical_token_no_write_witness :
  truthy (isTokenAuthResponse no_lifetime) = true
  /\ strict_eq (fieldv (auth_success "tok-1") "access_token")
       (token (holding "tok-1" 1000000 NoFile)) = true
  /\ handleTokenAuthResponse no_lifetime (holding "tok-1" 1000000 NoFile)
     = (Ret (VBool false), holding "tok-1" 1000000 NoFile)
  /\ (writes (snd (handleTokenAuthResponse no_lifetime
                     (snd (handleTokenAuthResponse no_lifetime
                             (holding "tok-1" 1000000 NoFile)))))
      <= S (writes (holding "tok-1" 1000000 NoFile)))%nat.
Proof.
  assert (H1 : truthy (isTokenAuthResponse no_lifetime) = true)
    by (vm_compute; reflexivity).
  assert (H2 : embedded_payload no_lifetime = inr (Some (auth_success "tok-1")))
    by (vm_compute; reflexivity).
  assert (H3 : strict_eq (fieldv (auth_success "tok-1") "access_token")
                 (token (holding "tok-1" 1000000 NoFile)) = true)
    by (vm_compute; reflexivity).
  split; [exact H1|]. split; [exact H3|].
  destruct (identical_token_no_write no_lifetime (auth_success "tok-1")
              (holding "tok-1" 1000000 NoFile) H1 H2) as [Hsame Htwice].
  split; [exact (Hsame H3) | exact Htwice].
Defined.

(** A concrete run: a poll that runs 300001 milliseconds after the start of a 300-second session. *)
Lemma poll_timeout_stops_witness :
  toNumber (ps_max_wait_time session_a) = Fin 300
  /\ 300 * 1000 < clock polling_too_long - ps_startTime session_a
  /\ poll session_a (inr completed_status) polling_too_long
     = (Ret tt, add_log LogPollTimeout (tick polling_too_long)).
Proof.
  assert (H1 : toNumber (ps_max_wait_time session_a) = Fin 300)
    by (vm_compute; reflexivity).
  assert (H2 : 300 * 1000 < clock polling_too_long - ps_startTime session_a)
    by (vm_compute; reflexivity).
  split; [exact H1|]. split; [exact H2|].
  exact (poll_timeout_stops session_a (inr completed_status) polling_too_long
           300 H1 H2).
Defined.




(** A concrete run: the record of [stale_cache], which expired at 1999000,
    loaded at 2000000. *)
Lemma load_expired_token_is_flagged_witness :
  can_store stale_cache = true
  /\ 1999000 < clock stale_cache
  /\ loadToken stale_cache
     = (Ret (obj (obj_set expired_record "expired" (VBool true))),
        tick stale_cache).
Proof.
  assert (H1 : can_store stale_cache = true) by (vm_compute; reflexivity).
  assert (H2 : record_of (tokensFile stale_cache) (environmentKey stale_cache)
               = Some (VObj Plain expired_record)) by (vm_compute; reflexivity).
  assert (H3 : obj_get expired_record "expires_at" = Some (vnum 1999000))
    by (vm_compute; reflexivity).
  assert (H4 : 1999000 <> 0) by discriminate.
  assert (H5 : 1999000 < clock stale_cache) by (vm_compute; reflexivity).
  split; [exact H1|]. split; [exact H5|].
  exact (proj1 (load_expired_token_is_flagged expired_record 1999000
                  stale_cache H1 H2 H3 H4 H5)).
Defined.

(** A concrete run: a file that only holds the record of the staging
    environment, read by the proxy of the default endpoint. *)
Lemma missing_record_is_not_found_witness :
  obj_get [("staging_example", staging_record)] (environmentKey staging_only)
  = None
  /\ fst (getTokenStatus staging_only) = Ret NotFound
  /\ tokensFile (snd (getTokenStatus staging_only)) = tokensFile staging_only.
Proof.
  assert (H1 : loaded (tokensFile staging_only)
               = VObj Plain [("staging_example", staging_record)])
    by (vm_compute; reflexivity).
  assert (H2 : obj_get [("staging_example", staging_record)]
                 (environmentKey staging_only) = None)
    by (vm_compute; reflexivity).
  assert (H3 : inherits (VObj Plain [("staging_example", staging_record)])
                 (environmentKey staging_only) = false)
    by (vm_compute; reflexivity).
  split; [exact H2|].
  destruct (missing_record_is_not_found [("staging_example", staging_record)]
              staging_only H1 H2 H3) as (_ & Hs & Hf & _).
  split; [exact Hs | exact Hf].
Defined.


(** A concrete run: clearing on a file that only holds the staging
    record. *)
Lemma clear_absent_is_noop_witness :
  obj_get [("staging_example", staging_record)] (environmentKey staging_only)
  = None
  /\ tokensFile (snd (clearToken staging_only)) = tokensFile staging_only
  /\ writes (snd (clearToken staging_only)) = writes staging_only.
Proof.
  assert (H1 : loaded (tokensFile staging_only)
               = VObj Plain [("staging_example", staging_record)])
    by (vm_compute; reflexivity).
  assert (H2 : obj_get [("staging_example", staging_record)]
                 (environmentKey staging_only) = None)
    by (vm_compute; reflexivity).
  assert (H3 : inherits (VObj Plain [("staging_example", staging_record)])
                 (environmentKey staging_only) = false)
    by (vm_compute; reflexivity).
  split; [exact H2|].
  destruct (clear_absent_is_noop [("staging_example", staging_record)]
              staging_only H1 H2 H3) as (_ & Hf & Hw & _).
  split; [exact Hf | exact Hw].
Defined.

(** A concrete run: a save into a cache directory that cannot be written,
    and a save on a disk that fills up during the write. *)
Lemma save_unwritable_reports_false_witness :
  writable read_only_disk = false
  /\ fst (saveToken direct_save read_only_disk) = Ret (VBool false)
  /\ tokensFile (snd (saveToken direct_save read_only_disk))
     = tokensFile read_only_disk
  /\ writable full_disk = false
  /\ fst (saveToken direct_save full_disk) = Ret (VBool false)
  /\ tokensFile (snd (saveToken direct_save full_disk)) = Unreadable.
Proof.
  assert (H1 : writable read_only_disk = false) by reflexivity.
  assert (H2 : writable full_disk = false) by reflexivity.
  split; [exact H1|].
  destruct (save_unwritable_reports_false direct_save [] read_only_disk H1)
    as (Hr & _ & Hf & _).
  split; [exact Hr|]. split; [exact (Hf eq_refl)|]. split; [exact H2|].
  destruct (save_unwritable_reports_false direct_save
              [("staging_example", staging_record)] full_disk H2)
    as (Hr' & _ & _ & Hf').
  split; [exact Hr'|]. exact (Hf' eq_refl eq_refl eq_refl).
Defined.

(** A concrete run: a save when the tokens file holds the text [null]. *)
Lemma save_into_non_object_fails_witness :
  tokensFile null_file = Parsed VNull
  /\ fst (saveToken direct_save null_file) = Ret (VBool false)
  /\ tokensFile (snd (saveToken direct_save null_file)) = tokensFile null_file.
Proof.
  assert (H1 : tokensFile null_file = Parsed VNull) by reflexivity.
  assert (H2 : is_object VNull = false) by reflexivity.
  assert (H3 : is_nullish VNull = true
               \/ environmentKey null_file <> "__proto__")
    by (left; reflexivity).
  split; [exact H1|].
  destruct (save_into_non_object_fails direct_save VNull null_file H1 H2 H3)
    as (Hr & Hf & _).
  split; [exact Hr | exact Hf].
Defined.



(** A concrete run: [live_cache] starts with no token in memory while the
    remote service cannot be reached. *)
Lemma cached_token_used_without_network_witness :
  truthy (token live_cache) = false
  /\ fst (loadCachedToken offline live_cache) = Ret (VStr "tok-live")
  /\ token (snd (loadCachedToken offline live_cache)) = VStr "tok-live"
  /\ requests (snd (loadCachedToken offline live_cache)) = requests live_cache.
Proof.
  assert (H0 : truthy (token live_cache) = false) by reflexivity.
  assert (H1 : can_store live_cache = true) by (vm_compute; reflexivity).
  assert (H2 : record_of (tokensFile live_cache) (environmentKey live_cache)
               = Some (VObj Plain valid_record)) by (vm_compute; reflexivity).
  assert (H3 : obj_get valid_record "expires_at" = Some (vnum 5000000))
    by (vm_compute; reflexivity).
  assert (H4 : 5000000 <> 0) by discriminate.
  assert (H5 : clock live_cache <= 5000000) by (vm_compute; discriminate).
  assert (H6 : obj_get valid_record "expired" = None)
    by (vm_compute; reflexivity).
  assert (H7 : obj_get valid_record "access_token" = Some (VStr "tok-live"))
    by (vm_compute; reflexivity).
  split; [exact H0|].
  destruct (cached_token_used_without_network offline valid_record 5000000
              "tok-live" live_cache H0 H1 H2 H3 H4 H5 H6 H7)
    as (Hr & Ht & Hq & _).
  split; [exact Hr|]. split; [exact Ht | exact Hq].
Defined.


(** A concrete run: [stale_cache] tries to refresh its expired record while
    the remote service cannot be reached. *)
Lemma failed_refresh_leaves_record_witness :
  refresh_fails offline
  /\ fst (loadCachedToken offline stale_cache) = Ret VNull
  /\ tokensFile (snd (loadCachedToken offline stale_cache))
     = tokensFile stale_cache
  /\ writes (snd (loadCachedToken offline stale_cache)) = writes stale_cache.
Proof.
  assert (H0 : truthy (token stale_cache) = false) by reflexivity.
  assert (H1 : can_store stale_cache = true) by (vm_compute; reflexivity).
  assert (H2 : record_of (tokensFile stale_cache) (environmentKey stale_cache)
               = Some (VObj Plain expired_record)) by (vm_compute; reflexivity).
  assert (H3 : obj_get expired_record "expires_at" = Some (vnum 1999000))
    by (vm_compute; reflexivity).
  assert (H4 : 1999000 <> 0) by discriminate.
  assert (H5 : 1999000 < clock stale_cache) by (vm_compute; reflexivity).
  assert (H6 : obj_get expired_record "refresh_token" = Some (VStr "refresh-1"))
    by (vm_compute; reflexivity).
  assert (H7 : truthy (VStr "refresh-1") = true) by reflexivity.
  assert (H8 : refresh_fails offline) by exact I.
  split; [exact H8|].
  destruct (failed_refresh_leaves_record offline (VStr "refresh-1")
              expired_record 1999000 stale_cache H0 H1 H2 H3 H4 H5 H6 H7 H8)
    as (Hr & Hf & Hw & _).
  split; [exact Hr|]. split; [exact Hf | exact Hw].
Defined.


(** A concrete run: the first poll of [session_a], three seconds after its
    start, finds the remote service unreachable. *)
Lemma poll_retries_when_undecided_witness :
  in_time session_a polling_since_1000000 = true
  /\ inconclusive offline = true
  /\ timers (snd (poll session_a offline polling_since_1000000))
     = (timers polling_since_1000000 ++ [next_poll session_a])%list
  /\ token (snd (poll session_a offline polling_since_1000000))
     = token polling_since_1000000.
Proof.
  assert (H1 : in_time session_a polling_since_1000000 = true)
    by (vm_compute; reflexivity).
  assert (H2 : inconclusive offline = true) by reflexivity.
  split; [exact H1|]. split; [exact H2|].
  destruct (poll_retries_when_undecided session_a offline polling_since_1000000
              H1 H2) as (Ht & Hk & _).
  split; [exact Ht | exact Hk].
Defined.

(** A concrete run: the first poll of [session_a] is told that the session
    has expired. *)
Lemma poll_stops_on_rejected_session_witness :
  in_time session_a polling_since_1000000 = true
  /\ fieldv expired_status "status" = VStr "expired"
  /\ timers (snd (poll session_a (inr expired_status) polling_since_1000000))
     = timers polling_since_1000000.
Proof.
  assert (H1 : in_time session_a polling_since_1000000 = true)
    by (vm_compute; reflexivity).
  assert (H2 : fieldv expired_status "status" = VStr "expired")
    by (vm_compute; reflexivity).
  split; [exact H1|]. split; [exact H2|].
  exact (proj1 (poll_stops_on_rejected_session session_a expired_status
                  polling_since_1000000 H1 (or_introl H2))).
Defined.

(** A concrete run: the first poll of [session_a] is told [completed] by a
    body that carries no token. *)
Lemma completed_without_token_retries_witness :
  in_time session_a polling_since_1000000 = true
  /\ fieldv completed_without_token "status" = VStr "completed"
  /\ substring20 (fieldv completed_without_token "token") = inl TypeError
  /\ timers (snd (poll session_a (inr completed_without_token)
                    polling_since_1000000))
     = (timers polling_since_1000000 ++ [next_poll session_a])%list
  /\ token (snd (poll session_a (inr completed_without_token)
                   polling_since_1000000))
     = token polling_since_1000000.
Proof.
  assert (H1 : in_time session_a polling_since_1000000 = true)
    by (vm_compute; reflexivity).
  assert (H2 : fieldv completed_without_token "status" = VStr "completed")
    by (vm_compute; reflexivity).
  assert (H3 : substring20 (fieldv completed_without_token "token")
               = inl TypeError) by (vm_compute; reflexivity).
  split; [exact H1|]. split; [exact H2|]. split; [exact H3|].
  destruct (completed_without_token_retries session_a completed_without_token
              TypeError polling_since_1000000 H1 H2 H3) as (Ht & Hk & _).
  split; [exact Ht | exact Hk].
Defined.

(** A concrete run: a call whose response has a result but no content. *)
Lemma result_without_content_is_serialised_witness :
  truthy (response_content bare_result) = false
  /\ callTool (VStr "get_profile") (obj []) (inr bare_result)
       (fresh 1000000 NoFile)
     = (Ret (text_content
               (JSON_stringify (js_or (fieldv bare_result "result") (obj [])))),
        add_request
          (Post (tool_call (VStr "get_profile") (obj []))
             (request_headers (token (fresh 1000000 NoFile))
                (tool_call (VStr "get_profile") (obj []))))
          (fresh 1000000 NoFile)).
Proof.
  assert (H1 : is_nullish bare_result = false) by reflexivity.
  assert (H2 : truthy (response_content bare_result) = false)
    by (vm_compute; reflexivity).
  split; [exact H2|].
  exact (proj2 (proj2 (result_without_content_is_serialised
                         (VStr "get_profile") (obj []) bare_result
                         (fresh 1000000 NoFile) H1 H2))).
Defined.

(** A concrete run: an auth-success payload whose token is the number
    12345; the classifier accepts it and the handler does not adopt it. *)
Lemma non_string_token_is_not_adopted_witness :
  truthy (@isTokenAuthResponse numeric_host numeric_reply) = true
  /\ @embedded_payload numeric_host numeric_reply = inr (Some numeric_token)
  /\ substring20 (fieldv numeric_token "access_token") = inl TypeError
  /\ fst (@handleTokenAuthResponse numeric_host numeric_reply
            (fresh 1000000 NoFile)) = Ret (VBool false)
  /\ token (snd (@handleTokenAuthResponse numeric_host numeric_reply
                   (fresh 1000000 NoFile)))
     = token (fresh 1000000 NoFile).
Proof.
  assert (H1 : @embedded_payload numeric_host numeric_reply
               = inr (Some numeric_token)) by (vm_compute; reflexivity).
  assert (H2 : substring20 (fieldv numeric_token "access_token") = inl TypeError)
    by (vm_compute; reflexivity).
  split; [vm_compute; reflexivity|]. split; [exact H1|]. split; [exact H2|].
  destruct (@non_string_token_is_not_adopted numeric_host numeric_reply
              numeric_token TypeError (fresh 1000000 NoFile) H1 H2)
    as (Hr & Ht & _).
  split; [exact Hr | exact Ht].
Defined.



(** A concrete run: polling started at 1000000 from a configuration that
    names only the session. *)
Lemma polling_defaults_witness :
  fieldv bare_polling_config "check_interval" = VUndef
  /\ fieldv bare_polling_config "max_wait_time" = VUndef
  /\ exists sess,
       timers (snd (startAutoPolling bare_polling_config (fresh 1000000 NoFile)))
       = (timers (fresh 1000000 NoFile) ++ [mkTimer sess (Fin 3000)])%list
       /\ ps_startTime sess = clock (fresh 1000000 NoFile).
Proof.
  assert (H1 : is_nullish bare_polling_config = false) by reflexivity.
  assert (H2 : fieldv bare_polling_config "check_interval" = VUndef)
    by (vm_compute; reflexivity).
  assert (H3 : fieldv bare_polling_config "max_wait_time" = VUndef)
    by (vm_compute; reflexivity).
  split; [exact H2|]. split; [exact H3|].
  destruct (polling_defaults bare_polling_config (fresh 1000000 NoFile)
              H1 H2 H3) as (sess & Ht & _ & Hs & _).
  exists sess. split; [exact Ht | exact Hs].
Defined.

(** A concrete run: the remote service answers a call with the JSON text
    [null]. *)
Lemma failed_call_is_reported_witness :
  call_failure (inr VNull) = Some TypeError
  /\ callTool (VStr "get_profile") (obj []) (inr VNull) (fresh 1000000 NoFile)
     = (Ret (text_content ("Error: " ++ error_message TypeError)),
        add_log (LogErrorCallingTool TypeError)
          (add_request
             (Post (tool_call (VStr "get_profile") (obj []))
                (request_headers (token (fresh 1000000 NoFile))
                   (tool_call (VStr "get_profile") (obj []))))
             (fresh 1000000 NoFile))).
Proof.
  assert (H1 : call_failure (inr VNull) = Some TypeError) by reflexivity.
  split; [exact H1|].
  exact (failed_call_is_reported (VStr "get_profile") (obj []) (inr VNull)
           TypeError (fresh 1000000 NoFile) H1).
Defined.
